(** * PIX payment payload encoder (apps/core/services/pix.py)

    A shallow embedding of [PixService]: the key and text normalizers, the
    EMV tag-length-value field builder, the CRC16 checksum and
    [generate_pix_code], followed by the properties of the encoder.

    A Python [str] is the list of its code points, an [int] is a [Z], and an
    exception is the [Raise] result of a small error monad.  The functions of
    Python's runtime that depend on the Unicode character database
    ([str.lower], [str.isspace], [unicodedata.normalize], ...) are the fields
    of the class [Unicode]; what the proofs use of them is stated in
    [UnicodeSpec]. *)

From Stdlib Require Import String Ascii List ZArith Lia Bool.
Import ListNotations.
Local Open Scope Z_scope.

(** ** Python values *)

(** A [str] as the list of its code points. *)
Definition pystr := list Z.

(** A literal of the source, written as a Rocq string of ASCII characters. *)
Definition str (s : string) : pystr :=
  map (fun a => Z.of_N (N_of_ascii a)) (list_ascii_of_string s).

(** The exceptions the encoder can meet. *)
Inductive exn : Type :=
| UnicodeEncodeError
| InvalidOperation
| ValueError.

Inductive result (A : Type) : Type :=
| Ok (a : A)
| Raise (e : exn).
Arguments Ok {A} a.
Arguments Raise {A} e.

Definition bind {A B : Type} (m : result A) (k : A -> result B) : result B :=
  match m with
  | Ok a => k a
  | Raise e => Raise e
  end.

Notation "x <- m ;; k" := (bind m (fun x => k))
  (at level 61, m at next level, right associativity).

(** [a or b] on strings: [a] unless it is empty. *)
Definition str_or (a b : pystr) : pystr :=
  match a with
  | [] => b
  | _ :: _ => a
  end.

(** [s[:n]] for an [int] n: a negative bound counts from the end. *)
Definition slice_to (s : pystr) (n : Z) : pystr :=
  if 0 <=? n then firstn (Z.to_nat n) s
  else firstn (length s - Z.to_nat (- n)) s.

(** [s[a:b]] for literal bounds [0 <= a <= b]. *)
Definition slice (a b : nat) (s : pystr) : pystr :=
  firstn (b - a) (skipn a s).

(** [s[a:]]. *)
Definition slice_from (a : nat) (s : pystr) : pystr := skipn a s.

Definition startswith (p s : pystr) : bool :=
  if list_eq_dec Z.eq_dec (firstn (length p) s) p then true else false.

(** [c in s] for a one-character string [c]. *)
Definition contains (c : Z) (s : pystr) : bool := existsb (Z.eqb c) s.

(** [sep.join(words)]. *)
Fixpoint join (sep : pystr) (words : list pystr) : pystr :=
  match words with
  | [] => []
  | w :: ws =>
      match ws with
      | [] => w
      | _ :: _ => w ++ sep ++ join sep ws
      end
  end.

(** *** Integers as text *)

(** The digits of [n >= 0] in base [base], most significant first, each
    digit drawn by [digit]; [fuel] bounds the number of digits. *)
Fixpoint digits_of (base : Z) (digit : Z -> Z) (fuel : nat) (n : Z)
  (acc : pystr) : pystr :=
  match fuel with
  | O => acc
  | S fuel' =>
      let acc' := digit (n mod base) :: acc in
      if n <? base then acc' else digits_of base digit fuel' (n / base) acc'
  end.

(** A bound on the number of digits of [n] in any base from 2 up. *)
Definition digit_fuel (n : Z) : nat := S (Z.to_nat (Z.log2 n)).

Definition dec_digit (d : Z) : Z := 48 + d.

(** [str(n)] for an [int]. *)
Definition str_of_int (n : Z) : pystr :=
  if n <? 0 then 45 :: digits_of 10 dec_digit (digit_fuel (- n)) (- n) []
  else digits_of 10 dec_digit (digit_fuel n) n [].

(** [s.zfill(width)]: zeros on the left, after a sign if there is one. *)
Definition zfill (width : nat) (s : pystr) : pystr :=
  let zeros := repeat 48 (width - length s) in
  match s with
  | c :: s' => if (c =? 43) || (c =? 45) then c :: zeros ++ s' else zeros ++ s
  | [] => zeros
  end.

Definition hex_digit_upper (d : Z) : Z := if d <? 10 then 48 + d else 55 + d.

(** [format(n, "04X")] for [n >= 0]: upper-case hexadecimal, zero-padded to
    four characters. *)
Definition format_04X (n : Z) : pystr :=
  let digits := digits_of 16 hex_digit_upper (digit_fuel n) n [] in
  repeat 48 (4 - length digits) ++ digits.

(** *** UTF-8 *)

Definition encode_char (c : Z) : result (list Z) :=
  if (0 <=? c) && (c <? 0x80) then Ok [c]
  else if (0x80 <=? c) && (c <? 0x800) then
    Ok [Z.lor 0xC0 (Z.shiftr c 6); Z.lor 0x80 (Z.land c 0x3F)]
  else if (0x800 <=? c) && (c <? 0x10000) then
    if (0xD800 <=? c) && (c <=? 0xDFFF) then Raise UnicodeEncodeError
    else Ok [Z.lor 0xE0 (Z.shiftr c 12);
             Z.lor 0x80 (Z.land (Z.shiftr c 6) 0x3F);
             Z.lor 0x80 (Z.land c 0x3F)]
  else if (0x10000 <=? c) && (c <=? 0x10FFFF) then
    Ok [Z.lor 0xF0 (Z.shiftr c 18);
        Z.lor 0x80 (Z.land (Z.shiftr c 12) 0x3F);
        Z.lor 0x80 (Z.land (Z.shiftr c 6) 0x3F);
        Z.lor 0x80 (Z.land c 0x3F)]
  else Raise UnicodeEncodeError.

(** [s.encode("utf-8")]: the bytes of [s], or [UnicodeEncodeError] at a
    surrogate code point. *)
Fixpoint encode_utf8 (s : pystr) : result (list Z) :=
  match s with
  | [] => Ok []
  | c :: s' =>
      b <- encode_char c ;;
      bs <- encode_utf8 s' ;;
      Ok (b ++ bs)
  end.

(** *** Decimal *)

(** A [decimal.Decimal]: a finite number [(-1)^sign * coefficient *
    10^exponent] with [coefficient >= 0], an infinity, or a NaN. *)
Inductive Decimal : Type :=
| Finite (sign : bool) (coefficient : Z) (exponent : Z)
| Infinity (sign : bool)
| NaN.

(** [d > 0]: an ordering comparison with a NaN signals [InvalidOperation],
    which the default context traps. *)
Definition decimal_gt_zero (d : Decimal) : result bool :=
  match d with
  | Finite sign c _ => Ok (negb sign && (0 <? c))
  | Infinity sign => Ok (negb sign)
  | NaN => Raise InvalidOperation
  end.

(** The coefficient of [c * 10^e] rescaled to the exponent [-2], rounding
    half to even (the default context's rounding). *)
Definition rescale2 (c e : Z) : Z :=
  if -2 <=? e then c * 10 ^ (e + 2)
  else
    let d := 10 ^ (- 2 - e) in
    let q := c / d in
    let r := c mod d in
    if 2 * r <? d then q
    else if d <? 2 * r then q + 1
    else if Z.even q then q else q + 1.

(** The text of [f"{d:.2f}"], when the formatting returns. *)
Definition format_2f (d : Decimal) : pystr :=
  match d with
  | Finite sign c e =>
      let cents := rescale2 c e in
      (if sign then [45] else [])
        ++ str_of_int (cents / 100) ++ [46]
        ++ zfill 2 (str_of_int (cents mod 100))
  | Infinity sign => (if sign then [45] else []) ++ str "Infinity"
  | NaN => str "NaN"
  end.

(** The most digits a coefficient can have in the [_decimal] module of a
    64-bit CPython ([MPD_MAX_PREC] of libmpdec). *)
Definition MPD_MAX_PREC : Z := 999999999999999999.

(** The number of decimal digits of a coefficient. *)
Definition decimal_digits (c : Z) : Z := Z.of_nat (length (str_of_int c)).

(** Whether [f"{d:.2f}"] is refused: rescaling a number that is not zero to
    the exponent [-2] shifts its coefficient left by [e + 2] digits, which
    the module refuses when the result would have more than
    [MPD_MAX_PREC + 1] digits.  (A shift below that limit can still exhaust
    the memory; the theorems that need the text keep the amount small.) *)
Definition format_2f_overflow (d : Decimal) : bool :=
  match d with
  | Finite _ c e =>
      negb (c =? 0) && (-2 <=? e)
      && (MPD_MAX_PREC + 1 <? decimal_digits c + (e + 2))
  | Infinity _ => false
  | NaN => false
  end.

(** [f"{d:.2f}"]: the text, or the [ValueError] of a format that exceeds
    the limits of the module. *)
Definition decimal_format_2f (d : Decimal) : result pystr :=
  if format_2f_overflow d then Raise ValueError else Ok (format_2f d).

(** *** Regular expressions

    The patterns of the source are sequences of the items below; [re_match]
    is [re.match] with backtracking over the optional and repeated items. *)
Inductive re_item : Type :=
| Rep (cls : Z -> bool) (n : nat)   (* [cls]{n} *)
| Lit (c : Z)                       (* the character c *)
| Opt (c : Z)                       (* c? *)
| Plus (cls : Z -> bool)            (* [cls]+ *)
| Dollar.                           (* $ *)

Fixpoint take_class (cls : Z -> bool) (n : nat) (s : pystr) : option pystr :=
  match n with
  | O => Some s
  | S n' =>
      match s with
      | c :: s' => if cls c then take_class cls n' s' else None
      | [] => None
      end
  end.

(** [$] matches at the end of the string and before a final newline. *)
Definition at_end (s : pystr) : bool :=
  match s with
  | [] => true
  | [c] => c =? 10
  | _ => false
  end.

Fixpoint re_match (r : list re_item) (s : pystr) : bool :=
  match r with
  | [] => true
  | Rep cls n :: r' =>
      match take_class cls n s with
      | Some s' => re_match r' s'
      | None => false
      end
  | Lit c :: r' =>
      match s with
      | c' :: s' => (c' =? c) && re_match r' s'
      | [] => false
      end
  | Opt c :: r' =>
      match s with
      | c' :: s' => ((c' =? c) && re_match r' s') || re_match r' s
      | [] => re_match r' s
      end
  | Plus cls :: r' =>
      (fix plus (s : pystr) : bool :=
         match s with
         | c :: s' => cls c && (plus s' || re_match r' s')
         | [] => false
         end) s
  | Dollar :: r' => at_end s && re_match r' s
  end.

(** *** The Unicode character database *)

Class Unicode : Type := {
  (** [c.isspace()], the whitespace of [strip()] and [split()] *)
  isspace : Z -> bool;
  (** the value of a decimal digit (category Nd): what [\d] matches and
      [int()] reads *)
  decimal : Z -> option Z;
  (** [s.lower()] *)
  lower : pystr -> pystr;
  (** [s.upper()] *)
  upper : pystr -> pystr;
  (** [unicodedata.normalize("NFD", s)] *)
  nfd : pystr -> pystr;
  (** [unicodedata.category(c) == "Mn"] *)
  category_Mn : Z -> bool
}.

Section Strings.
Context {U : Unicode}.

Fixpoint lstrip (s : pystr) : pystr :=
  match s with
  | c :: s' => if isspace c then lstrip s' else s
  | [] => []
  end.

Definition rstrip (s : pystr) : pystr := rev (lstrip (rev s)).

(** [s.strip()]. *)
Definition strip (s : pystr) : pystr := rstrip (lstrip s).

(** [s.split()]: the maximal runs of non-whitespace; [word] is the run
    being read. *)
Fixpoint split_from (word : pystr) (s : pystr) : list pystr :=
  match s with
  | [] => match word with [] => [] | _ :: _ => [word] end
  | c :: s' =>
      if isspace c then
        match word with
        | [] => split_from [] s'
        | _ :: _ => word :: split_from [] s'
        end
      else split_from (word ++ [c]) s'
  end.

Definition split (s : pystr) : list pystr := split_from [] s.

(** The class [\d]. *)
Definition is_digit (c : Z) : bool :=
  match decimal c with
  | Some _ => true
  | None => false
  end.

(** [int(s)] for a string of decimal digits. *)
Definition int_of_digits (s : pystr) : Z :=
  fold_left
    (fun acc c => 10 * acc + match decimal c with Some v => v | None => 0 end)
    s 0.
End Strings.

(** The classes [a-fA-F0-9], [a-zA-Z0-9 ] and [a-zA-Z0-9]. *)
Definition is_ascii_digit (c : Z) : bool := (48 <=? c) && (c <=? 57).
Definition is_ascii_upper (c : Z) : bool := (65 <=? c) && (c <=? 90).
Definition is_ascii_lower (c : Z) : bool := (97 <=? c) && (c <=? 122).
Definition is_hex (c : Z) : bool :=
  ((97 <=? c) && (c <=? 102)) || ((65 <=? c) && (c <=? 70)) || is_ascii_digit c.
Definition is_alnum (c : Z) : bool :=
  is_ascii_lower c || is_ascii_upper c || is_ascii_digit c.
Definition is_alnum_space (c : Z) : bool := is_alnum c || (c =? 32).

(** ** The service *)

(** The dataclass [PixPayload]. *)
Record PixPayload : Type := {
  payload_pix_key : pystr;
  payload_merchant_name : pystr;
  payload_merchant_city : pystr;
  payload_amount : option Decimal;
  payload_description : pystr;
  payload_transaction_id : pystr
}.

(** The attributes of a [PixService] instance. *)
Record PixService : Type := {
  pix_key : pystr;
  merchant_name : pystr;
  merchant_city : pystr
}.

(** EMV tag ids. *)
Definition PAYLOAD_FORMAT_INDICATOR : pystr := str "00".
Definition POINT_OF_INITIATION : pystr := str "01".
Definition MERCHANT_ACCOUNT_INFO : pystr := str "26".
Definition MERCHANT_CATEGORY_CODE : pystr := str "52".
Definition TRANSACTION_CURRENCY : pystr := str "53".
Definition TRANSACTION_AMOUNT : pystr := str "54".
Definition COUNTRY_CODE : pystr := str "58".
Definition MERCHANT_NAME : pystr := str "59".
Definition MERCHANT_CITY : pystr := str "60".
Definition ADDITIONAL_DATA_FIELD : pystr := str "62".
Definition CRC16 : pystr := str "63".

Definition PIX_GUI : pystr := str "br.gov.bcb.pix".

(** The patterns of [_normalize_pix_key]. *)
Definition uuid_pattern : list re_item :=
  [Rep is_hex 8; Lit 45; Rep is_hex 4; Lit 45; Rep is_hex 4; Lit 45;
   Rep is_hex 4; Lit 45; Rep is_hex 12; Dollar].

Definition hex_pattern : list re_item := [Plus is_hex; Dollar].

Section PixService.
Context {U : Unicode}.

Definition cpf_formatted_pattern : list re_item :=
  [Rep is_digit 3; Lit 46; Rep is_digit 3; Lit 46; Rep is_digit 3; Lit 45;
   Rep is_digit 2; Dollar].

Definition cnpj_pattern : list re_item :=
  [Rep is_digit 2; Opt 46; Rep is_digit 3; Opt 46; Rep is_digit 3; Opt 47;
   Rep is_digit 4; Opt 45; Rep is_digit 2; Dollar].

Definition _remove_accents (text : pystr) : pystr :=
  let normalized := nfd text in
  filter (fun char => negb (category_Mn char)) normalized.

(** The test of [looks_like_br_phone]. *)
Definition looks_like_br_phone (digits_only : pystr) : bool :=
  if (length digits_only =? 11)%nat && (nth 2 digits_only 0 =? 57) then
    let ddd := int_of_digits (firstn 2 digits_only) in
    (11 <=? ddd) && (ddd <=? 99)
  else if (length digits_only =? 10)%nat then
    let ddd := int_of_digits (firstn 2 digits_only) in
    (11 <=? ddd) && (ddd <=? 99)
  else false.

Definition _normalize_pix_key (key : pystr) : pystr :=
  match key with
  | [] => []
  | _ :: _ =>
      let key := strip key in
      if contains 64 key then lower key
      else if re_match uuid_pattern key then lower key
      else
        let hex_only := filter is_hex key in
        if (length hex_only =? 32)%nat && re_match hex_pattern key then
          lower (slice 0 8 hex_only ++ [45] ++ slice 8 12 hex_only ++ [45]
                   ++ slice 12 16 hex_only ++ [45] ++ slice 16 20 hex_only
                   ++ [45] ++ slice_from 20 hex_only)
        else
          let digits_only := filter is_digit key in
          let has_plus := startswith (str "+") key in
          if re_match cpf_formatted_pattern key
             && (length digits_only =? 11)%nat
          then digits_only
          else if re_match cnpj_pattern key
                  && (length digits_only =? 14)%nat
          then digits_only
          else
            let has_parentheses :=
              existsb (fun c => (c =? 40) || (c =? 41)) key in
            let country_code :=
              startswith (str "55") digits_only
              && (12 <=? length digits_only)%nat in
            let is_phone :=
              has_plus || has_parentheses || country_code
              || looks_like_br_phone digits_only in
            if is_phone && negb (length digits_only =? 0)%nat then
              if has_plus || country_code then str "+" ++ digits_only
              else if (length digits_only =? 11)%nat then
                str "+55" ++ digits_only
              else if (length digits_only =? 10)%nat then
                str "+55" ++ digits_only
              else str "+55" ++ digits_only
            else if (length digits_only =? 14)%nat then digits_only
            else if (length digits_only =? 11)%nat then digits_only
            else key
  end.

Definition _normalize_text (value : pystr) (max_length : Z) : pystr :=
  match value with
  | [] => []
  | _ :: _ =>
      let value := _remove_accents value in
      let value := filter is_alnum_space value in
      let value := join (str " ") (split value) in
      slice_to (upper value) max_length
  end.

Definition _normalize_txid (value : pystr) (max_length : Z) : pystr :=
  match value with
  | [] => str "***"
  | _ :: _ =>
      let value := _remove_accents value in
      let value := filter is_alnum value in
      let result := slice_to (upper value) max_length in
      match result with
      | [] => str "***"
      | _ :: _ => result
      end
  end.

Definition _format_emv_field (tag value : pystr) : pystr :=
  let length := zfill 2 (str_of_int (Z.of_nat (length value))) in
  tag ++ length ++ value.

(** [PixService.__init__]. *)
Definition PixService_init (pix_key merchant_name merchant_city : pystr)
  : PixService :=
  {| pix_key := pix_key;
     merchant_name := _normalize_text merchant_name 25;
     merchant_city := _normalize_text merchant_city 15 |}.

Definition _build_merchant_account_info (self : PixService)
  (payload : PixPayload) : pystr :=
  let gui := _format_emv_field (str "00") PIX_GUI in
  let pix_key :=
    _normalize_pix_key (str_or (payload_pix_key payload) (pix_key self)) in
  let key := _format_emv_field (str "01") pix_key in
  let content := gui ++ key in
  let content :=
    match payload_description payload with
    | [] => content
    | _ :: _ =>
        let description :=
          _normalize_text (payload_description payload) 25 in
        match description with
        | [] => content
        | _ :: _ => content ++ _format_emv_field (str "02") description
        end
    end in
  _format_emv_field MERCHANT_ACCOUNT_INFO content.

Definition _build_additional_data_field (payload : PixPayload) : pystr :=
  let txid := _normalize_txid (payload_transaction_id payload) 25 in
  let content := _format_emv_field (str "05") txid in
  _format_emv_field ADDITIONAL_DATA_FIELD content.
End PixService.

(** One turn of the inner loop of [_calculate_crc16]. *)
Definition crc16_shift (crc : Z) : Z :=
  let crc :=
    if negb (Z.land crc 0x8000 =? 0) then Z.lxor (Z.shiftl crc 1) 0x1021
    else Z.shiftl crc 1 in
  Z.land crc 0xFFFF.

(** One turn of the outer loop: a byte of the data. *)
Definition crc16_byte (crc byte : Z) : Z :=
  Nat.iter 8 crc16_shift (Z.lxor crc (Z.shiftl byte 8)).

(** The two loops over [data], from the initial value [0xFFFF]. *)
Definition crc16_loop (data : list Z) : Z := fold_left crc16_byte data 0xFFFF.

Definition _calculate_crc16 (payload : pystr) : result pystr :=
  let payload_with_crc := payload ++ CRC16 ++ str "04" in
  data <- encode_utf8 payload_with_crc ;;
  Ok (format_04X (crc16_loop data)).

Section Generate.
Context {U : Unicode}.

Definition generate_pix_code (self : PixService) (amount : option Decimal)
  (description transaction_id pix_key_arg : pystr) : result pystr :=
  let payload :=
    {| payload_pix_key := str_or pix_key_arg (pix_key self);
       payload_merchant_name := merchant_name self;
       payload_merchant_city := merchant_city self;
       payload_amount := amount;
       payload_description := description;
       payload_transaction_id := transaction_id |} in
  let result := [] in
  let result :=
    result ++ _format_emv_field PAYLOAD_FORMAT_INDICATOR (str "01") in
  let result := result ++ _build_merchant_account_info self payload in
  let result :=
    result ++ _format_emv_field MERCHANT_CATEGORY_CODE (str "0000") in
  let result := result ++ _format_emv_field TRANSACTION_CURRENCY (str "986") in
  result <-
    match amount with
    | None => Ok result
    | Some amount =>
        positive <- decimal_gt_zero amount ;;
        if positive then
          amount_str <- decimal_format_2f amount ;;
          Ok (result ++ _format_emv_field TRANSACTION_AMOUNT amount_str)
        else Ok result
    end ;;
  let result := result ++ _format_emv_field COUNTRY_CODE (str "BR") in
  let merchant_name :=
    str_or (payload_merchant_name payload)
      (str_or (merchant_name self) (str "PAGAMENTO")) in
  let result := result ++ _format_emv_field MERCHANT_NAME merchant_name in
  let merchant_city :=
    str_or (payload_merchant_city payload)
      (str_or (merchant_city self) (str "BRASIL")) in
  let result := result ++ _format_emv_field MERCHANT_CITY merchant_city in
  let result := result ++ _build_additional_data_field payload in
  crc <- _calculate_crc16 result ;;
  Ok (result ++ CRC16 ++ str "04" ++ crc).
End Generate.

(** ** A sample character database

    The behaviour of the runtime on the ASCII characters, with every other
    code point left alone: enough to run the encoder on ASCII inputs. *)
Definition ascii_isspace (c : Z) : bool :=
  ((9 <=? c) && (c <=? 13)) || ((28 <=? c) && (c <=? 32)).
Definition ascii_decimal (c : Z) : option Z :=
  if is_ascii_digit c then Some (c - 48) else None.
Definition ascii_lower (c : Z) : Z := if is_ascii_upper c then c + 32 else c.
Definition ascii_upper (c : Z) : Z := if is_ascii_lower c then c - 32 else c.

Definition ascii_db : Unicode :=
  {| isspace := ascii_isspace;
     decimal := ascii_decimal;
     lower := map ascii_lower;
     upper := map ascii_upper;
     nfd := fun s => s;
     category_Mn := fun _ => false |}.

(** ** The specification of the checksum and of the field format *)

(** CRC16-CCITT-FALSE as it is described: the register starts at [0xFFFF];
    each byte is XORed into the high byte of the register, followed by eight
    steps that shift the register left by one bit, XOR it with the polynomial
    [0x1021] when the bit shifted out was set, and keep the low 16 bits. *)
Definition crc16_spec_step (reg : Z) : Z :=
  if Z.testbit reg 15 then (Z.lxor (2 * reg) 0x1021) mod 2 ^ 16
  else (2 * reg) mod 2 ^ 16.

Definition crc16_ccitt_false (bytes : list Z) : Z :=
  fold_left
    (fun reg byte =>
       let reg := Z.lxor reg (byte * 2 ^ 8) in
       crc16_spec_step (crc16_spec_step (crc16_spec_step (crc16_spec_step
         (crc16_spec_step (crc16_spec_step (crc16_spec_step (crc16_spec_step
            reg))))))))
    bytes 0xFFFF.

(** Four upper-case hexadecimal digits for [0 <= n < 65536]. *)
Definition hex4 (n : Z) : pystr :=
  [hex_digit_upper (n / 4096); hex_digit_upper (n / 256 mod 16);
   hex_digit_upper (n / 16 mod 16); hex_digit_upper (n mod 16)].

Definition is_upper_hex (c : Z) : bool :=
  is_ascii_digit c || ((65 <=? c) && (c <=? 70)).

(** The length prefix of a field: two decimal digits. *)
Definition two_digits (n : Z) : pystr := [48 + n / 10; 48 + n mod 10].

(** The value of a string of ASCII digits. *)
Definition value_of (s : pystr) : Z :=
  fold_left (fun acc c => 10 * acc + (c - 48)) s 0.

(** A code point that UTF-8 can encode: not a surrogate. *)
Definition is_scalar (c : Z) : bool :=
  ((0 <=? c) && (c <? 0xD800)) || ((0xDFFF <? c) && (c <=? 0x10FFFF)).

Definition is_ascii (c : Z) : bool := (0 <=? c) && (c <? 128).

(** ** Integers as text: lemmas *)

Lemma digits_of_app (base : Z) (digit : Z -> Z) (fuel : nat) :
  forall n acc,
    digits_of base digit fuel n acc = digits_of base digit fuel n [] ++ acc.
Proof.
  induction fuel as [|fuel IH]; intros n acc; simpl; [reflexivity|].
  destruct (n <? base); [reflexivity|].
  rewrite IH. rewrite (IH _ [_]). rewrite <- app_assoc. reflexivity.
Qed.

Lemma digits_of_Forall (P : Z -> Prop) (base : Z) (digit : Z -> Z) :
  0 < base ->
  (forall d, 0 <= d < base -> P (digit d)) ->
  forall fuel n acc,
    Forall P acc -> Forall P (digits_of base digit fuel n acc).
Proof.
  intros Hb Hd. induction fuel as [|fuel IH]; intros n acc Hacc; simpl; auto.
  assert (Hm : P (digit (n mod base))) by (apply Hd, Z.mod_pos_bound; lia).
  destruct (n <? base); [constructor; assumption|].
  apply IH. constructor; assumption.
Qed.

Lemma digits_of_length (base : Z) (digit : Z -> Z) :
  2 <= base ->
  forall fuel (k : nat) n acc,
    (1 <= k)%nat -> 0 <= n < base ^ Z.of_nat k ->
    (length (digits_of base digit fuel n acc) <= k + length acc)%nat.
Proof.
  intros Hb. induction fuel as [|fuel IH]; intros k n acc Hk Hn; simpl; [lia|].
  destruct (n <? base) eqn:Hlt; simpl; [lia|].
  apply Z.ltb_ge in Hlt.
  destruct k as [|k]; [lia|].
  destruct k as [|k].
  - change (Z.of_nat 1) with 1 in Hn. rewrite Z.pow_1_r in Hn. lia.
  - specialize (IH (S k) (n / base) (digit (n mod base) :: acc)).
    simpl length in IH.
    assert (Hq : 0 <= n / base < base ^ Z.of_nat (S k)).
    { split; [apply Z.div_pos; lia|].
      apply Z.div_lt_upper_bound; [lia|].
      rewrite <- Z.pow_succ_r by lia. rewrite <- Nat2Z.inj_succ. lia. }
    specialize (IH ltac:(lia) Hq). lia.
Qed.

Lemma value_of_snoc (s : pystr) (c : Z) :
  value_of (s ++ [c]) = 10 * value_of s + (c - 48).
Proof. unfold value_of. rewrite fold_left_app. reflexivity. Qed.

(** The fuel is enough: the digits read back as the number. *)
Lemma digits_of_value :
  forall fuel n,
    0 <= n < 2 ^ Z.of_nat fuel ->
    value_of (digits_of 10 dec_digit fuel n []) = n.
Proof.
  induction fuel as [|fuel IH]; intros n Hn.
  - simpl in *. assert (n = 0) by lia. subst. reflexivity.
  - cbn [digits_of]. destruct (n <? 10) eqn:Hlt.
    + apply Z.ltb_lt in Hlt. unfold value_of, dec_digit. cbn [fold_left].
      rewrite Z.mod_small by lia. lia.
    + apply Z.ltb_ge in Hlt. rewrite digits_of_app, value_of_snoc.
      rewrite IH.
      * unfold dec_digit. pose proof (Z.div_mod n 10). lia.
      * rewrite Nat2Z.inj_succ, Z.pow_succ_r in Hn by lia.
        split; [apply Z.div_pos; lia|].
        apply Z.div_lt_upper_bound; lia.
Qed.

Lemma digit_fuel_enough (n : Z) : 0 <= n -> n < 2 ^ Z.of_nat (digit_fuel n).
Proof.
  intros Hn. unfold digit_fuel. rewrite Nat2Z.inj_succ.
  destruct (Z.eq_dec n 0) as [->|Hz]; [simpl; lia|].
  rewrite Z2Nat.id by apply Z.log2_nonneg.
  apply Z.log2_spec. lia.
Qed.

Lemma str_of_int_value (n : Z) : 0 <= n -> value_of (str_of_int n) = n.
Proof.
  intros Hn. unfold str_of_int.
  destruct (n <? 0) eqn:Hneg; [apply Z.ltb_lt in Hneg; lia|].
  apply digits_of_value. split; [assumption|apply digit_fuel_enough; assumption].
Qed.

Lemma str_of_int_digits (n : Z) :
  0 <= n -> Forall (fun c => is_ascii_digit c = true) (str_of_int n).
Proof.
  intros Hn. unfold str_of_int.
  destruct (n <? 0) eqn:Hneg; [apply Z.ltb_lt in Hneg; lia|].
  apply digits_of_Forall; [lia| |constructor].
  intros d Hd. unfold is_ascii_digit, dec_digit. lia.
Qed.

Lemma str_of_int_one_digit (n : Z) : 0 <= n <= 9 -> str_of_int n = [48 + n].
Proof.
  intros Hn. unfold str_of_int, digit_fuel.
  destruct (n <? 0) eqn:Hneg; [apply Z.ltb_lt in Hneg; lia|].
  cbn [digits_of]. replace (n <? 10) with true by (symmetry; apply Z.ltb_lt; lia).
  unfold dec_digit. rewrite Z.mod_small by lia. reflexivity.
Qed.

Lemma str_of_int_two_digits (n : Z) :
  10 <= n <= 99 -> str_of_int n = two_digits n.
Proof.
  intros Hn. unfold str_of_int, digit_fuel.
  destruct (n <? 0) eqn:Hneg; [apply Z.ltb_lt in Hneg; lia|].
  assert (Hlog : 3 <= Z.log2 n).
  { change 3 with (Z.log2 10). apply Z.log2_le_mono. lia. }
  destruct (Z.to_nat (Z.log2 n)) as [|m] eqn:Hm; [lia|].
  cbn [digits_of]. replace (n <? 10) with false by (symmetry; apply Z.ltb_ge; lia).
  assert (Hq : 1 <= n / 10 <= 9).
  { split; [apply Z.div_le_lower_bound; lia|].
    apply Z.lt_succ_r. apply Z.div_lt_upper_bound; lia. }
  replace (n / 10 <? 10) with true by (symmetry; apply Z.ltb_lt; lia).
  unfold dec_digit, two_digits. rewrite (Z.mod_small (n / 10)) by lia.
  reflexivity.
Qed.

(** The length prefix of a value of at most 99 characters. *)
Lemma zfill_str_of_int (n : Z) :
  0 <= n <= 99 -> zfill 2 (str_of_int n) = two_digits n.
Proof.
  intros Hn. destruct (Z_lt_le_dec n 10) as [Hs|Hl].
  - rewrite str_of_int_one_digit by lia. unfold zfill, two_digits.
    cbn [length Nat.sub repeat app].
    replace (48 + n =? 43) with false by (symmetry; apply Z.eqb_neq; lia).
    replace (48 + n =? 45) with false by (symmetry; apply Z.eqb_neq; lia).
    cbn [orb]. rewrite Z.div_small, Z.mod_small by lia. reflexivity.
  - rewrite str_of_int_two_digits by lia. unfold zfill, two_digits.
    cbn [length Nat.sub repeat app].
    assert (Hq : 1 <= n / 10 <= 9).
    { split; [apply Z.div_le_lower_bound; lia|].
      apply Z.lt_succ_r. apply Z.div_lt_upper_bound; lia. }
    replace (48 + n / 10 =? 43) with false by (symmetry; apply Z.eqb_neq; lia).
    replace (48 + n / 10 =? 45) with false by (symmetry; apply Z.eqb_neq; lia).
    reflexivity.
Qed.

Lemma div_range (n a b : Z) :
  0 < a -> 0 <= b -> a * b <= n < a * (b + 1) -> n / a = b.
Proof.
  intros Ha Hb Hn. symmetry. apply (Z.div_unique n a b (n - a * b)); lia.
Qed.

Lemma div_bounds (n a lo hi : Z) :
  0 < a -> a * lo <= n < a * hi -> lo <= n / a < hi.
Proof.
  intros Ha Hn. split.
  - apply Z.div_le_lower_bound; lia.
  - apply Z.div_lt_upper_bound; lia.
Qed.

(** [format(n, "04X")] of a 16-bit value is its four hexadecimal digits. *)
Lemma format_04X_hex4 (n : Z) : 0 <= n < 65536 -> format_04X n = hex4 n.
Proof.
  intros Hn. unfold format_04X, hex4, digit_fuel.
  destruct (Z.ltb_spec n 16) as [Hlt16|Hlt16].
  { cbn [digits_of]. destruct (Z.ltb_spec n 16); [|lia].
    cbn [length Nat.sub repeat app].
    rewrite (Z.div_small n 4096), (Z.div_small n 256), (Z.div_small n 16) by lia.
    rewrite (Z.mod_small n 16) by lia. reflexivity. }
  assert (Hl1 : 4 <= Z.log2 n)
    by (change 4 with (Z.log2 16); apply Z.log2_le_mono; lia).
  destruct (Z.to_nat (Z.log2 n)) as [|f1] eqn:Hf1; [lia|].
  cbn [digits_of]. destruct (Z.ltb_spec n 16); [lia|].
  pose proof (div_bounds n 16 1 4096 ltac:(lia) ltac:(lia)) as Hq1.
  destruct (Z.ltb_spec n 256) as [Hlt256|Hlt256].
  { pose proof (div_bounds n 16 1 16 ltac:(lia) ltac:(lia)).
    destruct (Z.ltb_spec (n / 16) 16); [|lia].
    cbn [length Nat.sub repeat app].
    rewrite (Z.div_small n 4096), (Z.div_small n 256) by lia.
    rewrite (Z.mod_small (n / 16) 16) by lia. reflexivity. }
  assert (Hl2 : 8 <= Z.log2 n)
    by (change 8 with (Z.log2 256); apply Z.log2_le_mono; lia).
  destruct f1 as [|f2]; [lia|].
  pose proof (div_bounds n 16 16 4096 ltac:(lia) ltac:(lia)).
  destruct (Z.ltb_spec (n / 16) 16); [lia|].
  cbn [digits_of]. rewrite Z.div_div by lia. change (16 * 16) with 256.
  destruct (Z.ltb_spec n 4096) as [Hlt4096|Hlt4096].
  { pose proof (div_bounds n 256 1 16 ltac:(lia) ltac:(lia)).
    destruct (Z.ltb_spec (n / 256) 16); [|lia].
    cbn [length Nat.sub repeat app].
    rewrite (Z.div_small n 4096) by lia.
    reflexivity. }
  assert (Hl3 : 12 <= Z.log2 n)
    by (change 12 with (Z.log2 4096); apply Z.log2_le_mono; lia).
  destruct f2 as [|f3]; [lia|].
  pose proof (div_bounds n 256 16 256 ltac:(lia) ltac:(lia)).
  destruct (Z.ltb_spec (n / 256) 16); [lia|].
  cbn [digits_of]. rewrite Z.div_div by lia. change (256 * 16) with 4096.
  pose proof (div_bounds n 4096 1 16 ltac:(lia) ltac:(lia)).
  destruct (Z.ltb_spec (n / 4096) 16); [|lia].
  cbn [length Nat.sub repeat app].
  rewrite (Z.mod_small (n / 4096) 16) by lia. reflexivity.
Qed.

Lemma hex_digit_upper_hex (d : Z) :
  0 <= d < 16 -> is_upper_hex (hex_digit_upper d) = true.
Proof.
  intros Hd. unfold is_upper_hex, is_ascii_digit, hex_digit_upper.
  destruct (Z.ltb_spec d 10); lia.
Qed.

Lemma hex4_upper_hex (n : Z) :
  0 <= n < 65536 -> forallb is_upper_hex (hex4 n) = true.
Proof.
  intros Hn. unfold hex4. cbn [forallb].
  pose proof (div_bounds n 4096 0 16 ltac:(lia) ltac:(lia)).
  rewrite !hex_digit_upper_hex; try reflexivity;
    try (apply Z.mod_pos_bound; lia); lia.
Qed.

(** ** The checksum: lemmas *)

Lemma land_bit15 (c : Z) :
  Z.land c 0x8000 = if Z.testbit c 15 then 0x8000 else 0.
Proof.
  apply Z.bits_inj'. intros n Hn.
  rewrite Z.land_spec. change 0x8000 with (2 ^ 15).
  destruct (Z.eq_dec n 15) as [->|Hne].
  - rewrite Z.pow2_bits_true by lia. rewrite andb_true_r.
    destruct (Z.testbit c 15).
    + rewrite Z.pow2_bits_true by lia. reflexivity.
    + rewrite Z.bits_0. reflexivity.
  - rewrite Z.pow2_bits_false by lia. rewrite andb_false_r.
    destruct (Z.testbit c 15).
    + rewrite Z.pow2_bits_false by lia. reflexivity.
    + rewrite Z.bits_0. reflexivity.
Qed.

Lemma crc16_shift_spec (c : Z) : crc16_shift c = crc16_spec_step c.
Proof.
  unfold crc16_shift, crc16_spec_step.
  rewrite land_bit15. change 0xFFFF with (Z.ones 16).
  rewrite Z.land_ones by lia. rewrite Z.shiftl_mul_pow2 by lia.
  change (2 ^ 1) with 2. rewrite (Z.mul_comm c 2).
  destruct (Z.testbit c 15); reflexivity.
Qed.

Lemma crc16_shift_range (c : Z) : 0 <= crc16_shift c < 65536.
Proof.
  unfold crc16_shift. change 0xFFFF with (Z.ones 16).
  rewrite Z.land_ones by lia. apply Z.mod_pos_bound. lia.
Qed.

Lemma crc16_byte_range (c b : Z) : 0 <= crc16_byte c b < 65536.
Proof. unfold crc16_byte, Nat.iter. cbn [nat_rect]. apply crc16_shift_range. Qed.

Lemma crc16_loop_range (data : list Z) : 0 <= crc16_loop data < 65536.
Proof.
  unfold crc16_loop.
  assert (H : 0 <= 0xFFFF < 65536) by lia. revert H.
  generalize 0xFFFF. induction data as [|b data IH]; intros c Hc; cbn [fold_left].
  - assumption.
  - apply IH, crc16_byte_range.
Qed.

(** The loops of [_calculate_crc16] compute CRC16-CCITT-FALSE. *)
Lemma crc16_loop_spec (data : list Z) : crc16_loop data = crc16_ccitt_false data.
Proof.
  unfold crc16_loop, crc16_ccitt_false. generalize 0xFFFF.
  induction data as [|b data IH]; intros c; cbn [fold_left]; [reflexivity|].
  rewrite IH. unfold crc16_byte, Nat.iter. cbn [nat_rect].
  rewrite !crc16_shift_spec. rewrite Z.shiftl_mul_pow2 by lia. reflexivity.
Qed.

(** ** UTF-8: lemmas *)

Lemma encode_char_scalar (c : Z) :
  is_scalar c = true -> exists b, encode_char c = Ok b.
Proof.
  unfold is_scalar, encode_char. intros H.
  repeat match goal with
         | |- context [if ?b then _ else _] => destruct b eqn:?
         end; try (eexists; reflexivity); lia.
Qed.

Lemma encode_char_raise (c : Z) :
  is_scalar c = false -> encode_char c = Raise UnicodeEncodeError.
Proof.
  unfold is_scalar, encode_char. intros H.
  repeat match goal with
         | |- context [if ?b then _ else _] => destruct b eqn:?
         end; try reflexivity; lia.
Qed.

Lemma encode_utf8_scalar (s : pystr) :
  forallb is_scalar s = true -> exists b, encode_utf8 s = Ok b.
Proof.
  induction s as [|c s IH]; cbn [forallb encode_utf8]; intros H.
  - eexists; reflexivity.
  - apply andb_true_iff in H as [Hc Hs].
    destruct (encode_char_scalar c Hc) as [b ->].
    destruct (IH Hs) as [bs ->]. eexists; reflexivity.
Qed.

Lemma encode_utf8_raise (s : pystr) :
  forallb is_scalar s = false -> encode_utf8 s = Raise UnicodeEncodeError.
Proof.
  induction s as [|c s IH]; cbn [forallb encode_utf8]; intros H.
  - discriminate.
  - destruct (is_scalar c) eqn:Hc.
    + destruct (encode_char_scalar c Hc) as [b ->]. cbn [bind].
      rewrite IH by exact H. reflexivity.
    + rewrite encode_char_raise by assumption. reflexivity.
Qed.

(** ** The fields of a payload *)

(** A field: its tag and its value. *)
Definition field : Type := (pystr * pystr)%type.

(** A tag-length-value string read back: each field is a two-digit tag, a
    two-digit length and that many characters of value.  [fuel] bounds the
    number of fields. *)
Fixpoint read_tlv (fuel : nat) (s : pystr) : option (list field) :=
  match s with
  | [] => Some []
  | t1 :: t2 :: l1 :: l2 :: rest =>
      match fuel with
      | O => None
      | S fuel' =>
          if is_ascii_digit t1 && is_ascii_digit t2
             && is_ascii_digit l1 && is_ascii_digit l2
          then
            let n := Z.to_nat (value_of [l1; l2]) in
            if (n <=? length rest)%nat then
              match read_tlv fuel' (skipn n rest) with
              | Some fields => Some (([t1; t2], firstn n rest) :: fields)
              | None => None
              end
            else None
          else None
      end
  | _ => None
  end.

Definition parse_tlv (s : pystr) : option (list field) := read_tlv (length s) s.

(** A field that the two-digit length prefix can describe. *)
Definition well_formed (f : field) : bool :=
  match fst f with
  | [t1; t2] => is_ascii_digit t1 && is_ascii_digit t2
  | _ => false
  end && (length (snd f) <=? 99)%nat.

(** The sum of [2 (tag) + 2 (length) + len(value)] over the fields. *)
Definition tlv_length (fields : list field) : nat :=
  list_sum (map (fun f => 2 + 2 + length (snd f))%nat fields).

(** [amount is not None and amount > 0], when the comparison returns. *)
Definition is_positive (amount : option Decimal) : bool :=
  match amount with
  | Some a =>
      match decimal_gt_zero a with
      | Ok b => b
      | Raise _ => false
      end
  | None => false
  end.

(** The amount is to be written and its text is refused. *)
Definition format_raises (amount : option Decimal) : bool :=
  match amount with
  | Some a => is_positive amount && format_2f_overflow a
  | None => false
  end.

(** The digits of a finite amount before the point: the amount is below
    ten to that power. *)
Definition amount_magnitude (d : Decimal) : Z :=
  match d with
  | Finite _ c e => decimal_digits c + e
  | Infinity _ => 0
  | NaN => 0
  end.

Section Fields.
Context {U : Unicode}.

(** The fields in the order in which [fields] lists them, each formatted
    by [_format_emv_field]. *)
Definition serialize (fields : list field) : pystr :=
  flat_map (fun f => _format_emv_field (fst f) (snd f)) fields.

(** The sub-fields of the merchant account information. *)
Definition merchant_account_fields (self : PixService)
  (description pix_key_arg : pystr) : list field :=
  [(str "00", PIX_GUI);
   (str "01", _normalize_pix_key (str_or pix_key_arg (pix_key self)))]
    ++ match _normalize_text description 25 with
       | [] => []
       | _ :: _ => [(str "02", _normalize_text description 25)]
       end.

(** The sub-fields of the additional data. *)
Definition additional_data_fields (transaction_id : pystr) : list field :=
  [(str "05", _normalize_txid transaction_id 25)].

(** The amount field, when there is one. *)
Definition amount_fields (amount : option Decimal) : list field :=
  match amount with
  | Some a =>
      if is_positive amount then [(TRANSACTION_AMOUNT, format_2f a)] else []
  | None => []
  end.

(** The top-level fields that precede the checksum. *)
Definition payload_fields (self : PixService) (amount : option Decimal)
  (description transaction_id pix_key_arg : pystr) : list field :=
  [(PAYLOAD_FORMAT_INDICATOR, str "01");
   (MERCHANT_ACCOUNT_INFO,
    serialize (merchant_account_fields self description pix_key_arg));
   (MERCHANT_CATEGORY_CODE, str "0000");
   (TRANSACTION_CURRENCY, str "986")]
    ++ amount_fields amount
    ++ [(COUNTRY_CODE, str "BR");
        (MERCHANT_NAME, str_or (merchant_name self) (str "PAGAMENTO"));
        (MERCHANT_CITY, str_or (merchant_city self) (str "BRASIL"));
        (ADDITIONAL_DATA_FIELD,
         serialize (additional_data_fields transaction_id))].

Lemma serialize_app (fs gs : list field) :
  serialize (fs ++ gs) = serialize fs ++ serialize gs.
Proof. unfold serialize. apply flat_map_app. Qed.

Lemma serialize_cons (f : field) (fs : list field) :
  serialize (f :: fs) = _format_emv_field (fst f) (snd f) ++ serialize fs.
Proof. reflexivity. Qed.

Lemma str_or_idem (a b : pystr) : str_or (str_or a b) b = str_or a b.
Proof. destruct a; [destruct b|]; reflexivity. Qed.

Lemma str_or_absorb (a b : pystr) : str_or a (str_or a b) = str_or a b.
Proof. destruct a; reflexivity. Qed.

Lemma normalize_text_nil (n : Z) : _normalize_text [] n = [].
Proof. reflexivity. Qed.

Lemma build_merchant_account_info_fields (self : PixService)
  (payload : PixPayload) :
  _build_merchant_account_info self payload =
    _format_emv_field MERCHANT_ACCOUNT_INFO
      (serialize
         (merchant_account_fields self (payload_description payload)
            (payload_pix_key payload))).
Proof.
  unfold _build_merchant_account_info, merchant_account_fields.
  f_equal. rewrite serialize_app. cbn [serialize flat_map fst snd].
  rewrite app_nil_r, <- app_assoc.
  destruct (payload_description payload) as [|c d] eqn:Hd.
  - cbn [_normalize_text flat_map]. rewrite app_nil_r. reflexivity.
  - destruct (_normalize_text (c :: d) 25); unfold serialize;
      cbn [flat_map fst snd]; rewrite ?app_nil_r, <- ?app_assoc; reflexivity.
Qed.
End Fields.

(** ** [generate_pix_code] as a list of fields *)

Section GenerateFields.
Context {U : Unicode}.

Lemma crc_field (n : Z) :
  0 <= n < 65536 ->
  CRC16 ++ str "04" ++ format_04X n = _format_emv_field CRC16 (format_04X n).
Proof.
  intros Hn. unfold _format_emv_field. rewrite format_04X_hex4 by assumption.
  reflexivity.
Qed.

Lemma calculate_crc16_ok (payload crc : pystr) :
  _calculate_crc16 payload = Ok crc ->
  exists data,
    encode_utf8 (payload ++ str "6304") = Ok data
    /\ crc = hex4 (crc16_ccitt_false data).
Proof.
  unfold _calculate_crc16. change (CRC16 ++ str "04") with (str "6304").
  destruct (encode_utf8 (payload ++ str "6304")) as [data|e]; cbn [bind];
    [|discriminate].
  intros [= <-]. exists data. split; [reflexivity|].
  rewrite format_04X_hex4 by apply crc16_loop_range.
  rewrite crc16_loop_spec. reflexivity.
Qed.

Lemma merchant_account_fields_or (self : PixService)
  (description pix_key_arg : pystr) :
  merchant_account_fields self description
    (str_or pix_key_arg (pix_key self))
  = merchant_account_fields self description pix_key_arg.
Proof. unfold merchant_account_fields. rewrite str_or_idem. reflexivity. Qed.

Lemma generate_pix_code_nan (self : PixService)
  (description transaction_id pix_key_arg : pystr) :
  generate_pix_code self (Some NaN) description transaction_id pix_key_arg
  = Raise InvalidOperation.
Proof. reflexivity. Qed.

Lemma generate_pix_code_overflow (self : PixService)
  (amount : option Decimal)
  (description transaction_id pix_key_arg : pystr) :
  format_raises amount = true ->
  generate_pix_code self amount description transaction_id pix_key_arg
  = Raise ValueError.
Proof.
  unfold format_raises, is_positive.
  destruct amount as [[sign c e|sign|]|]; try discriminate.
  - cbn [decimal_gt_zero]. intros H. apply andb_true_iff in H as [Hp Ho].
    unfold generate_pix_code. cbv zeta. cbn [decimal_gt_zero bind].
    rewrite Hp. unfold decimal_format_2f. rewrite Ho. reflexivity.
  - cbn [format_2f_overflow]. rewrite andb_false_r. discriminate.
Qed.

Lemma generate_pix_code_fields (self : PixService) (amount : option Decimal)
  (description transaction_id pix_key_arg : pystr) :
  amount <> Some NaN -> format_raises amount = false ->
  generate_pix_code self amount description transaction_id pix_key_arg =
    let fields :=
      payload_fields self amount description transaction_id pix_key_arg in
    crc <- _calculate_crc16 (serialize fields) ;;
    Ok (serialize (fields ++ [(CRC16, crc)])).
Proof.
  intros Hnan Hfr. unfold generate_pix_code. cbv zeta.
  rewrite build_merchant_account_info_fields.
  cbn [payload_pix_key payload_description payload_merchant_name
       payload_merchant_city payload_transaction_id].
  rewrite merchant_account_fields_or, !str_or_absorb.
  assert (Hamt :
    forall r : pystr,
      match amount with
      | Some amount0 =>
          positive <- decimal_gt_zero amount0 ;;
          (if positive
           then
             amount_str <- decimal_format_2f amount0 ;;
             Ok (r ++ _format_emv_field TRANSACTION_AMOUNT amount_str)
           else Ok r)
      | None => Ok r
      end = Ok (r ++ serialize (amount_fields amount))).
  { intros r. unfold format_raises in Hfr.
    destruct amount as [[sign c e|sign|]|].
    - unfold amount_fields, is_positive in *.
      cbn [decimal_gt_zero bind] in *.
      destruct (negb sign && (0 <? c)); unfold serialize;
        cbn [flat_map fst snd]; rewrite ?app_nil_r; [|reflexivity].
      cbn [andb] in Hfr. unfold decimal_format_2f. rewrite Hfr.
      reflexivity.
    - unfold amount_fields, is_positive. cbn [decimal_gt_zero bind].
      destruct (negb sign); unfold serialize;
        cbn [flat_map fst snd]; rewrite ?app_nil_r; reflexivity.
    - congruence.
    - cbn. rewrite app_nil_r. reflexivity. }
  rewrite Hamt. cbn [bind].
  unfold payload_fields, _build_additional_data_field.
  cbn [payload_transaction_id].
  set (fs := amount_fields amount).
  match goal with
  | |- bind (_calculate_crc16 ?a) _ = bind (_calculate_crc16 ?b) _ =>
      assert (Hab : a = b)
  end.
  { unfold serialize, additional_data_fields. rewrite !flat_map_app.
    cbn [flat_map fst snd app]. rewrite <- ?app_assoc, ?app_nil_r.
    reflexivity. }
  rewrite Hab.
  unfold _calculate_crc16 at 1 2.
  destruct (encode_utf8 _) as [data|e]; cbn [bind]; [|reflexivity].
  rewrite crc_field by apply crc16_loop_range.
  rewrite (serialize_app _ [_]). f_equal. f_equal.
  unfold serialize. cbn [flat_map fst snd]. rewrite app_nil_r. reflexivity.
Qed.
End GenerateFields.

(** ** Reading the fields back *)

Lemma format_emv_field_short (tag value : pystr) :
  (length value <= 99)%nat ->
  _format_emv_field tag value
  = tag ++ two_digits (Z.of_nat (length value)) ++ value.
Proof.
  intros Hlen. unfold _format_emv_field.
  rewrite zfill_str_of_int by lia. reflexivity.
Qed.

Lemma two_digits_value (n : Z) :
  0 <= n <= 99 ->
  forallb is_ascii_digit (two_digits n) = true
  /\ value_of (two_digits n) = n.
Proof.
  intros Hn. unfold two_digits, value_of, is_ascii_digit.
  cbn [forallb fold_left].
  pose proof (div_bounds n 10 0 10 ltac:(lia) ltac:(lia)).
  pose proof (Z.mod_pos_bound n 10 ltac:(lia)).
  pose proof (Z.div_mod n 10 ltac:(lia)).
  split; lia.
Qed.

Lemma read_tlv_serialize (fields : list field) :
  forallb well_formed fields = true ->
  forall fuel, (length fields <= fuel)%nat ->
  read_tlv fuel (serialize fields) = Some fields.
Proof.
  induction fields as [|[tag value] fields IH]; intros Hwf fuel Hfuel.
  - destruct fuel; reflexivity.
  - cbn [forallb] in Hwf. apply andb_true_iff in Hwf as [Hf Hwf].
    unfold well_formed in Hf. cbn [fst snd] in Hf.
    apply andb_true_iff in Hf as [Htag Hlen].
    apply Nat.leb_le in Hlen.
    destruct tag as [|t1 [|t2 [|]]]; try discriminate.
    rewrite serialize_cons. cbn [fst snd].
    rewrite format_emv_field_short by assumption.
    destruct fuel as [|fuel]; [cbn [length] in Hfuel; lia|].
    destruct (two_digits_value (Z.of_nat (length value)) ltac:(lia))
      as [Hd Hv].
    unfold two_digits in *. cbn [app read_tlv].
    cbn [forallb] in Hd. rewrite andb_true_r in Hd.
    rewrite <- andb_assoc, Htag, Hd. cbn [andb].
    rewrite Hv, Nat2Z.id.
    rewrite length_app.
    replace (length value <=? length value + length (serialize fields))%nat
      with true by (symmetry; apply Nat.leb_le; lia).
    rewrite skipn_app, skipn_all, Nat.sub_diag. cbn [skipn app].
    rewrite firstn_app, firstn_all, Nat.sub_diag. cbn [firstn].
    rewrite app_nil_r.
    rewrite IH; [reflexivity|assumption|cbn [length] in Hfuel; lia].
Qed.

Lemma serialize_length_ge (fields : list field) :
  (length fields <= length (serialize fields))%nat.
Proof.
  induction fields as [|[tag value] fields IH]; [cbn; lia|].
  rewrite serialize_cons. cbn [fst snd length].
  unfold _format_emv_field. rewrite !length_app.
  assert (1 <= length (zfill 2 (str_of_int (Z.of_nat (length value)))))%nat.
  { unfold zfill.
    destruct (str_of_int (Z.of_nat (length value))) as [|c s] eqn:Hs.
    - cbn. lia.
    - destruct ((c =? 43) || (c =? 45)); cbn [length]; rewrite ?length_app;
        cbn [length]; lia. }
  lia.
Qed.

(** A payload whose fields are all well formed reads back as its fields. *)
Lemma parse_tlv_serialize (fields : list field) :
  forallb well_formed fields = true ->
  parse_tlv (serialize fields) = Some fields.
Proof.
  intros Hwf. unfold parse_tlv. apply read_tlv_serialize; [assumption|].
  apply serialize_length_ge.
Qed.

Lemma tlv_length_cons (f : field) (fields : list field) :
  tlv_length (f :: fields) = (2 + 2 + length (snd f) + tlv_length fields)%nat.
Proof. reflexivity. Qed.

(** The length of a payload of well-formed fields. *)
Lemma serialize_length (fields : list field) :
  forallb well_formed fields = true ->
  length (serialize fields) = tlv_length fields.
Proof.
  induction fields as [|[tag value] fields IH]; intros Hwf; [reflexivity|].
  cbn [forallb] in Hwf. apply andb_true_iff in Hwf as [Hf Hwf].
  unfold well_formed in Hf. cbn [fst snd] in Hf.
  apply andb_true_iff in Hf as [Htag Hlen]. apply Nat.leb_le in Hlen.
  destruct tag as [|t1 [|t2 [|]]]; try discriminate.
  rewrite serialize_cons. cbn [fst snd].
  rewrite format_emv_field_short by assumption.
  rewrite tlv_length_cons, !length_app, IH by assumption.
  unfold two_digits. cbn [length snd]. lia.
Qed.

(** ** The encoder: checksum, field order, amount *)

Definition is_negative (d : Decimal) : bool :=
  match d with
  | Finite sign c _ => sign && (0 <? c)
  | Infinity sign => sign
  | NaN => false
  end.


(** The value of the first field of [fields] whose tag is [tag]. *)
Definition value_at (tag : pystr) (fields : list field) : option pystr :=
  match find (fun f => if list_eq_dec Z.eq_dec (fst f) tag then true else false)
          fields with
  | Some f => Some (snd f)
  | None => None
  end.

Lemma amount_nan_dec (amount : option Decimal) :
  {amount = Some NaN} + {amount <> Some NaN}.
Proof.
  destruct amount as [[sign c e|sign|]|];
    solve [left; reflexivity | right; discriminate].
Qed.

Section Encoder.
Context {U : Unicode}.

Lemma Ok_inj (A : Type) (a b : A) : Ok a = Ok b -> a = b.
Proof. intros H. congruence. Qed.

Lemma serialize_crc (n : Z) :
  serialize [(CRC16, hex4 n)] = str "6304" ++ hex4 n.
Proof. reflexivity. Qed.

Lemma generate_pix_code_ok (self : PixService) (amount : option Decimal)
  (description transaction_id pix_key_arg s : pystr) :
  generate_pix_code self amount description transaction_id pix_key_arg = Ok s ->
  exists data,
    let fields :=
      payload_fields self amount description transaction_id pix_key_arg in
    let crc := hex4 (crc16_ccitt_false data) in
    amount <> Some NaN
    /\ encode_utf8 (serialize fields ++ str "6304") = Ok data
    /\ s = serialize fields ++ str "6304" ++ crc
    /\ s = serialize (fields ++ [(CRC16, crc)]).
Proof.
  intros Hgen.
  destruct (amount_nan_dec amount) as [->|Hnan];
    [rewrite generate_pix_code_nan in Hgen; discriminate|].
  destruct (format_raises amount) eqn:Hfr;
    [rewrite generate_pix_code_overflow in Hgen by exact Hfr; discriminate|].
  rewrite generate_pix_code_fields in Hgen by assumption. cbv zeta in Hgen.
  destruct (_calculate_crc16 _) as [crc|e] eqn:Hcrc; cbn [bind] in Hgen;
    [|discriminate].
  apply Ok_inj in Hgen. subst s.
  destruct (calculate_crc16_ok _ _ Hcrc) as [data [Hdata ->]].
  exists data. cbv zeta. split; [assumption|]. split; [assumption|].
  rewrite serialize_app. rewrite serialize_crc. split; reflexivity.
Qed.

Lemma amount_fields_cases (amount : option Decimal) :
  (is_positive amount = false /\ amount_fields amount = [])
  \/ (exists a, amount = Some a /\ is_positive amount = true
                /\ amount_fields amount = [(str "54", format_2f a)]).
Proof.
  unfold amount_fields. destruct amount as [a|].
  - destruct (is_positive (Some a)) eqn:Hpos.
    + right. exists a. repeat split.
    + left. split; reflexivity.
  - left. split; reflexivity.
Qed.


End Encoder.

(** ** Claims on the encoder *)

Section EncoderClaims.
Context {U : Unicode}.

Lemma slice_to_length (s : pystr) (n : Z) :
  0 <= n -> (length (slice_to s n) <= Z.to_nat n)%nat.
Proof.
  intros Hn. unfold slice_to.
  destruct (Z.leb_spec 0 n); [|lia].
  rewrite length_firstn. lia.
Qed.

Lemma normalize_text_length (value : pystr) (n : Z) :
  0 <= n -> (length (_normalize_text value n) <= Z.to_nat n)%nat.
Proof.
  intros Hn. unfold _normalize_text. destruct value; [cbn; lia|].
  apply slice_to_length. assumption.
Qed.

Lemma normalize_txid_length (value : pystr) :
  (length (_normalize_txid value 25) <= 25)%nat.
Proof.
  unfold _normalize_txid. destruct value; [cbn; lia|].
  pose proof (slice_to_length
                (upper (filter is_alnum (_remove_accents (z :: value)))) 25
                ltac:(lia)) as H.
  destruct (slice_to _ 25); [cbn; lia|].
  exact H.
Qed.

(** The fields of a payload are well formed as soon as the merchant account
    information and the amount fit the two-digit length prefix. *)
Lemma payload_fields_well_formed
  (pix_key_0 name_0 city_0 : pystr) (amount : option Decimal)
  (description transaction_id pix_key_arg : pystr) (n : Z) :
  let self := PixService_init pix_key_0 name_0 city_0 in
  (length (serialize (merchant_account_fields self description pix_key_arg))
   <= 99)%nat ->
  (forall a, amount = Some a -> (length (format_2f a) <= 99)%nat) ->
  forallb well_formed
    (payload_fields self amount description transaction_id pix_key_arg
       ++ [(CRC16, hex4 n)]) = true.
Proof.
  intros self Hmai Hamt. unfold payload_fields.
  assert (Hname : (length (str_or (merchant_name self) (str "PAGAMENTO"))
                   <= 99)%nat).
  { unfold self, PixService_init. cbn [merchant_name].
    pose proof (normalize_text_length name_0 25 ltac:(lia)).
    destruct (_normalize_text name_0 25); cbn [str_or]; [cbn; lia|].
    lia. }
  assert (Hcity : (length (str_or (merchant_city self) (str "BRASIL"))
                   <= 99)%nat).
  { unfold self, PixService_init. cbn [merchant_city].
    pose proof (normalize_text_length city_0 15 ltac:(lia)).
    destruct (_normalize_text city_0 15); cbn [str_or]; [cbn; lia|].
    lia. }
  assert (Hadf : (length (serialize (additional_data_fields transaction_id))
                  <= 99)%nat).
  { unfold serialize, additional_data_fields. cbn [flat_map fst snd].
    pose proof (normalize_txid_length transaction_id).
    rewrite app_nil_r, format_emv_field_short by lia.
    rewrite !length_app. change (str "05") with [48; 53].
    unfold two_digits. cbn [length]. lia. }
  assert (Hwf : forall t1 t2 v,
             is_ascii_digit t1 && is_ascii_digit t2 = true ->
             (length v <= 99)%nat -> well_formed ([t1; t2], v) = true).
  { intros t1 t2 v Ht Hv. unfold well_formed. cbn [fst snd].
    rewrite Ht. apply Nat.leb_le. assumption. }
  assert (Hamtwf : forallb well_formed (amount_fields amount) = true).
  { destruct (amount_fields_cases amount) as [[_ ->]|[a [Ha [_ ->]]]];
      [reflexivity|].
    cbn [forallb]. rewrite andb_true_r. apply (Hwf 53 52); [reflexivity|].
    apply Hamt. assumption. }
  cbn [app forallb]. rewrite !forallb_app, Hamtwf. cbn [forallb].
  change MERCHANT_ACCOUNT_INFO with [50; 54].
  change MERCHANT_NAME with [53; 57]. change MERCHANT_CITY with [54; 48].
  change ADDITIONAL_DATA_FIELD with [54; 50].
  rewrite !Hwf by (first [reflexivity | assumption]).
  reflexivity.
Qed.

(** C1. Round-trip checksum: whenever [generate_pix_code] returns a payload,
    its last four characters are upper-case hexadecimal digits, and they are
    the CRC16-CCITT-FALSE (initial value 0xFFFF, polynomial 0x1021) of the
    UTF-8 bytes of the payload without these four characters; the checksum
    covers the tag and length ["6304"] of its own field. *)
Theorem checksum_round_trip (self : PixService) (amount : option Decimal)
  (description transaction_id pix_key_arg s : pystr) :
  generate_pix_code self amount description transaction_id pix_key_arg = Ok s ->
  let n := (length s - 4)%nat in
  exists data,
    encode_utf8 (firstn n s) = Ok data
    /\ skipn n s = hex4 (crc16_ccitt_false data)
    /\ length (skipn n s) = 4%nat
    /\ forallb is_upper_hex (skipn n s) = true
    /\ exists body, firstn n s = body ++ str "6304".
Proof.
  intros Hgen n.
  destruct (generate_pix_code_ok _ _ _ _ _ _ Hgen)
    as [data [_ [Hdata [Hs _]]]].
  set (body := serialize
                 (payload_fields self amount description transaction_id
                    pix_key_arg)) in *.
  assert (Hrange : 0 <= crc16_ccitt_false data < 65536)
    by (rewrite <- crc16_loop_spec; apply crc16_loop_range).
  set (crc := hex4 (crc16_ccitt_false data)) in *.
  assert (Hcrc : length crc = 4%nat) by reflexivity.
  assert (Hn : n = length (body ++ str "6304")).
  { unfold n. rewrite Hs, app_assoc, length_app, Hcrc. lia. }
  assert (Hfirst : firstn n s = body ++ str "6304").
  { rewrite Hn, Hs, app_assoc. rewrite firstn_app, firstn_all, Nat.sub_diag.
    cbn [firstn]. apply app_nil_r. }
  assert (Hskip : skipn n s = crc).
  { rewrite Hn, Hs, app_assoc. rewrite skipn_app, skipn_all, Nat.sub_diag.
    reflexivity. }
  exists data. rewrite Hfirst, Hskip.
  split; [exact Hdata|]. split; [reflexivity|]. split; [exact Hcrc|].
  split; [apply hex4_upper_hex; exact Hrange|].
  exists body. reflexivity.
Qed.

End EncoderClaims.

(** ** Sample inputs *)

Definition sample_service : PixService :=
  @PixService_init ascii_db (str "test@example.com") (str "LOJA TESTE")
    (str "SAO PAULO").

Definition sample_payload : pystr :=
  str "00020126530014br.gov.bcb.pix0116test@example.com0211MENSALIDADE520400005303986540525.005802BR5910LOJA TESTE6009SAO PAULO62100506ABC1236304023F".

Definition sample_payload_no_amount : pystr :=
  str "00020126530014br.gov.bcb.pix0116test@example.com0211MENSALIDADE5204000053039865802BR5910LOJA TESTE6009SAO PAULO62100506ABC1236304DC55".

Lemma sample_generate :
  @generate_pix_code ascii_db sample_service (Some (Finite false 2500 (-2)))
    (str "Mensalidade") (str "ABC123") []
  = Ok sample_payload.
Proof. vm_compute. reflexivity. Qed.

Lemma checksum_round_trip_witness :
  exists data,
    encode_utf8 (firstn (length sample_payload - 4) sample_payload) = Ok data
    /\ skipn (length sample_payload - 4) sample_payload
       = hex4 (crc16_ccitt_false data)
    /\ length (skipn (length sample_payload - 4) sample_payload) = 4%nat
    /\ forallb is_upper_hex
         (skipn (length sample_payload - 4) sample_payload) = true
    /\ exists body,
         firstn (length sample_payload - 4) sample_payload
         = body ++ str "6304".
Proof.
  exact (@checksum_round_trip ascii_db sample_service
           (Some (Finite false 2500 (-2))) (str "Mensalidade") (str "ABC123")
           [] sample_payload sample_generate).
Defined.


(** The sample payload read back. *)
Example sample_parse :
  parse_tlv sample_payload
  = Some [(str "00", str "01");
          (str "26",
           str "0014br.gov.bcb.pix0116test@example.com0211MENSALIDADE");
          (str "52", str "0000"); (str "53", str "986");
          (str "54", str "25.00"); (str "58", str "BR");
          (str "59", str "LOJA TESTE"); (str "60", str "SAO PAULO");
          (str "62", str "0506ABC123"); (str "63", str "023F")].
Proof. vm_compute. reflexivity. Qed.

(** ** Claims on the field builder and on the amount *)

(** C3. The field builder does not refuse a value of more than 99
    characters: for the tag ["01"] and a value of 100 characters it raises no
    error and returns the tag, the three digits ["100"] and the value, 105
    characters that do not read back as a field. *)
Lemma field_builder_long_value :
  _format_emv_field (str "01") (repeat 107 100)
  = str "01" ++ str "100" ++ repeat 107 100
  /\ length (_format_emv_field (str "01") (repeat 107 100)) = 105%nat
  /\ parse_tlv (_format_emv_field (str "01") (repeat 107 100)) = None.
Proof. vm_compute. repeat split. Qed.

Section Amount.
Context {U : Unicode}.

Lemma is_negative_not_positive (a : Decimal) :
  is_negative a = true -> is_positive (Some a) = false /\ a <> NaN.
Proof.
  destruct a as [sign c e|sign|]; cbn; intros H; try discriminate.
  - apply andb_true_iff in H as [-> _]. split; [reflexivity|discriminate].
  - subst sign. split; [reflexivity|discriminate].
Qed.

(** C4 (as the code has it). A negative amount is not rejected: the payload
    is the one produced for no amount at all, without an amount field. *)
Theorem negative_amount_omitted (self : PixService) (a : Decimal)
  (description transaction_id pix_key_arg : pystr) :
  is_negative a = true ->
  generate_pix_code self (Some a) description transaction_id pix_key_arg
  = generate_pix_code self None description transaction_id pix_key_arg
  /\ value_at (str "54")
       (payload_fields self (Some a) description transaction_id pix_key_arg)
     = None.
Proof.
  intros Hneg. destruct (is_negative_not_positive a Hneg) as [Hpos Hnan].
  assert (Hfields :
    payload_fields self (Some a) description transaction_id pix_key_arg
    = payload_fields self None description transaction_id pix_key_arg).
  { unfold payload_fields, amount_fields. rewrite Hpos. reflexivity. }
  assert (Hfr : format_raises (Some a) = false)
    by (unfold format_raises; rewrite Hpos; reflexivity).
  split.
  - rewrite !generate_pix_code_fields
      by (first [exact Hfr | reflexivity | congruence]).
    cbv zeta. rewrite Hfields. reflexivity.
  - rewrite Hfields. unfold payload_fields.
    generalize (serialize
                  (merchant_account_fields self description pix_key_arg)).
    generalize (serialize (additional_data_fields transaction_id)).
    generalize (str_or (merchant_name self) (str "PAGAMENTO")).
    generalize (str_or (merchant_city self) (str "BRASIL")).
    intros city name adf mai. reflexivity.
Qed.
End Amount.

Lemma negative_amount_omitted_witness :
  @generate_pix_code ascii_db sample_service (Some (Finite true 100 (-2)))
    (str "Mensalidade") (str "ABC123") []
  = @generate_pix_code ascii_db sample_service None
      (str "Mensalidade") (str "ABC123") []
  /\ value_at (str "54")
       (@payload_fields ascii_db sample_service (Some (Finite true 100 (-2)))
          (str "Mensalidade") (str "ABC123") [])
     = None.
Proof.
  exact (@negative_amount_omitted ascii_db sample_service
           (Finite true 100 (-2)) (str "Mensalidade") (str "ABC123") []
           eq_refl).
Defined.

(** C4 fails as stated: with the amount -1.00 the encoder returns a payload
    (the one without an amount field) and raises nothing. *)
Lemma negative_amount_returns :
  @generate_pix_code ascii_db sample_service (Some (Finite true 100 (-2)))
    (str "Mensalidade") (str "ABC123") []
  = Ok sample_payload_no_amount.
Proof. vm_compute. reflexivity. Qed.

(** ** The amount field *)



Section AmountField.
Context {U : Unicode}.

End AmountField.




(** ** A key and a description that overflow the length prefix *)

Definition long_key_service : PixService :=
  @PixService_init ascii_db
    (str "tesouraria.associacao.de.pais@colegio-exemplo.com.br")
    (str "Associacao de Pais") (str "SAO PAULO").

Definition long_key_payload : pystr :=
  str "000201261030014br.gov.bcb.pix0152tesouraria.associacao.de.pais@colegio-exemplo.com.br0225FESTA JUNINA 2025 TURMA B520400005303986540535.005802BR5918ASSOCIACAO DE PAIS6009SAO PAULO62100506ABC1236304420A".

(** C5 fails on the code: with a 52-character e-mail key and a 25-character
    description the merchant account information has 103 characters, its
    length is written with three digits, the payload is one character longer
    than the sum of [2 + 2 + len(value)] over its fields, and it does not
    read back as tag-length-value fields. *)
Lemma length_prefix_overflow :
  @generate_pix_code ascii_db long_key_service
    (Some (Finite false 3500 (-2))) (str "Festa Junina 2025 Turma B")
    (str "ABC123") []
  = Ok long_key_payload
  /\ length long_key_payload
     = (tlv_length
          (@payload_fields ascii_db long_key_service
             (Some (Finite false 3500 (-2)))
             (str "Festa Junina 2025 Turma B") (str "ABC123") []
             ++ [(CRC16, str "420A")]) + 1)%nat
  /\ firstn 7 (skipn 6 long_key_payload) = str "2610300"
  /\ parse_tlv long_key_payload = None.
Proof. vm_compute. repeat split. Qed.

(** ** What the proofs use of the character database *)

(** A string without whitespace at either end. *)
Definition trimmed {U : Unicode} (s : pystr) : bool :=
  match s with
  | [] => true
  | c :: _ => negb (isspace c) && negb (isspace (last s 0))
  end.

(** Facts of the Unicode character database and of [str.lower],
    [str.upper]: their values on the ASCII characters, and that lowering a
    string is idempotent, keeps an ["@"], brings no whitespace to the ends
    and no surrogate. *)
Class UnicodeSpec (U : Unicode) : Prop := {
  isspace_ascii :
    forall c, is_ascii c = true -> isspace c = ascii_isspace c;
  decimal_ascii :
    forall c, is_ascii c = true -> decimal c = ascii_decimal c;
  lower_ascii :
    forall s, forallb is_ascii s = true -> lower s = map ascii_lower s;
  upper_ascii :
    forall s, forallb is_ascii s = true -> upper s = map ascii_upper s;
  nfd_ascii : forall s, forallb is_ascii s = true -> nfd s = s;
  category_Mn_ascii :
    forall c, is_ascii c = true -> category_Mn c = false;
  decimal_not_space : forall c, is_digit c = true -> isspace c = false;
  lower_idempotent : forall s, lower (lower s) = lower s;
  lower_at : forall s, contains 64 s = true -> contains 64 (lower s) = true;
  lower_trimmed : forall s, trimmed s = true -> trimmed (lower s) = true;
  lower_scalar :
    forall s, forallb is_scalar s = true -> forallb is_scalar (lower s) = true
}.

(** *** Stripping *)

Section Strip.
Context {U : Unicode}.

Lemma lstrip_suffix (s : pystr) :
  exists p, s = p ++ lstrip s /\ forallb isspace p = true.
Proof.
  induction s as [|c s IH]; cbn [lstrip].
  - exists []. split; reflexivity.
  - destruct (isspace c) eqn:Hc.
    + destruct IH as [p [Hp Hsp]]. exists (c :: p). split.
      * cbn [app]. f_equal. exact Hp.
      * cbn [forallb]. rewrite Hc, Hsp. reflexivity.
    + exists []. split; reflexivity.
Qed.

Lemma lstrip_head (s : pystr) :
  match lstrip s with
  | [] => True
  | c :: _ => isspace c = false
  end.
Proof.
  induction s as [|c s IH]; cbn [lstrip]; [exact I|].
  destruct (isspace c) eqn:Hc; [exact IH|exact Hc].
Qed.

Lemma lstrip_fixed (c : Z) (s : pystr) :
  isspace c = false -> lstrip (c :: s) = c :: s.
Proof. intros Hc. cbn [lstrip]. rewrite Hc. reflexivity. Qed.

Lemma last_rev_cons (c : Z) (s : pystr) (d : Z) :
  last (rev (c :: s)) d = c.
Proof. cbn [rev]. apply last_last. Qed.

Lemma rev_head_last (s : pystr) (d : Z) :
  s <> [] -> exists t, rev s = last s d :: t.
Proof.
  intros Hs. destruct (exists_last Hs) as [t [c ->]].
  rewrite rev_app_distr, last_last. cbn. eexists. reflexivity.
Qed.

(** A trimmed string is left alone by [strip]. *)
Lemma strip_trimmed (s : pystr) : trimmed s = true -> strip s = s.
Proof.
  unfold trimmed, strip, rstrip. destruct s as [|c s]; [reflexivity|].
  intros H. apply andb_true_iff in H as [Hc Hl].
  apply negb_true_iff in Hc, Hl.
  rewrite lstrip_fixed by exact Hc.
  destruct (rev_head_last (c :: s) 0 ltac:(discriminate)) as [t Ht].
  rewrite Ht, lstrip_fixed by exact Hl. rewrite <- Ht. apply rev_involutive.
Qed.

(** [strip] returns a trimmed string. *)
Lemma trimmed_strip (s : pystr) : trimmed (strip s) = true.
Proof.
  unfold strip, rstrip.
  pose proof (lstrip_head s) as Hhead.
  destruct (lstrip s) as [|c t] eqn:Ht; [reflexivity|].
  destruct (lstrip_suffix (rev (c :: t))) as [p [Hp Hsp]].
  pose proof (lstrip_head (rev (c :: t))) as Hhead2.
  destruct (lstrip (rev (c :: t))) as [|c2 u] eqn:Hu; [reflexivity|].
  apply (f_equal (@rev Z)) in Hp.
  rewrite rev_involutive, rev_app_distr in Hp.
  unfold trimmed.
  destruct (rev (c2 :: u)) as [|c3 v] eqn:Hv.
  - apply (f_equal (@length Z)) in Hv. rewrite length_rev in Hv. discriminate.
  - cbn [app] in Hp. injection Hp as Hc3 _. subst c3.
    rewrite Hhead. cbn [negb andb]. rewrite <- Hv, last_rev_cons, Hhead2.
    reflexivity.
Qed.

Lemma strip_idempotent (s : pystr) : strip (strip s) = strip s.
Proof. apply strip_trimmed, trimmed_strip. Qed.

Lemma lstrip_forallb (P : Z -> bool) (s : pystr) :
  forallb P s = true -> forallb P (lstrip s) = true.
Proof.
  induction s as [|c s IH]; cbn [lstrip forallb]; [reflexivity|].
  intros H. apply andb_true_iff in H as [Hc Hs].
  destruct (isspace c); [apply IH; exact Hs|].
  cbn [forallb]. rewrite Hc, Hs. reflexivity.
Qed.

Lemma forallb_rev (P : Z -> bool) (s : pystr) :
  forallb P (rev s) = forallb P s.
Proof.
  induction s as [|c s IH]; [reflexivity|].
  cbn [rev forallb]. rewrite forallb_app, IH. cbn [forallb].
  rewrite andb_true_r. apply andb_comm.
Qed.

(** [strip] keeps a property of all the characters. *)
Lemma strip_forallb (P : Z -> bool) (s : pystr) :
  forallb P s = true -> forallb P (strip s) = true.
Proof.
  intros H. unfold strip, rstrip. rewrite forallb_rev.
  apply lstrip_forallb. rewrite forallb_rev. apply lstrip_forallb. exact H.
Qed.

Lemma trimmed_no_space (s : pystr) :
  forallb (fun c => negb (isspace c)) s = true -> trimmed s = true.
Proof.
  intros H. unfold trimmed. destruct s as [|c s]; [reflexivity|].
  assert (Hin : forall x, In x (c :: s) -> negb (isspace x) = true)
    by (apply forallb_forall; exact H).
  rewrite (Hin c (or_introl eq_refl)). cbn [andb]. apply Hin.
  destruct (exists_last (l := c :: s) ltac:(discriminate)) as [t [x Hx]].
  rewrite Hx, last_last. apply in_or_app. right. left. reflexivity.
Qed.
End Strip.

(** *** The sample database satisfies the specification *)

Lemma ascii_lower_idempotent (c : Z) : ascii_lower (ascii_lower c) = ascii_lower c.
Proof.
  unfold ascii_lower, is_ascii_upper.
  destruct ((65 <=? c) && (c <=? 90)) eqn:H; [|rewrite H; reflexivity].
  destruct ((65 <=? c + 32) && (c + 32 <=? 90)) eqn:H2; [lia|reflexivity].
Qed.

Lemma ascii_lower_space (c : Z) :
  ascii_isspace (ascii_lower c) = ascii_isspace c.
Proof.
  unfold ascii_lower, is_ascii_upper, ascii_isspace.
  destruct ((65 <=? c) && (c <=? 90)) eqn:H; [|reflexivity]. lia.
Qed.

Lemma ascii_lower_scalar (c : Z) :
  is_scalar c = true -> is_scalar (ascii_lower c) = true.
Proof.
  unfold ascii_lower, is_ascii_upper, is_scalar.
  destruct ((65 <=? c) && (c <=? 90)) eqn:H; [|trivial]. lia.
Qed.

Lemma last_map (f : Z -> Z) (s : pystr) (d : Z) :
  last (map f s) (f d) = f (last s d).
Proof.
  induction s as [|c s IH]; [reflexivity|].
  destruct s as [|c' s]; [reflexivity|].
  change (last (f c' :: map f s) (f d) = f (last (c' :: s) d)).
  exact IH.
Qed.

Lemma ascii_db_spec : UnicodeSpec ascii_db.
Proof.
  constructor; cbn [isspace decimal lower upper nfd category_Mn ascii_db].
  - reflexivity.
  - reflexivity.
  - reflexivity.
  - reflexivity.
  - reflexivity.
  - reflexivity.
  - intros c. unfold is_digit. cbn [decimal ascii_db].
    unfold ascii_decimal, is_ascii_digit, ascii_isspace.
    destruct ((48 <=? c) && (c <=? 57)) eqn:H; [|discriminate]. lia.
  - intros s. rewrite map_map. apply map_ext. apply ascii_lower_idempotent.
  - intros s. unfold contains. induction s as [|c s IH]; cbn [existsb map].
    + trivial.
    + intros H. apply orb_true_iff in H as [H|H].
      * apply Z.eqb_eq in H. subst c. reflexivity.
      * rewrite (IH H). apply orb_true_r.
  - intros s. unfold trimmed. cbn [isspace ascii_db].
    destruct s as [|c s]; [reflexivity|].
    change (map ascii_lower (c :: s)) with (ascii_lower c :: map ascii_lower s).
    change (ascii_lower c :: map ascii_lower s)
      with (map ascii_lower (c :: s)) at 2.
    change 0 with (ascii_lower 0) at 2.
    rewrite last_map, !ascii_lower_space. trivial.
  - intros s. induction s as [|c s IH]; cbn [forallb map]; [trivial|].
    intros H. apply andb_true_iff in H as [Hc Hs].
    rewrite ascii_lower_scalar, IH by assumption. reflexivity.
Qed.

(** ** The key normalizer *)

Lemma filter_forallb (p : Z -> bool) (s : pystr) :
  forallb p s = true -> filter p s = s.
Proof.
  induction s as [|c s IH]; cbn [forallb filter]; [reflexivity|].
  intros H. apply andb_true_iff in H as [Hc Hs].
  rewrite Hc, IH by exact Hs. reflexivity.
Qed.

Lemma forallb_impl (p q : Z -> bool) (s : pystr) :
  (forall c, p c = true -> q c = true) ->
  forallb p s = true -> forallb q s = true.
Proof.
  intros Hpq H. apply forallb_forall. intros c Hc. apply Hpq.
  revert c Hc. apply forallb_forall. exact H.
Qed.

Lemma forallb_firstn_skipn (p : Z -> bool) (n : nat) (s : pystr) :
  forallb p s = true ->
  forallb p (firstn n s) = true /\ forallb p (skipn n s) = true.
Proof.
  intros H. rewrite <- (firstn_skipn n s), forallb_app in H.
  apply andb_true_iff in H. exact H.
Qed.

Lemma forallb_slice (p : Z -> bool) (a b : nat) (s : pystr) :
  forallb p s = true -> forallb p (slice a b s) = true.
Proof.
  intros H. unfold slice. apply forallb_firstn_skipn.
  apply forallb_firstn_skipn. exact H.
Qed.

Lemma take_class_all (cls : Z -> bool) :
  forall (n : nat) (s : pystr),
    forallb cls s = true -> (n <= length s)%nat ->
    take_class cls n s = Some (skipn n s).
Proof.
  induction n as [|n IH]; intros s Hs Hn; [reflexivity|].
  destruct s as [|c s]; [cbn [length] in Hn; lia|].
  cbn [forallb] in Hs. apply andb_true_iff in Hs as [Hc Hs].
  cbn [take_class skipn]. rewrite Hc. apply IH; [exact Hs|].
  cbn [length] in Hn. lia.
Qed.

Lemma take_class_length (cls : Z -> bool) :
  forall (n : nat) (s r : pystr),
    take_class cls n s = Some r ->
    s = firstn n s ++ r /\ length (firstn n s) = n
    /\ forallb cls (firstn n s) = true.
Proof.
  induction n as [|n IH]; intros s r H.
  - cbn in H. injection H as <-. repeat split.
  - destruct s as [|c s]; [discriminate|]. cbn [take_class] in H.
    destruct (cls c) eqn:Hc; [|discriminate].
    destruct (IH s r H) as [Hs [Hl Hf]]. cbn [firstn app length forallb].
    rewrite Hc, Hf, Hl. repeat split. f_equal. exact Hs.
Qed.

Lemma re_match_plus_dollar (cls : Z -> bool) (s : pystr) :
  forallb cls s = true -> s <> [] -> re_match [Plus cls; Dollar] s = true.
Proof.
  induction s as [|c s IH]; intros H Hne; [contradiction|].
  cbn [forallb] in H. apply andb_true_iff in H as [Hc Hs].
  destruct s as [|c' s].
  - cbn. rewrite Hc. reflexivity.
  - specialize (IH Hs ltac:(discriminate)).
    change (re_match [Plus cls; Dollar] (c :: c' :: s))
      with (cls c && (re_match [Plus cls; Dollar] (c' :: s)
                      || re_match [Dollar] (c' :: s))).
    rewrite Hc, IH. reflexivity.
Qed.

Lemma is_hex_ascii (c : Z) :
  is_hex c = true ->
  is_ascii c = true /\ ascii_isspace c = false /\ c <> 64 /\ c <> 45
  /\ is_ascii (ascii_lower c) = true.
Proof.
  unfold is_hex, is_ascii_digit, is_ascii, ascii_isspace, ascii_lower,
    is_ascii_upper.
  intros H. destruct ((65 <=? c) && (c <=? 90)) eqn:Hu; lia.
Qed.

Lemma contains_false (x : Z) (s : pystr) :
  (forall c, In c s -> c <> x) -> contains x s = false.
Proof.
  intros H. unfold contains. induction s as [|c s IH]; [reflexivity|].
  cbn [existsb]. rewrite IH by (intros c' Hc'; apply H; right; exact Hc').
  rewrite orb_false_r. apply Z.eqb_neq. intros ->.
  apply (H c); [left|]; reflexivity.
Qed.

Section KeyNormalizer.
Context {U : Unicode} {US : UnicodeSpec U}.

Lemma normalize_pix_key_strip (key : pystr) :
  key <> [] -> strip key <> [] ->
  _normalize_pix_key key = _normalize_pix_key (strip key).
Proof.
  intros Hne Hsne. destruct key as [|c0 k0]; [contradiction|].
  pose proof (strip_idempotent (c0 :: k0)) as Hi.
  destruct (strip (c0 :: k0)) as [|c k] eqn:Hs; [contradiction|].
  unfold _normalize_pix_key. rewrite Hs, Hi. reflexivity.
Qed.

Lemma hex_trimmed (s : pystr) : forallb is_hex s = true -> trimmed s = true.
Proof.
  intros H. apply trimmed_no_space. revert H. apply forallb_impl.
  intros c Hc. destruct (is_hex_ascii c Hc) as [Ha [Hs _]].
  rewrite isspace_ascii, Hs by exact Ha. reflexivity.
Qed.

Lemma hex32_reformatted (key : pystr) :
  length key = 32%nat -> forallb is_hex key = true ->
  re_match uuid_pattern key = false
  /\ _normalize_pix_key key
     = map ascii_lower
         (firstn 8 key ++ str "-" ++ slice 8 12 key ++ str "-"
            ++ slice 12 16 key ++ str "-" ++ slice 16 20 key ++ str "-"
            ++ skipn 20 key).
Proof.
  intros Hlen Hhex.
  assert (Huuid : re_match uuid_pattern key = false).
  { unfold uuid_pattern. cbn [re_match].
    rewrite take_class_all by (first [exact Hhex | lia]).
    destruct (skipn 8 key) as [|c r] eqn:Hskip.
    - reflexivity.
    - assert (Hc : is_hex c = true).
      { assert (Hin : In c key).
        { rewrite <- (firstn_skipn 8 key), Hskip. apply in_or_app. right.
          left. reflexivity. }
        apply (proj1 (forallb_forall is_hex key) Hhex c Hin). }
      destruct (is_hex_ascii c Hc) as [_ [_ [_ [Hne _]]]].
      apply Z.eqb_neq in Hne. rewrite Hne. reflexivity. }
  split; [exact Huuid|].
  destruct key as [|c0 k0] eqn:Hkey; [discriminate|]. rewrite <- Hkey in *.
  assert (Hunf : _normalize_pix_key key
                 = _normalize_pix_key (c0 :: k0)) by (rewrite Hkey; reflexivity).
  rewrite Hunf. unfold _normalize_pix_key. rewrite <- Hkey.
  rewrite (strip_trimmed key (hex_trimmed key Hhex)).
  rewrite contains_false.
  2:{ intros c Hin. apply (is_hex_ascii c).
      revert c Hin. apply forallb_forall. exact Hhex. }
  rewrite Huuid, (filter_forallb is_hex key Hhex), Hlen.
  unfold hex_pattern. rewrite re_match_plus_dollar by (first [exact Hhex | rewrite Hkey; discriminate]).
  cbn [Nat.eqb andb]. unfold slice_from. change (slice 0 8 key) with (firstn 8 key).
  apply lower_ascii.
  assert (Hascii : forallb is_ascii key = true).
  { revert Hhex. apply forallb_impl. intros c Hc. apply (is_hex_ascii c Hc). }
  assert (Hsub : forall a b, forallb is_ascii (slice a b key) = true)
    by (intros a b; apply forallb_slice; exact Hascii).
  assert (Hfirst : forallb is_ascii (firstn 8 key) = true)
    by (apply forallb_firstn_skipn; exact Hascii).
  assert (Hlast : forallb is_ascii (skipn 20 key) = true)
    by (apply forallb_firstn_skipn; exact Hascii).
  rewrite !forallb_app, Hfirst, !Hsub, Hlast. reflexivity.
Qed.

(** C8 (as the code has it). A key that, stripped of the whitespace around
    it, is exactly 32 hexadecimal characters and nothing else (no hyphen) is
    not a full UUID, and it is normalized to these characters in lower case
    with a hyphen after the positions 8, 12, 16 and 20. *)
Theorem hex32_key_reformatted (key : pystr) :
  length (strip key) = 32%nat -> forallb is_hex (strip key) = true ->
  re_match uuid_pattern (strip key) = false
  /\ _normalize_pix_key key
     = map ascii_lower
         (firstn 8 (strip key) ++ str "-" ++ slice 8 12 (strip key)
            ++ str "-" ++ slice 12 16 (strip key) ++ str "-"
            ++ slice 16 20 (strip key) ++ str "-" ++ skipn 20 (strip key)).
Proof.
  intros Hlen Hhex.
  destruct (hex32_reformatted (strip key) Hlen Hhex) as [Hu Hn].
  split; [exact Hu|]. rewrite <- Hn.
  apply normalize_pix_key_strip.
  - intros ->. discriminate.
  - intros E. rewrite E in Hlen. discriminate.
Qed.
End KeyNormalizer.

Lemma hex32_key_reformatted_witness :
  re_match uuid_pattern (str "a1b2c3d4e5f6a1b2c3d4e5f6a1b2c3d4") = false
  /\ @_normalize_pix_key ascii_db (str "a1b2c3d4e5f6a1b2c3d4e5f6a1b2c3d4")
     = str "a1b2c3d4-e5f6-a1b2-c3d4-e5f6a1b2c3d4".
Proof.
  exact (@hex32_key_reformatted ascii_db ascii_db_spec
           (str "a1b2c3d4e5f6a1b2c3d4e5f6a1b2c3d4") eq_refl eq_refl).
Defined.

(** C8 fails as stated: a key of 32 hexadecimal characters with a hyphen
    among them, which is not a full UUID, is not reformatted; it is returned
    as it is. *)
Lemma hyphenated_hex_key_kept :
  @_normalize_pix_key ascii_db (str "a1b2c3d4-e5f6a1b2c3d4e5f6a1b2c3d4")
  = str "a1b2c3d4-e5f6a1b2c3d4e5f6a1b2c3d4"
  /\ re_match uuid_pattern (str "a1b2c3d4-e5f6a1b2c3d4e5f6a1b2c3d4") = false
  /\ length (filter is_hex (str "a1b2c3d4-e5f6a1b2c3d4e5f6a1b2c3d4"))
     = 32%nat.
Proof. vm_compute. repeat split. Qed.

(** ** Eleven digits: phone or CPF *)

Section ElevenDigits.
Context {U : Unicode}.

(** The mobile shape of eleven digits: a 9 at index 2 after an area code
    from 11 to 99. *)
Definition mobile_shape (digits : pystr) : bool :=
  (nth 2 digits 0 =? 57)
  && (11 <=? int_of_digits (firstn 2 digits))
  && (int_of_digits (firstn 2 digits) <=? 99).

Definition has_parentheses (key : pystr) : bool :=
  existsb (fun c => (c =? 40) || (c =? 41)) key.

Lemma looks_like_br_phone_eleven (digits : pystr) :
  length digits = 11%nat -> looks_like_br_phone digits = mobile_shape digits.
Proof.
  intros Hlen. unfold looks_like_br_phone, mobile_shape. rewrite Hlen.
  cbn [Nat.eqb andb]. destruct (nth 2 digits 0 =? 57); reflexivity.
Qed.

(** The normalizer on a key with eleven digits that none of the rules for
    e-mail, UUID, 32 hexadecimal characters, formatted CPF and CNPJ takes. *)
Lemma normalize_eleven_digits (key : pystr) :
  key <> [] ->
  length (filter is_digit (strip key)) = 11%nat ->
  contains 64 (strip key) = false ->
  re_match uuid_pattern (strip key) = false ->
  (length (filter is_hex (strip key)) =? 32)%nat
  && re_match hex_pattern (strip key) = false ->
  re_match cpf_formatted_pattern (strip key) = false ->
  re_match cnpj_pattern (strip key) = false ->
  _normalize_pix_key key
  = if startswith (str "+") (strip key)
    then str "+" ++ filter is_digit (strip key)
    else if mobile_shape (filter is_digit (strip key))
         then str "+55" ++ filter is_digit (strip key)
         else if has_parentheses (strip key)
              then str "+55" ++ filter is_digit (strip key)
              else filter is_digit (strip key).
Proof.
  intros Hne Hlen Hat Huuid Hhex Hcpf Hcnpj.
  destruct key as [|c0 k0]; [contradiction|].
  unfold _normalize_pix_key.
  rewrite Hat, Huuid, Hhex, Hcpf, Hcnpj.
  rewrite (looks_like_br_phone_eleven _ Hlen), Hlen.
  cbn [andb Nat.eqb Nat.leb negb]. rewrite andb_false_r, !orb_false_r.
  rewrite andb_true_r. fold (has_parentheses (strip (c0 :: k0))).
  destruct (startswith (str "+") (strip (c0 :: k0))); [reflexivity|].
  cbn [orb].
  destruct (has_parentheses (strip (c0 :: k0)));
    destruct (mobile_shape (filter is_digit (strip (c0 :: k0))));
    reflexivity.
Qed.

(** C7 (as the code has it). For a key whose digits are exactly eleven and
    that no earlier rule takes: with the mobile shape and no leading "+" the
    result is "+55" and the digits; with a leading "+" it is "+" and the
    digits; without the mobile shape, a leading "+" or parentheses it is the
    bare digits. *)
Theorem phone_cpf_tie_break (key : pystr) :
  key <> [] ->
  length (filter is_digit (strip key)) = 11%nat ->
  contains 64 (strip key) = false ->
  re_match uuid_pattern (strip key) = false ->
  (length (filter is_hex (strip key)) =? 32)%nat
  && re_match hex_pattern (strip key) = false ->
  re_match cpf_formatted_pattern (strip key) = false ->
  re_match cnpj_pattern (strip key) = false ->
  (mobile_shape (filter is_digit (strip key)) = true ->
   startswith (str "+") (strip key) = false ->
   _normalize_pix_key key = str "+55" ++ filter is_digit (strip key))
  /\ (startswith (str "+") (strip key) = true ->
      _normalize_pix_key key = str "+" ++ filter is_digit (strip key))
  /\ (mobile_shape (filter is_digit (strip key)) = false ->
      startswith (str "+") (strip key) = false ->
      has_parentheses (strip key) = false ->
      _normalize_pix_key key = filter is_digit (strip key)).
Proof.
  intros Hne Hlen Hat Huuid Hhex Hcpf Hcnpj.
  rewrite (normalize_eleven_digits key Hne Hlen Hat Huuid Hhex Hcpf Hcnpj).
  split; [|split].
  - intros -> ->. reflexivity.
  - intros ->. reflexivity.
  - intros -> -> ->. reflexivity.
Qed.
End ElevenDigits.

Lemma phone_cpf_tie_break_witness :
  @_normalize_pix_key ascii_db (str "11987654321") = str "+5511987654321".
Proof.
  exact (proj1 (@phone_cpf_tie_break ascii_db (str "11987654321")
                  ltac:(discriminate) eq_refl eq_refl eq_refl eq_refl
                  eq_refl eq_refl)
           eq_refl eq_refl).
Defined.

(** C7 fails as stated: the eleven digits of "+11987654321" have the mobile
    shape and no earlier rule takes the key, yet the result is "+" and the
    digits, not "+55" and the digits. *)
Lemma plus_key_keeps_digits :
  @_normalize_pix_key ascii_db (str "+11987654321") = str "+11987654321"
  /\ @mobile_shape ascii_db
       (filter (@is_digit ascii_db) (str "+11987654321")) = true
  /\ length (filter (@is_digit ascii_db) (str "+11987654321")) = 11%nat.
Proof. vm_compute. repeat split. Qed.

(** ** What a match tells about the string *)

Lemma re_match_plus_cons (cls : Z -> bool) (r : list re_item) (c : Z)
  (s : pystr) :
  re_match (Plus cls :: r) (c :: s)
  = cls c && (re_match (Plus cls :: r) s || re_match r s).
Proof. reflexivity. Qed.

Lemma re_match_rep_cons (cls : Z -> bool) (n : nat) (r : list re_item)
  (c : Z) (s : pystr) :
  re_match (Rep cls (S n) :: r) (c :: s)
  = cls c && re_match (Rep cls n :: r) s.
Proof. cbn [re_match take_class]. destruct (cls c); reflexivity. Qed.

Lemma re_match_rep_app (cls : Z -> bool) (r : list re_item) :
  forall (n : nat) (a b : pystr),
    length a = n -> forallb cls a = true ->
    re_match (Rep cls n :: r) (a ++ b) = re_match r b.
Proof.
  induction n as [|n IH]; intros a b Hlen Ha.
  - destruct a; [reflexivity|discriminate].
  - destruct a as [|c a]; [discriminate|].
    cbn [forallb] in Ha. apply andb_true_iff in Ha as [Hc Ha].
    cbn [app]. rewrite re_match_rep_cons, Hc. cbn [andb].
    apply IH; [|exact Ha]. cbn [length] in Hlen. lia.
Qed.

Lemma re_match_lit (c : Z) (r : list re_item) (s : pystr) :
  re_match (Lit c :: r) (c :: s) = re_match r s.
Proof. cbn [re_match]. rewrite Z.eqb_refl. reflexivity. Qed.

Lemma re_match_opt_skip (c : Z) (r : list re_item) (s : pystr) :
  re_match r s = true -> re_match (Opt c :: r) s = true.
Proof.
  intros H. cbn [re_match]. destruct s; [exact H|].
  rewrite H. apply orb_true_r.
Qed.

(** The least length of a string that a pattern matches. *)
Fixpoint min_length (r : list re_item) : nat :=
  match r with
  | [] => 0
  | Rep _ n :: r' => n + min_length r'
  | Lit _ :: r' => S (min_length r')
  | Opt _ :: r' => min_length r'
  | Plus _ :: r' => S (min_length r')
  | Dollar :: r' => min_length r'
  end.

Lemma re_match_min_length (r : list re_item) :
  forall s, re_match r s = true -> (min_length r <= length s)%nat.
Proof.
  induction r as [|it r IH]; intros s H; [cbn; lia|].
  destruct it as [cls n|c|c|cls|]; cbn [min_length].
  - cbn [re_match] in H. destruct (take_class cls n s) as [s'|] eqn:Ht;
      [|discriminate].
    apply take_class_length in Ht as [Hs [Hl _]]. specialize (IH _ H).
    rewrite Hs, length_app, Hl. lia.
  - cbn [re_match] in H. destruct s as [|c' s']; [discriminate|].
    apply andb_true_iff in H as [_ H]. specialize (IH _ H).
    cbn [length]. lia.
  - cbn [re_match] in H. destruct s as [|c' s']; [exact (IH _ H)|].
    apply orb_true_iff in H as [H|H].
    + apply andb_true_iff in H as [_ H]. specialize (IH _ H).
      cbn [length]. lia.
    + exact (IH _ H).
  - induction s as [|c' s' IHs]; [discriminate|].
    rewrite re_match_plus_cons in H. apply andb_true_iff in H as [_ H].
    apply orb_true_iff in H as [H|H].
    + specialize (IHs H). cbn [length]. lia.
    + specialize (IH _ H). cbn [length]. lia.
  - cbn [re_match] in H. apply andb_true_iff in H as [_ H]. exact (IH _ H).
Qed.

Lemma re_match_short (r : list re_item) (s : pystr) :
  (length s < min_length r)%nat -> re_match r s = false.
Proof.
  intros Hlt. destruct (re_match r s) eqn:H; [|reflexivity].
  apply re_match_min_length in H. lia.
Qed.

(** The characters an item can take all satisfy [Q]. *)
Definition item_chars (Q : Z -> bool) (it : re_item) : Prop :=
  match it with
  | Rep cls _ | Plus cls => forall c, cls c = true -> Q c = true
  | Lit c | Opt c => Q c = true
  | Dollar => True
  end.

Definition is_dollar (it : re_item) : bool :=
  match it with
  | Dollar => true
  | _ => false
  end.

Lemma at_end_chars (Q : Z -> bool) (s : pystr) :
  at_end s = true -> forallb (fun c => Q c || (c =? 10)) s = true.
Proof.
  destruct s as [|c [|c' s]]; cbn [at_end forallb]; try discriminate.
  - reflexivity.
  - intros ->. rewrite orb_true_r. reflexivity.
Qed.

(** A string matched by a pattern with a [$] is made of the characters of
    the pattern, and perhaps a final newline. *)
Lemma re_match_chars (Q : Z -> bool) (r : list re_item) :
  Forall (item_chars Q) r -> existsb is_dollar r = true ->
  forall s, re_match r s = true ->
            forallb (fun c => Q c || (c =? 10)) s = true.
Proof.
  induction r as [|it r IH]; intros Hr Hd s H; [discriminate|].
  inversion Hr as [|it' r' Hit Hr']; subst.
  destruct it as [cls n|c|c|cls|]; cbn [existsb is_dollar orb] in Hd.
  - cbn [re_match] in H. destruct (take_class cls n s) as [s'|] eqn:Ht;
      [|discriminate].
    apply take_class_length in Ht as [Hs [_ Hf]].
    rewrite Hs, forallb_app, (IH Hr' Hd _ H), andb_true_r.
    revert Hf. apply forallb_impl. intros c Hc. rewrite (Hit c Hc).
    reflexivity.
  - cbn [re_match] in H. destruct s as [|c' s']; [discriminate|].
    apply andb_true_iff in H as [Hc H]. apply Z.eqb_eq in Hc. subst c'.
    cbn [forallb]. cbn [item_chars] in Hit.
    rewrite Hit, (IH Hr' Hd _ H). reflexivity.
  - cbn [re_match] in H. destruct s as [|c' s']; [reflexivity|].
    apply orb_true_iff in H as [H|H].
    + apply andb_true_iff in H as [Hc H]. apply Z.eqb_eq in Hc. subst c'.
      cbn [forallb]. cbn [item_chars] in Hit.
      rewrite Hit, (IH Hr' Hd _ H). reflexivity.
    + exact (IH Hr' Hd _ H).
  - induction s as [|c' s' IHs]; [reflexivity|].
    rewrite re_match_plus_cons in H. apply andb_true_iff in H as [Hc H].
    cbn [forallb]. rewrite (Hit c' Hc). cbn [orb andb].
    apply orb_true_iff in H as [H|H]; [exact (IHs H)|exact (IH Hr' Hd _ H)].
  - cbn [re_match] in H. apply andb_true_iff in H as [H _].
    apply at_end_chars. exact H.
Qed.

(** A map on characters that no item of the pattern tells from the
    identity. *)
Definition item_stable (f : Z -> Z) (it : re_item) : Prop :=
  match it with
  | Rep cls _ | Plus cls => forall c, cls (f c) = cls c
  | Lit x | Opt x => forall c, (f c =? x) = (c =? x)
  | Dollar => True
  end.

Lemma take_class_map (f : Z -> Z) (cls : Z -> bool) :
  (forall c, cls (f c) = cls c) ->
  forall n s,
    take_class cls n (map f s) = option_map (map f) (take_class cls n s).
Proof.
  intros Hf. induction n as [|n IH]; intros s; [reflexivity|].
  destruct s as [|c s]; [reflexivity|].
  cbn [map take_class]. rewrite Hf. destruct (cls c); [apply IH|reflexivity].
Qed.

Lemma at_end_map (f : Z -> Z) (s : pystr) :
  (forall c, (f c =? 10) = (c =? 10)) -> at_end (map f s) = at_end s.
Proof.
  intros Hf. destruct s as [|c [|c' s]]; cbn [map at_end];
    [reflexivity|apply Hf|reflexivity].
Qed.

Lemma re_match_map (f : Z -> Z) (r : list re_item) :
  (forall c, (f c =? 10) = (c =? 10)) -> Forall (item_stable f) r ->
  forall s, re_match r (map f s) = re_match r s.
Proof.
  intros Hnl. induction r as [|it r IH]; intros Hr s; [reflexivity|].
  inversion Hr as [|it' r' Hit Hr']; subst. specialize (IH Hr').
  destruct it as [cls n|x|x|cls|]; cbn [item_stable] in Hit.
  - cbn [re_match]. rewrite (take_class_map f cls Hit).
    destruct (take_class cls n s); cbn [option_map]; [apply IH|reflexivity].
  - destruct s as [|c s]; [reflexivity|].
    cbn [map re_match]. rewrite Hit, IH. reflexivity.
  - destruct s as [|c s]; [apply (IH [])|].
    change (re_match (Opt x :: r) (map f (c :: s)))
      with ((f c =? x) && re_match r (map f s)
            || re_match r (map f (c :: s))).
    rewrite Hit, !IH. reflexivity.
  - induction s as [|c s IHs]; [reflexivity|].
    cbn [map]. rewrite !re_match_plus_cons, IHs, IH, Hit. reflexivity.
  - cbn [re_match]. rewrite (at_end_map f s Hnl), IH. reflexivity.
Qed.

Lemma ascii_lower_hex (c : Z) : is_hex (ascii_lower c) = is_hex c.
Proof.
  unfold ascii_lower, is_ascii_upper, is_hex, is_ascii_digit.
  destruct ((65 <=? c) && (c <=? 90)) eqn:H; [|reflexivity]. lia.
Qed.

Lemma ascii_lower_eqb (x c : Z) :
  is_ascii_upper x = false -> is_ascii_lower x = false ->
  (ascii_lower c =? x) = (c =? x).
Proof.
  unfold ascii_lower, is_ascii_upper, is_ascii_lower.
  destruct ((65 <=? c) && (c <=? 90)) eqn:H; [|reflexivity]. lia.
Qed.

Lemma uuid_pattern_lower (s : pystr) :
  re_match uuid_pattern (map ascii_lower s) = re_match uuid_pattern s.
Proof.
  apply re_match_map.
  - intros c. apply ascii_lower_eqb; reflexivity.
  - unfold uuid_pattern.
    repeat (apply Forall_cons;
            [first [exact ascii_lower_hex
                   | intros c; apply ascii_lower_eqb; reflexivity
                   | exact I]|]).
    apply Forall_nil.
Qed.

Lemma uuid_pattern_ascii (s : pystr) :
  re_match uuid_pattern s = true -> forallb is_ascii s = true.
Proof.
  intros H.
  apply (re_match_chars (fun c => is_hex c || (c =? 45))) in H.
  - revert H. apply forallb_impl. intros c.
    unfold is_hex, is_ascii_digit, is_ascii. lia.
  - unfold uuid_pattern.
    repeat (apply Forall_cons;
            [first [exact I
                   | reflexivity
                   | intros c Hc; cbn beta; rewrite Hc; reflexivity]|]).
    apply Forall_nil.
  - reflexivity.
Qed.

(** ** Keys the normalizer leaves alone *)

Definition hyphenated (h : pystr) : pystr :=
  slice 0 8 h ++ [45] ++ slice 8 12 h ++ [45] ++ slice 12 16 h ++ [45]
    ++ slice 16 20 h ++ [45] ++ slice_from 20 h.

Lemma uuid_pattern_hyphenated (h : pystr) :
  length h = 32%nat -> forallb is_hex h = true ->
  re_match uuid_pattern (hyphenated h) = true.
Proof.
  intros Hlen Hh. unfold uuid_pattern, hyphenated.
  assert (Hs : forall a b, forallb is_hex (slice a b h) = true)
    by (intros a b; apply forallb_slice; exact Hh).
  assert (Hl : forall a b, (a <= b)%nat -> (b <= 32)%nat ->
                           length (slice a b h) = (b - a)%nat).
  { intros a b Hab Hb. unfold slice.
    rewrite length_firstn, length_skipn, Hlen. lia. }
  rewrite re_match_rep_app by (first [apply Hs | apply (Hl 0%nat 8%nat); lia]).
  cbn [app]. rewrite re_match_lit.
  rewrite re_match_rep_app by (first [apply Hs | apply (Hl 8%nat 12%nat); lia]).
  cbn [app]. rewrite re_match_lit.
  rewrite re_match_rep_app
    by (first [apply Hs | apply (Hl 12%nat 16%nat); lia]).
  cbn [app]. rewrite re_match_lit.
  rewrite re_match_rep_app
    by (first [apply Hs | apply (Hl 16%nat 20%nat); lia]).
  cbn [app]. rewrite re_match_lit.
  rewrite <- (app_nil_r (slice_from 20 h)).
  rewrite re_match_rep_app; [reflexivity| |].
  - unfold slice_from. rewrite length_skipn, Hlen. reflexivity.
  - unfold slice_from. apply forallb_firstn_skipn. exact Hh.
Qed.

Section KeyFixed.
Context {U : Unicode} {US : UnicodeSpec U}.

Lemma is_digit_ascii (c : Z) :
  is_ascii c = true -> is_digit c = is_ascii_digit c.
Proof.
  intros H. unfold is_digit. rewrite decimal_ascii by exact H.
  unfold ascii_decimal. destruct (is_ascii_digit c); reflexivity.
Qed.

Lemma digit_differs (x c : Z) :
  is_ascii x = true -> is_ascii_digit x = false -> is_digit c = true ->
  c <> x.
Proof.
  intros Ha Hx Hc ->. rewrite is_digit_ascii, Hx in Hc by exact Ha.
  discriminate.
Qed.

Lemma digits_trimmed (r : pystr) :
  forallb is_digit r = true -> trimmed r = true.
Proof.
  intros H. apply trimmed_no_space. revert H. apply forallb_impl.
  intros c Hc. rewrite decimal_not_space by exact Hc. reflexivity.
Qed.

Lemma digits_without (P : Z -> bool) (r : pystr) :
  (forall c, is_digit c = true -> P c = false) ->
  forallb is_digit r = true -> existsb P r = false.
Proof.
  intros HP. induction r as [|c r IH]; cbn [forallb existsb]; [reflexivity|].
  intros H. apply andb_true_iff in H as [Hc Hr].
  rewrite (HP _ Hc), (IH Hr). reflexivity.
Qed.

Lemma digits_no_at (r : pystr) :
  forallb is_digit r = true -> contains 64 r = false.
Proof.
  apply digits_without. intros c Hc. apply Z.eqb_neq. intros E.
  apply (digit_differs 64 c); [reflexivity|reflexivity|exact Hc|].
  symmetry. exact E.
Qed.

Lemma digits_no_parentheses (r : pystr) :
  forallb is_digit r = true -> has_parentheses r = false.
Proof.
  apply digits_without. intros c Hc. apply orb_false_iff. split.
  - apply Z.eqb_neq. apply (digit_differs 40 c); trivial.
  - apply Z.eqb_neq. apply (digit_differs 41 c); trivial.
Qed.

Lemma digits_no_plus (r : pystr) :
  forallb is_digit r = true -> startswith (str "+") r = false.
Proof.
  intros H. unfold startswith. change (str "+") with [43].
  destruct (list_eq_dec Z.eq_dec (firstn (length [43]) r) [43]) as [E|];
    [|reflexivity].
  destruct r as [|c r]; [discriminate|].
  cbn [length firstn] in E. injection E as E.
  cbn [forallb] in H. apply andb_true_iff in H as [Hc _].
  exfalso. apply (digit_differs 43 c); trivial.
Qed.

Lemma digits_few_hex (r : pystr) (b : bool) :
  (length r < 32)%nat ->
  (length (filter is_hex r) =? 32)%nat && b = false.
Proof.
  intros H. pose proof (filter_length_le is_hex r) as Hle.
  destruct (Nat.eqb_spec (length (filter is_hex r)) 32); [lia|reflexivity].
Qed.

(** Eleven bare digits: a mobile phone or a CPF. *)
Lemma bare_eleven_digits (r : pystr) :
  forallb is_digit r = true -> length r = 11%nat ->
  _normalize_pix_key r = if mobile_shape r then str "+55" ++ r else r.
Proof.
  intros Hd Hlen.
  assert (Hne : r <> []) by (intros ->; discriminate).
  pose proof (strip_trimmed r (digits_trimmed r Hd)) as Hs.
  rewrite (normalize_eleven_digits r Hne); rewrite ?Hs.
  - rewrite (filter_forallb is_digit r Hd), (digits_no_plus r Hd),
      (digits_no_parentheses r Hd).
    destruct (mobile_shape r); reflexivity.
  - rewrite (filter_forallb is_digit r Hd). exact Hlen.
  - apply digits_no_at. exact Hd.
  - apply re_match_short. rewrite Hlen.
    change (min_length uuid_pattern) with 36%nat. lia.
  - apply digits_few_hex. lia.
  - apply re_match_short. rewrite Hlen.
    change (min_length cpf_formatted_pattern) with 14%nat. lia.
  - apply re_match_short. rewrite Hlen.
    change (min_length cnpj_pattern) with 14%nat. lia.
Qed.

Lemma re_match_rep_zero (cls : Z -> bool) (r : list re_item) (s : pystr) :
  re_match (Rep cls 0 :: r) s = re_match r s.
Proof. reflexivity. Qed.

Lemma cnpj_pattern_digits (r : pystr) :
  forallb is_digit r = true -> length r = 14%nat ->
  re_match cnpj_pattern r = true.
Proof.
  intros Hd Hlen.
  do 14 (destruct r as [|? r]; [discriminate|]).
  destruct r; [|discriminate].
  cbn [forallb] in Hd. repeat rewrite andb_true_iff in Hd.
  repeat match goal with H : _ /\ _ |- _ => destruct H end.
  unfold cnpj_pattern.
  repeat first
    [ rewrite re_match_rep_zero
    | apply re_match_opt_skip
    | rewrite re_match_rep_cons;
      match goal with
      | H : is_digit ?c = true |- context [is_digit ?c && _] =>
          rewrite H; cbn [andb]
      end ].
  reflexivity.
Qed.

Lemma fourteen_fixed (r : pystr) :
  forallb is_digit r = true -> length r = 14%nat -> _normalize_pix_key r = r.
Proof.
  intros Hd Hlen. destruct r as [|c0 r0] eqn:Hr; [discriminate|].
  rewrite <- Hr in *.
  assert (Hunf : _normalize_pix_key r = _normalize_pix_key (c0 :: r0))
    by (rewrite Hr; reflexivity).
  rewrite Hunf. unfold _normalize_pix_key. rewrite <- Hr.
  rewrite (strip_trimmed r (digits_trimmed r Hd)), (digits_no_at r Hd).
  rewrite (re_match_short uuid_pattern r)
    by (rewrite Hlen; change (min_length uuid_pattern) with 36%nat; lia).
  rewrite digits_few_hex by lia.
  rewrite (filter_forallb is_digit r Hd), Hlen.
  rewrite (cnpj_pattern_digits r Hd Hlen).
  cbn [Nat.eqb andb]. rewrite andb_false_r. reflexivity.
Qed.

Lemma plus_fixed (d : pystr) :
  forallb is_digit d = true -> d <> [] ->
  _normalize_pix_key (43 :: d) = 43 :: d.
Proof.
  intros Hd Hne.
  assert (H43 : is_digit 43 = false) by (rewrite is_digit_ascii; reflexivity).
  assert (Htr : trimmed (43 :: d) = true).
  { apply trimmed_no_space. cbn [forallb].
    rewrite isspace_ascii by reflexivity.
    change (ascii_isspace 43) with false. cbn [negb andb].
    revert Hd. apply forallb_impl. intros c Hc.
    rewrite decimal_not_space by exact Hc. reflexivity. }
  unfold _normalize_pix_key. rewrite (strip_trimmed _ Htr).
  assert (Hat : contains 64 (43 :: d) = false).
  { unfold contains. cbn [existsb]. change (64 =? 43) with false.
    cbn [orb]. apply (digits_no_at d Hd). }
  rewrite Hat.
  assert (Huuid : re_match uuid_pattern (43 :: d) = false)
    by (unfold uuid_pattern; rewrite re_match_rep_cons; reflexivity).
  assert (Hhex : re_match hex_pattern (43 :: d) = false)
    by (unfold hex_pattern; rewrite re_match_plus_cons; reflexivity).
  assert (Hcpf : re_match cpf_formatted_pattern (43 :: d) = false)
    by (unfold cpf_formatted_pattern; rewrite re_match_rep_cons, H43;
        reflexivity).
  assert (Hcnpj : re_match cnpj_pattern (43 :: d) = false)
    by (unfold cnpj_pattern; rewrite re_match_rep_cons, H43; reflexivity).
  rewrite Huuid, Hhex, Hcpf, Hcnpj, andb_false_r.
  change (startswith (str "+") (43 :: d)) with true.
  cbn [filter]. rewrite H43, (filter_forallb is_digit d Hd).
  cbn [andb orb].
  destruct d as [|c d']; [contradiction|]. reflexivity.
Qed.

Lemma normalize_pix_key_at (r : pystr) :
  trimmed r = true -> contains 64 r = true -> _normalize_pix_key r = lower r.
Proof.
  intros Htr Hat. destruct r as [|c r]; [discriminate|].
  unfold _normalize_pix_key. rewrite (strip_trimmed _ Htr), Hat. reflexivity.
Qed.

Lemma normalize_pix_key_uuid (r : pystr) :
  trimmed r = true -> re_match uuid_pattern r = true ->
  _normalize_pix_key r = lower r.
Proof.
  intros Htr Hu. destruct r as [|c r]; [discriminate|].
  unfold _normalize_pix_key. rewrite (strip_trimmed _ Htr), Hu.
  destruct (contains 64 (c :: r)); reflexivity.
Qed.

Lemma email_fixed (k : pystr) :
  trimmed k = true -> contains 64 k = true ->
  _normalize_pix_key (lower k) = lower k.
Proof.
  intros Htr Hat. rewrite normalize_pix_key_at.
  - apply lower_idempotent.
  - apply lower_trimmed. exact Htr.
  - apply lower_at. exact Hat.
Qed.

Lemma uuid_fixed (k : pystr) :
  trimmed k = true -> re_match uuid_pattern k = true ->
  _normalize_pix_key (lower k) = lower k.
Proof.
  intros Htr Hu. rewrite normalize_pix_key_uuid.
  - apply lower_idempotent.
  - apply lower_trimmed. exact Htr.
  - rewrite lower_ascii by (apply uuid_pattern_ascii; exact Hu).
    rewrite uuid_pattern_lower. exact Hu.
Qed.

Lemma hyphenated_trimmed (h : pystr) :
  forallb is_hex h = true -> trimmed (hyphenated h) = true.
Proof.
  intros Hh. apply trimmed_no_space.
  assert (Hns : forall s, forallb is_hex s = true ->
                          forallb (fun c => negb (isspace c)) s = true).
  { intros s. apply forallb_impl. intros c Hc.
    destruct (is_hex_ascii c Hc) as [Ha [Hs _]].
    rewrite isspace_ascii, Hs by exact Ha. reflexivity. }
  assert (H45 : negb (isspace 45) = true)
    by (rewrite isspace_ascii by reflexivity; reflexivity).
  unfold hyphenated, slice_from. rewrite !forallb_app. cbn [forallb].
  rewrite H45, !Hns; [reflexivity|..];
    first [apply forallb_slice; exact Hh
          | apply forallb_firstn_skipn; exact Hh].
Qed.

(** The eleven digits that a second pass would take for a mobile phone. *)
Definition cpf_ambiguous (r : pystr) : bool :=
  forallb is_digit r && (length r =? 11)%nat && mobile_shape r.

Lemma eleven_fixed (r : pystr) :
  forallb is_digit r = true -> length r = 11%nat ->
  cpf_ambiguous r = false -> _normalize_pix_key r = r.
Proof.
  intros Hd Hlen Hamb. rewrite (bare_eleven_digits r Hd Hlen).
  unfold cpf_ambiguous in Hamb. rewrite Hd, Hlen in Hamb.
  cbn [Nat.eqb andb] in Hamb. rewrite Hamb. reflexivity.
Qed.

(** The key normalizer leaves its own result alone, unless the result is
    eleven digits of the mobile shape. *)
Lemma normalize_pix_key_fixed (key : pystr) :
  cpf_ambiguous (_normalize_pix_key key) = false ->
  _normalize_pix_key (_normalize_pix_key key) = _normalize_pix_key key.
Proof.
  destruct key as [|c0 k0]; [reflexivity|].
  assert (Hstrip : strip (c0 :: k0) <> [] ->
                   _normalize_pix_key (strip (c0 :: k0))
                   = _normalize_pix_key (c0 :: k0)).
  { intros H. symmetry. apply normalize_pix_key_strip; [discriminate|exact H]. }
  pose proof (trimmed_strip (c0 :: k0)) as Htr.
  remember (_normalize_pix_key (c0 :: k0)) as r eqn:Hr.
  unfold _normalize_pix_key in Hr.
  remember (strip (c0 :: k0)) as k eqn:Hk.
  assert (Hdig : forallb is_digit (filter is_digit k) = true)
    by apply forallb_filter.
  destruct (contains 64 k) eqn:Hat.
  { intros _. subst r. apply email_fixed; assumption. }
  destruct (re_match uuid_pattern k) eqn:Hu.
  { intros _. subst r. apply uuid_fixed; assumption. }
  destruct ((length (filter is_hex k) =? 32)%nat && re_match hex_pattern k)
    eqn:Hhex.
  { intros _. subst r. apply andb_true_iff in Hhex as [Hl _].
    apply Nat.eqb_eq in Hl.
    apply (uuid_fixed (hyphenated (filter is_hex k))).
    - apply hyphenated_trimmed. apply forallb_filter.
    - apply uuid_pattern_hyphenated; [exact Hl|apply forallb_filter]. }
  destruct (re_match cpf_formatted_pattern k
            && (length (filter is_digit k) =? 11)%nat) eqn:Hcpf.
  { intros Hamb. subst r. apply andb_true_iff in Hcpf as [_ Hl].
    apply Nat.eqb_eq in Hl. apply eleven_fixed; assumption. }
  destruct (re_match cnpj_pattern k
            && (length (filter is_digit k) =? 14)%nat) eqn:Hcnpj.
  { intros _. subst r. apply andb_true_iff in Hcnpj as [_ Hl].
    apply Nat.eqb_eq in Hl. apply fourteen_fixed; assumption. }
  match type of Hr with
  | r = if ?b then _ else _ => destruct b eqn:Hphone
  end.
  { apply andb_true_iff in Hphone as [_ Hne].
    assert (Hne' : filter is_digit k <> []).
    { intros E. rewrite E in Hne. discriminate. }
    assert (H5 : is_digit 53 = true) by (rewrite is_digit_ascii; reflexivity).
    assert (Hplus : _normalize_pix_key (str "+" ++ filter is_digit k)
                    = str "+" ++ filter is_digit k)
      by (apply plus_fixed; assumption).
    assert (Hplus55 : _normalize_pix_key (str "+55" ++ filter is_digit k)
                      = str "+55" ++ filter is_digit k).
    { apply (plus_fixed (53 :: 53 :: filter is_digit k)); [|discriminate].
      cbn [forallb]. rewrite H5, Hdig. reflexivity. }
    intros _.
    repeat match type of Hr with
           | r = if ?b then _ else _ => destruct b
           end; subst r; assumption. }
  destruct (length (filter is_digit k) =? 14)%nat eqn:H14.
  { intros _. subst r. apply Nat.eqb_eq in H14.
    apply fourteen_fixed; assumption. }
  destruct (length (filter is_digit k) =? 11)%nat eqn:H11.
  { intros Hamb. subst r. apply Nat.eqb_eq in H11.
    apply eleven_fixed; assumption. }
  intros _. subst r. destruct k as [|c k']; [reflexivity|].
  apply Hstrip. discriminate.
Qed.
End KeyFixed.

(** ** The text normalizer *)

Section Words.
Context {U : Unicode}.

(** Words separated by single spaces, with no other whitespace:
    [after_space] tells that a word has to start. *)
Fixpoint spaced (after_space : bool) (s : pystr) : bool :=
  match s with
  | [] => negb after_space
  | c :: s' =>
      if isspace c then (c =? 32) && negb after_space && spaced true s'
      else spaced false s'
  end.

Definition no_space (w : pystr) : bool :=
  forallb (fun c => negb (isspace c)) w.

Lemma split_from_word (s : pystr) :
  forall word, word <> [] -> split_from word s <> [].
Proof.
  induction s as [|c s IH]; intros word Hw.
  - cbn [split_from]. destruct word; [contradiction|discriminate].
  - cbn [split_from]. destruct (isspace c).
    + destruct word; [contradiction|discriminate].
    + apply IH. destruct word; discriminate.
Qed.

Lemma split_spaced (s : pystr) :
  spaced true s = true -> split_from [] s <> [].
Proof.
  destruct s as [|c s]; [discriminate|]. cbn [spaced split_from].
  destruct (isspace c).
  - rewrite andb_false_r. discriminate.
  - intros _. apply split_from_word. discriminate.
Qed.

Lemma join_split_from (s : pystr) :
  (forall word, word <> [] -> spaced false s = true ->
                join (str " ") (split_from word s) = word ++ s)
  /\ (spaced true s = true -> join (str " ") (split_from [] s) = s).
Proof.
  induction s as [|c s [IH1 IH2]]; split.
  - intros word Hw _. cbn [split_from].
    destruct word; [contradiction|]. cbn [join]. rewrite app_nil_r.
    reflexivity.
  - discriminate.
  - intros word Hw H. cbn [spaced] in H. cbn [split_from].
    destruct (isspace c).
    + apply andb_true_iff in H as [Hc Hs]. apply andb_true_iff in Hc as [Hc _].
      apply Z.eqb_eq in Hc. subst c.
      destruct word as [|w0 word]; [contradiction|].
      pose proof (split_spaced s Hs) as Hne. specialize (IH2 Hs).
      cbn [join]. destruct (split_from [] s); [contradiction|].
      rewrite IH2. reflexivity.
    + rewrite IH1; [|destruct word; discriminate|exact H].
      rewrite <- app_assoc. reflexivity.
  - intros H. cbn [spaced] in H. cbn [split_from].
    destruct (isspace c).
    + rewrite andb_false_r in H. discriminate.
    + cbn [app]. rewrite IH1; [reflexivity|discriminate|exact H].
Qed.

(** A spaced string is left alone by splitting and joining. *)
Lemma join_split_spaced (s : pystr) :
  spaced true s = true -> join (str " ") (split s) = s.
Proof. apply join_split_from. Qed.

Lemma split_from_words (s : pystr) :
  forall word, no_space word = true ->
    Forall (fun w => w <> [] /\ no_space w = true) (split_from word s).
Proof.
  induction s as [|c s IH]; intros word Hw.
  - cbn [split_from]. destruct word; [constructor|].
    constructor; [split; [discriminate|exact Hw]|constructor].
  - cbn [split_from]. destruct (isspace c) eqn:Hc.
    + destruct word.
      * apply IH. reflexivity.
      * constructor; [split; [discriminate|exact Hw]|]. apply IH. reflexivity.
    + apply IH. unfold no_space in *. rewrite forallb_app, Hw.
      cbn [forallb]. rewrite Hc. reflexivity.
Qed.

Lemma spaced_word (w : pystr) :
  forall b rest, no_space w = true -> w <> [] ->
                 spaced b (w ++ rest) = spaced false rest.
Proof.
  induction w as [|c w IH]; intros b rest Hw Hne; [contradiction|].
  unfold no_space in Hw. cbn [forallb] in Hw.
  apply andb_true_iff in Hw as [Hc Hw]. apply negb_true_iff in Hc.
  cbn [app spaced]. rewrite Hc.
  destruct w as [|c' w']; [reflexivity|].
  apply IH; [exact Hw|discriminate].
Qed.

Lemma spaced_join (ws : list pystr) :
  isspace 32 = true ->
  Forall (fun w => w <> [] /\ no_space w = true) ws -> ws <> [] ->
  spaced true (join (str " ") ws) = true.
Proof.
  intros H32. induction ws as [|w ws IH]; intros Hws Hne; [contradiction|].
  inversion Hws as [|w' ws' [Hw1 Hw2] Hws']; subst.
  cbn [join]. destruct ws as [|w2 ws2].
  - rewrite <- (app_nil_r w), spaced_word by assumption. reflexivity.
  - rewrite spaced_word by assumption.
    change (str " " ++ join (str " ") (w2 :: ws2))
      with (32 :: join (str " ") (w2 :: ws2)).
    cbn [spaced]. rewrite H32, IH; [reflexivity|exact Hws'|discriminate].
Qed.

(** What [" ".join(value.split())] returns is empty or spaced. *)
Lemma spaced_join_split (s : pystr) :
  isspace 32 = true ->
  join (str " ") (split s) = []
  \/ spaced true (join (str " ") (split s)) = true.
Proof.
  intros H32. unfold split.
  pose proof (split_from_words s [] eq_refl) as Hws.
  destruct (split_from [] s) as [|w ws] eqn:E; [left; reflexivity|].
  right. apply spaced_join; [exact H32|exact Hws|discriminate].
Qed.

Lemma spaced_map (f : Z -> Z) :
  (forall c, isspace (f c) = isspace c) ->
  (forall c, (f c =? 32) = (c =? 32)) ->
  forall s b, spaced b (map f s) = spaced b s.
Proof.
  intros Hsp H32. induction s as [|c s IH]; intros b; [reflexivity|].
  cbn [map spaced]. rewrite Hsp, H32, !IH. reflexivity.
Qed.

Lemma last_cons (c : Z) (t : pystr) (d : Z) :
  t <> [] -> last (c :: t) d = last t d.
Proof. destruct t; [contradiction|reflexivity]. Qed.

(** A prefix of a spaced string that does not end with whitespace is
    spaced. *)
Lemma spaced_firstn (s : pystr) :
  forall n b, spaced b s = true -> firstn n s <> [] ->
              isspace (last (firstn n s) 0) = false ->
              spaced b (firstn n s) = true.
Proof.
  induction s as [|c s IH]; intros n b H Hne Hlast.
  - rewrite firstn_nil in Hne. contradiction.
  - destruct n as [|n]; [contradiction|].
    cbn [firstn] in *. cbn [spaced] in *.
    destruct (isspace c) eqn:Hc.
    + apply andb_true_iff in H as [H1 H2]. rewrite H1. cbn [andb].
      destruct (firstn n s) as [|c' t] eqn:E.
      * cbn [last] in Hlast. congruence.
      * rewrite <- E. apply IH; [exact H2|rewrite E; discriminate|].
        rewrite E. rewrite last_cons in Hlast by discriminate. exact Hlast.
    + destruct (firstn n s) as [|c' t] eqn:E; [reflexivity|].
      rewrite <- E. apply IH; [exact H|rewrite E; discriminate|].
      rewrite E. rewrite last_cons in Hlast by discriminate. exact Hlast.
Qed.

Lemma forallb_split_from (P : Z -> bool) (s : pystr) :
  forall word, forallb P s = true -> forallb P word = true ->
    Forall (fun w => forallb P w = true) (split_from word s).
Proof.
  induction s as [|c s IH]; intros word Hs Hw.
  - cbn [split_from]. destruct word; constructor; [exact Hw|constructor].
  - cbn [forallb] in Hs. apply andb_true_iff in Hs as [Hc Hs].
    cbn [split_from]. destruct (isspace c).
    + destruct word; [apply IH; trivial|].
      constructor; [exact Hw|apply IH; trivial].
    + apply IH; [exact Hs|]. rewrite forallb_app, Hw. cbn [forallb].
      rewrite Hc. reflexivity.
Qed.

Lemma forallb_join (P : Z -> bool) (ws : list pystr) :
  P 32 = true -> Forall (fun w => forallb P w = true) ws ->
  forallb P (join (str " ") ws) = true.
Proof.
  intros H32. induction ws as [|w ws IH]; intros Hws; [reflexivity|].
  inversion Hws as [|w' ws' Hw Hws']; subst. cbn [join].
  destruct ws as [|w2 ws2]; [exact Hw|].
  rewrite forallb_app, Hw.
  change (str " " ++ join (str " ") (w2 :: ws2))
    with (32 :: join (str " ") (w2 :: ws2)).
  cbn [forallb]. rewrite H32, (IH Hws'). reflexivity.
Qed.
End Words.

Lemma forallb_map_impl (P Q : Z -> bool) (f : Z -> Z) (s : pystr) :
  (forall c, P c = true -> Q (f c) = true) ->
  forallb P s = true -> forallb Q (map f s) = true.
Proof.
  intros Hf. induction s as [|c s IH]; [reflexivity|].
  cbn [forallb map]. intros H. apply andb_true_iff in H as [Hc Hs].
  rewrite (Hf c Hc), (IH Hs). reflexivity.
Qed.

Lemma ascii_upper_idempotent (c : Z) :
  ascii_upper (ascii_upper c) = ascii_upper c.
Proof.
  unfold ascii_upper, is_ascii_lower.
  destruct ((97 <=? c) && (c <=? 122)) eqn:H; [|rewrite H; reflexivity].
  destruct ((97 <=? c - 32) && (c - 32 <=? 122)) eqn:H2; [lia|reflexivity].
Qed.

Lemma ascii_upper_alnum_space (c : Z) :
  is_alnum_space c = true -> is_alnum_space (ascii_upper c) = true.
Proof.
  unfold ascii_upper, is_alnum_space, is_alnum, is_ascii_lower,
    is_ascii_upper, is_ascii_digit.
  destruct ((97 <=? c) && (c <=? 122)) eqn:H; lia.
Qed.

Lemma ascii_upper_alnum (c : Z) :
  is_alnum c = true -> is_alnum (ascii_upper c) = true.
Proof.
  unfold ascii_upper, is_alnum, is_ascii_lower, is_ascii_upper,
    is_ascii_digit.
  destruct ((97 <=? c) && (c <=? 122)) eqn:H; lia.
Qed.

Lemma ascii_upper_eqb (x c : Z) :
  is_ascii_upper x = false -> is_ascii_lower x = false ->
  (ascii_upper c =? x) = (c =? x).
Proof.
  unfold ascii_upper, is_ascii_upper, is_ascii_lower.
  destruct ((97 <=? c) && (c <=? 122)) eqn:H; [|reflexivity]. lia.
Qed.

Lemma alnum_space_ascii (c : Z) :
  is_alnum_space c = true -> is_ascii c = true.
Proof.
  unfold is_alnum_space, is_alnum, is_ascii_lower, is_ascii_upper,
    is_ascii_digit, is_ascii. lia.
Qed.

Lemma alnum_alnum_space (c : Z) :
  is_alnum c = true -> is_alnum_space c = true.
Proof. unfold is_alnum_space. intros ->. reflexivity. Qed.

Lemma alnum_space_not_space (c : Z) :
  is_alnum_space c = true -> c <> 32 -> ascii_isspace c = false.
Proof.
  unfold is_alnum_space, is_alnum, is_ascii_lower, is_ascii_upper,
    is_ascii_digit, ascii_isspace. lia.
Qed.

Section TextNormalizer.
Context {U : Unicode} {US : UnicodeSpec U}.

Lemma isspace_ascii_upper (c : Z) : isspace (ascii_upper c) = isspace c.
Proof.
  unfold ascii_upper. destruct (is_ascii_lower c) eqn:H; [|reflexivity].
  unfold is_ascii_lower in H.
  rewrite !isspace_ascii by (unfold is_ascii; lia).
  unfold ascii_isspace. lia.
Qed.

(** ASCII text has no accents to remove. *)
Lemma remove_accents_ascii (s : pystr) :
  forallb is_ascii s = true -> _remove_accents s = s.
Proof.
  intros H. unfold _remove_accents. rewrite nfd_ascii by exact H.
  apply filter_forallb. revert H. apply forallb_impl.
  intros c Hc. rewrite category_Mn_ascii by exact Hc. reflexivity.
Qed.

(** The text before the cut of [_normalize_text]. *)
Definition text_words (value : pystr) : pystr :=
  upper (join (str " ")
           (split (filter is_alnum_space (_remove_accents value)))).

Lemma normalize_text_words (value : pystr) (n : Z) :
  value <> [] -> _normalize_text value n = slice_to (text_words value) n.
Proof. destruct value; [contradiction|reflexivity]. Qed.

Lemma joined_alnum_space (value : pystr) :
  forallb is_alnum_space
    (join (str " ") (split (filter is_alnum_space value))) = true.
Proof.
  apply forallb_join; [reflexivity|].
  apply forallb_split_from; [apply forallb_filter|reflexivity].
Qed.

Lemma text_words_upper (value : pystr) :
  text_words value
  = map ascii_upper
      (join (str " ")
         (split (filter is_alnum_space (_remove_accents value)))).
Proof.
  unfold text_words. apply upper_ascii.
  generalize (joined_alnum_space (_remove_accents value)).
  apply forallb_impl. exact alnum_space_ascii.
Qed.

Lemma text_words_alnum_space (value : pystr) :
  forallb is_alnum_space (text_words value) = true.
Proof.
  rewrite text_words_upper.
  apply (forallb_map_impl is_alnum_space); [exact ascii_upper_alnum_space|].
  apply joined_alnum_space.
Qed.

Lemma text_words_spaced (value : pystr) :
  text_words value = [] \/ spaced true (text_words value) = true.
Proof.
  rewrite text_words_upper.
  destruct (spaced_join_split
              (filter is_alnum_space (_remove_accents value))) as [E|H].
  - rewrite isspace_ascii by reflexivity. reflexivity.
  - left. rewrite E. reflexivity.
  - right. rewrite spaced_map; [exact H|exact isspace_ascii_upper|].
    intros c. apply ascii_upper_eqb; reflexivity.
Qed.

(** The characters of a normalized text: upper-case letters, digits and
    spaces. *)
Lemma normalize_text_alnum_space (value : pystr) (n : Z) :
  forallb is_alnum_space (_normalize_text value n) = true.
Proof.
  destruct value as [|c v]; [reflexivity|].
  rewrite normalize_text_words by discriminate.
  unfold slice_to. destruct (0 <=? n);
    apply forallb_firstn_skipn; apply text_words_alnum_space.
Qed.

(** A normalized text that does not end with a space is left alone by a
    second pass with the same bound. *)
Lemma normalize_text_fixed (value : pystr) (n : Z) :
  0 <= n -> last (_normalize_text value n) 0 <> 32 ->
  _normalize_text (_normalize_text value n) n = _normalize_text value n.
Proof.
  intros Hn Hlast.
  pose proof (normalize_text_alnum_space value n) as Hchars.
  destruct value as [|c0 v0]; [reflexivity|].
  rewrite (normalize_text_words (c0 :: v0) n) in * by discriminate.
  set (t := text_words (c0 :: v0)) in *.
  assert (Hcut : slice_to t n = firstn (Z.to_nat n) t).
  { unfold slice_to. destruct (Z.leb_spec 0 n); [reflexivity|lia]. }
  rewrite Hcut in *. set (r := firstn (Z.to_nat n) t) in *.
  destruct r as [|c r'] eqn:Er; [reflexivity|]. rewrite <- Er in *.
  assert (Hne : r <> []) by (rewrite Er; discriminate).
  rewrite normalize_text_words by exact Hne.
  assert (Hascii : forallb is_ascii r = true).
  { revert Hchars. apply forallb_impl. exact alnum_space_ascii. }
  assert (Hspaced : spaced true r = true).
  { destruct (text_words_spaced (c0 :: v0)) as [E|H].
    - exfalso. apply Hne. unfold r, t. rewrite E. apply firstn_nil.
    - apply spaced_firstn; [exact H|exact Hne|].
      assert (Hin : In (last r 0) r).
      { destruct (exists_last Hne) as [p [x Hx]]. rewrite Hx, last_last.
        apply in_or_app. right. left. reflexivity. }
      pose proof (proj1 (forallb_forall _ _) Hchars _ Hin) as Hl.
      rewrite isspace_ascii by (apply alnum_space_ascii; exact Hl).
      apply alnum_space_not_space; assumption. }
  unfold text_words.
  rewrite (remove_accents_ascii r Hascii), (filter_forallb _ r Hchars).
  rewrite (join_split_spaced r Hspaced).
  rewrite (upper_ascii r Hascii).
  assert (Hup : map ascii_upper r = r).
  { unfold r, t. rewrite text_words_upper, <- firstn_map, map_map.
    f_equal. apply map_ext. exact ascii_upper_idempotent. }
  rewrite Hup. unfold slice_to.
  destruct (Z.leb_spec 0 n); [|lia].
  unfold r. rewrite firstn_firstn, Nat.min_id. reflexivity.
Qed.
End TextNormalizer.

(** ** Idempotence of the normalizers *)

Section Idempotence.
Context {U : Unicode} {US : UnicodeSpec U}.

(** C9 (as the code has it). The key normalizer leaves its own result
    alone unless that result is eleven bare digits of the mobile shape; the
    text normalizer, for a bound that is not negative, leaves its own result
    alone unless the cut left a space at its end. *)
Theorem normalizers_idempotent (s t : pystr) (n : Z) :
  (cpf_ambiguous (_normalize_pix_key s) = false ->
   _normalize_pix_key (_normalize_pix_key s) = _normalize_pix_key s)
  /\ (0 <= n -> last (_normalize_text t n) 0 <> 32 ->
      _normalize_text (_normalize_text t n) n = _normalize_text t n).
Proof.
  split.
  - apply normalize_pix_key_fixed.
  - apply normalize_text_fixed.
Qed.
End Idempotence.

Lemma normalizers_idempotent_witness :
  @_normalize_pix_key ascii_db
    (@_normalize_pix_key ascii_db (str " 123.456.789-09"))
  = @_normalize_pix_key ascii_db (str " 123.456.789-09")
  /\ @_normalize_text ascii_db
       (@_normalize_text ascii_db (str "  Loja  do   Bairro ") 25) 25
     = @_normalize_text ascii_db (str "  Loja  do   Bairro ") 25.
Proof.
  destruct (@normalizers_idempotent ascii_db ascii_db_spec
              (str " 123.456.789-09") (str "  Loja  do   Bairro ") 25)
    as [Hkey Htext].
  split.
  - apply Hkey. reflexivity.
  - apply Htext; [lia|]. vm_compute. discriminate.
Defined.

(** C9 fails as stated: a formatted CPF of the mobile shape is normalized
    to its digits, which a second pass takes for a phone; and a text cut
    after a space loses that space in a second pass. *)
Lemma normalizers_second_pass :
  @_normalize_pix_key ascii_db (str "119.876.543-21") = str "11987654321"
  /\ @_normalize_pix_key ascii_db (str "11987654321") = str "+5511987654321"
  /\ @_normalize_text ascii_db (str "AB CD") 3 = str "AB "
  /\ @_normalize_text ascii_db (str "AB ") 3 = str "AB".
Proof. vm_compute. repeat split. Qed.

(** ** Totality of the encoder *)

Lemma ascii_scalar (c : Z) : is_ascii c = true -> is_scalar c = true.
Proof. unfold is_ascii, is_scalar. lia. Qed.

Lemma digit_scalar (c : Z) : is_ascii_digit c = true -> is_scalar c = true.
Proof. unfold is_ascii_digit, is_scalar. lia. Qed.

Lemma forallb_filter_keep (P f : Z -> bool) (s : pystr) :
  forallb P s = true -> forallb P (filter f s) = true.
Proof.
  induction s as [|c s IH]; cbn [forallb filter]; [trivial|].
  intros H. apply andb_true_iff in H as [Hc Hs].
  destruct (f c); [cbn [forallb]; rewrite Hc|]; apply IH; exact Hs.
Qed.

Lemma forallb_repeat (P : Z -> bool) (c : Z) (n : nat) :
  P c = true -> forallb P (repeat c n) = true.
Proof.
  intros Hc. induction n as [|n IH]; [reflexivity|].
  cbn [repeat forallb]. rewrite Hc, IH. reflexivity.
Qed.

Lemma str_of_int_scalar (n : Z) :
  0 <= n -> forallb is_scalar (str_of_int n) = true.
Proof.
  intros Hn. apply forallb_forall. intros c Hc. apply digit_scalar.
  revert c Hc. apply Forall_forall. apply str_of_int_digits. exact Hn.
Qed.

Lemma zfill_scalar (width : nat) (s : pystr) :
  forallb is_scalar s = true -> forallb is_scalar (zfill width s) = true.
Proof.
  intros Hs. unfold zfill.
  assert (Hz : forall n, forallb is_scalar (repeat 48 n) = true)
    by (intros n; apply forallb_repeat; reflexivity).
  destruct s as [|c s]; [apply Hz|].
  destruct ((c =? 43) || (c =? 45)).
  - cbn [forallb] in *. apply andb_true_iff in Hs as [Hc Hs].
    rewrite Hc, forallb_app, Hz, Hs. reflexivity.
  - rewrite forallb_app, Hz, Hs. reflexivity.
Qed.

Lemma str_of_int_three_digits (n : Z) :
  100 <= n <= 999 ->
  str_of_int n = [48 + n / 100; 48 + n / 10 mod 10; 48 + n mod 10].
Proof.
  intros Hn. unfold str_of_int, digit_fuel.
  destruct (n <? 0) eqn:Hneg; [apply Z.ltb_lt in Hneg; lia|].
  assert (Hlog : 6 <= Z.log2 n).
  { change 6 with (Z.log2 100). apply Z.log2_le_mono. lia. }
  destruct (Z.to_nat (Z.log2 n)) as [|[|m]] eqn:Hm; [lia|lia|].
  cbn [digits_of].
  replace (n <? 10) with false by (symmetry; apply Z.ltb_ge; lia).
  assert (Hq : 10 <= n / 10 <= 99).
  { split; [apply Z.div_le_lower_bound; lia|].
    apply Z.lt_succ_r. apply Z.div_lt_upper_bound; lia. }
  replace (n / 10 <? 10) with false by (symmetry; apply Z.ltb_ge; lia).
  assert (Hqq : n / 10 / 10 = n / 100)
    by (rewrite Z.div_div by lia; reflexivity).
  rewrite Hqq.
  assert (Hh : 1 <= n / 100 <= 9).
  { split; [apply Z.div_le_lower_bound; lia|].
    apply Z.lt_succ_r. apply Z.div_lt_upper_bound; lia. }
  replace (n / 100 <? 10) with true by (symmetry; apply Z.ltb_lt; lia).
  unfold dec_digit. rewrite (Z.mod_small (n / 100)) by lia.
  reflexivity.
Qed.

(** The length prefix of a value of 100 to 999 characters: three digits. *)
Lemma format_emv_field_three_digits (tag value : pystr) :
  (100 <= length value <= 999)%nat ->
  _format_emv_field tag value
  = tag ++ [48 + Z.of_nat (length value) / 100;
            48 + Z.of_nat (length value) / 10 mod 10;
            48 + Z.of_nat (length value) mod 10] ++ value.
Proof.
  intros Hlen. unfold _format_emv_field.
  rewrite str_of_int_three_digits by lia. unfold zfill.
  cbn [length Nat.sub repeat app].
  replace (48 + Z.of_nat (length value) / 100 =? 43) with false.
  2:{ symmetry. apply Z.eqb_neq.
      assert (0 <= Z.of_nat (length value) / 100)
        by (apply Z.div_pos; lia). lia. }
  replace (48 + Z.of_nat (length value) / 100 =? 45) with false.
  2:{ symmetry. apply Z.eqb_neq.
      assert (0 <= Z.of_nat (length value) / 100)
        by (apply Z.div_pos; lia). lia. }
  reflexivity.
Qed.

Lemma rescale2_nonneg (c e : Z) : 0 <= c -> 0 <= rescale2 c e.
Proof.
  intros Hc. unfold rescale2. destruct (-2 <=? e) eqn:He.
  - apply Z.mul_nonneg_nonneg; [exact Hc|]. apply Z.pow_nonneg. lia.
  - apply Z.leb_gt in He.
    assert (Hd : 0 < 10 ^ (-2 - e)) by (apply Z.pow_pos_nonneg; lia).
    assert (Hq : 0 <= c / 10 ^ (-2 - e)) by (apply Z.div_pos; lia).
    cbv zeta.
    repeat match goal with
           | |- context [if ?b then _ else _] => destruct b
           end; lia.
Qed.

(** The text of a positive amount has no character that UTF-8 refuses. *)
Lemma format_2f_scalar (a : Decimal) :
  is_positive (Some a) = true -> forallb is_scalar (format_2f a) = true.
Proof.
  destruct a as [sign c e|sign|]; cbn [is_positive decimal_gt_zero];
    [| |discriminate].
  - intros H. apply andb_true_iff in H as [Hs Hc].
    apply negb_true_iff in Hs. subst sign. apply Z.ltb_lt in Hc.
    unfold format_2f. cbv zeta. cbn [app].
    pose proof (rescale2_nonneg c e ltac:(lia)) as Hr.
    rewrite !forallb_app. cbn [forallb].
    rewrite str_of_int_scalar by (apply Z.div_pos; lia).
    rewrite zfill_scalar; [reflexivity|].
    apply str_of_int_scalar. apply Z.mod_pos_bound. lia.
  - intros H. apply negb_true_iff in H. subst sign. reflexivity.
Qed.

Section Scalar.
Context {U : Unicode} {US : UnicodeSpec U}.

Lemma format_emv_field_scalar (tag value : pystr) :
  forallb is_scalar tag = true -> forallb is_scalar value = true ->
  forallb is_scalar (_format_emv_field tag value) = true.
Proof.
  intros Ht Hv. unfold _format_emv_field. rewrite !forallb_app, Ht, Hv.
  rewrite zfill_scalar; [reflexivity|]. apply str_of_int_scalar. lia.
Qed.

Definition field_scalar (f : field) : bool :=
  forallb is_scalar (fst f) && forallb is_scalar (snd f).

Lemma serialize_scalar (fields : list field) :
  forallb field_scalar fields = true ->
  forallb is_scalar (serialize fields) = true.
Proof.
  induction fields as [|f fs IH]; [reflexivity|].
  cbn [forallb]. intros H. apply andb_true_iff in H as [Hf Hfs].
  apply andb_true_iff in Hf as [Ht Hv].
  rewrite serialize_cons, forallb_app, (IH Hfs), andb_true_r.
  apply format_emv_field_scalar; assumption.
Qed.

(** The key normalizer brings no character that UTF-8 refuses. *)
Lemma normalize_pix_key_scalar (key : pystr) :
  forallb is_scalar key = true ->
  forallb is_scalar (_normalize_pix_key key) = true.
Proof.
  intros Hkey. destruct key as [|c0 k0]; [reflexivity|].
  unfold _normalize_pix_key.
  pose proof (strip_forallb is_scalar _ Hkey) as Hk.
  set (k := strip (c0 :: k0)) in *.
  assert (Hd : forallb is_scalar (filter is_digit k) = true)
    by (apply forallb_filter_keep; exact Hk).
  assert (Hh : forallb is_scalar (filter is_hex k) = true)
    by (apply forallb_filter_keep; exact Hk).
  assert (Hplus : forallb is_scalar (str "+" ++ filter is_digit k) = true)
    by (rewrite forallb_app, Hd; reflexivity).
  assert (Hplus55 : forallb is_scalar (str "+55" ++ filter is_digit k) = true)
    by (rewrite forallb_app, Hd; reflexivity).
  assert (Hhyp : forallb is_scalar
                   (lower (slice 0 8 (filter is_hex k) ++ [45]
                             ++ slice 8 12 (filter is_hex k) ++ [45]
                             ++ slice 12 16 (filter is_hex k) ++ [45]
                             ++ slice 16 20 (filter is_hex k) ++ [45]
                             ++ slice_from 20 (filter is_hex k))) = true).
  { apply lower_scalar. unfold slice_from. rewrite !forallb_app.
    cbn [forallb].
    rewrite !forallb_slice by exact Hh.
    rewrite (proj2 (forallb_firstn_skipn is_scalar 20 _ Hh)). reflexivity. }
  repeat match goal with
         | |- context [if ?b then _ else _] => destruct b
         end;
    first [assumption | apply lower_scalar; assumption].
Qed.

Lemma alnum_space_forallb_scalar (s : pystr) :
  forallb is_alnum_space s = true -> forallb is_scalar s = true.
Proof.
  apply forallb_impl. intros c Hc. apply ascii_scalar, alnum_space_ascii.
  exact Hc.
Qed.

Lemma normalize_text_scalar (value : pystr) (n : Z) :
  forallb is_scalar (_normalize_text value n) = true.
Proof. apply alnum_space_forallb_scalar, normalize_text_alnum_space. Qed.

(** The characters of a normalized transaction id: upper-case letters and
    digits, or the three asterisks. *)
Lemma normalize_txid_alnum (value : pystr) (n : Z) :
  _normalize_txid value n = str "***"
  \/ (_normalize_txid value n <> []
      /\ forallb is_alnum (_normalize_txid value n) = true).
Proof.
  unfold _normalize_txid. destruct value as [|c v]; [left; reflexivity|].
  set (w := filter is_alnum (_remove_accents (c :: v))).
  assert (Hw : forallb is_alnum w = true) by apply forallb_filter.
  assert (Hup : upper w = map ascii_upper w).
  { apply upper_ascii. revert Hw. apply forallb_impl. intros x Hx.
    apply alnum_space_ascii, alnum_alnum_space. exact Hx. }
  assert (Hr : forallb is_alnum (slice_to (upper w) n) = true).
  { rewrite Hup. unfold slice_to.
    destruct (0 <=? n); apply forallb_firstn_skipn;
      apply (forallb_map_impl is_alnum); try exact ascii_upper_alnum;
      exact Hw. }
  destruct (slice_to (upper w) n) as [|x r]; [left; reflexivity|].
  right. split; [discriminate|exact Hr].
Qed.

Lemma normalize_txid_scalar (value : pystr) (n : Z) :
  forallb is_scalar (_normalize_txid value n) = true.
Proof.
  destruct (normalize_txid_alnum value n) as [->|[_ H]]; [reflexivity|].
  revert H. apply forallb_impl. intros c Hc.
  apply ascii_scalar, alnum_space_ascii, alnum_alnum_space. exact Hc.
Qed.

Lemma str_or_scalar (a b : pystr) :
  forallb is_scalar a = true -> forallb is_scalar b = true ->
  forallb is_scalar (str_or a b) = true.
Proof. intros Ha Hb. destruct a; assumption. Qed.

Lemma payload_fields_scalar (key name city : pystr)
  (amount : option Decimal) (description transaction_id pix_key_arg : pystr) :
  forallb is_scalar (str_or pix_key_arg key) = true ->
  forallb field_scalar
    (payload_fields (PixService_init key name city) amount description
       transaction_id pix_key_arg) = true.
Proof.
  intros Hkey. unfold payload_fields.
  assert (Hmai : forallb is_scalar
                   (serialize
                      (merchant_account_fields
                         (PixService_init key name city) description
                         pix_key_arg)) = true).
  { apply serialize_scalar. unfold merchant_account_fields.
    cbn [pix_key PixService_init].
    pose proof (normalize_text_scalar description 25) as Hd.
    pose proof (normalize_pix_key_scalar _ Hkey) as Hk.
    destruct (_normalize_text description 25) as [|c d];
      cbn [app forallb]; unfold field_scalar; cbn [fst snd];
      rewrite Hk, ?Hd; reflexivity. }
  assert (Hadf : forallb is_scalar
                   (serialize (additional_data_fields transaction_id))
                 = true).
  { apply serialize_scalar. unfold additional_data_fields.
    cbn [forallb]. unfold field_scalar. cbn [fst snd].
    rewrite normalize_txid_scalar. reflexivity. }
  assert (Hamt : forallb field_scalar (amount_fields amount) = true).
  { destruct (amount_fields_cases amount) as [[_ ->]|[a [-> [Hp ->]]]];
      [reflexivity|].
    cbn [forallb]. unfold field_scalar. cbn [fst snd].
    rewrite (format_2f_scalar a Hp). reflexivity. }
  assert (Hname : forallb is_scalar
                    (str_or (merchant_name (PixService_init key name city))
                       (str "PAGAMENTO")) = true).
  { apply str_or_scalar; [apply normalize_text_scalar|reflexivity]. }
  assert (Hcity : forallb is_scalar
                    (str_or (merchant_city (PixService_init key name city))
                       (str "BRASIL")) = true).
  { apply str_or_scalar; [apply normalize_text_scalar|reflexivity]. }
  rewrite !forallb_app, Hamt. cbn [forallb]. unfold field_scalar.
  cbn [fst snd]. rewrite Hmai, Hadf, Hname, Hcity. reflexivity.
Qed.

Lemma calculate_crc16_scalar (payload : pystr) :
  forallb is_scalar payload = true ->
  exists crc, _calculate_crc16 payload = Ok crc.
Proof.
  intros H. unfold _calculate_crc16.
  destruct (encode_utf8_scalar (payload ++ CRC16 ++ str "04")) as [data Hd].
  - rewrite forallb_app, H. reflexivity.
  - cbv zeta. rewrite Hd. cbn [bind]. eexists. reflexivity.
Qed.

(** The text of an amount below [10 ^ 96] is not refused. *)
Lemma small_amount_formats (amount : option Decimal) :
  (forall a, amount = Some a -> amount_magnitude a <= 96) ->
  format_raises amount = false.
Proof.
  intros H. unfold format_raises. destruct amount as [a|]; [|reflexivity].
  specialize (H a eq_refl).
  destruct a as [sign c e|sign|];
    cbn [format_2f_overflow amount_magnitude] in *;
    rewrite ?andb_false_r; try reflexivity.
  replace (MPD_MAX_PREC + 1 <? decimal_digits c + (e + 2)) with false
    by (unfold MPD_MAX_PREC; lia).
  rewrite !andb_false_r. reflexivity.
Qed.

(** The encoder returns a payload whenever the amount is not a NaN, its
    text is not refused and the key holds no surrogate code point. *)
Lemma generate_pix_code_returns (key name city : pystr)
  (amount : option Decimal) (description transaction_id pix_key_arg : pystr) :
  amount <> Some NaN -> format_raises amount = false ->
  forallb is_scalar (str_or pix_key_arg key) = true ->
  exists s,
    generate_pix_code (PixService_init key name city) amount description
      transaction_id pix_key_arg = Ok s.
Proof.
  intros Hnan Hfr Hkey. rewrite generate_pix_code_fields by assumption.
  cbv zeta.
  destruct (calculate_crc16_scalar
              (serialize
                 (payload_fields (PixService_init key name city) amount
                    description transaction_id pix_key_arg))) as [crc Hcrc].
  - apply serialize_scalar, payload_fields_scalar. exact Hkey.
  - rewrite Hcrc. cbn [bind]. eexists. reflexivity.
Qed.

(** A negative amount gives the payload of no amount. *)
Lemma generate_pix_code_negative (self : PixService) (a : Decimal)
  (description transaction_id pix_key_arg : pystr) :
  is_negative a = true ->
  generate_pix_code self (Some a) description transaction_id pix_key_arg
  = generate_pix_code self None description transaction_id pix_key_arg.
Proof.
  intros Hneg. destruct (is_negative_not_positive a Hneg) as [Hpos Hnan].
  assert (Hfr : format_raises (Some a) = false)
    by (unfold format_raises; rewrite Hpos; reflexivity).
  rewrite !generate_pix_code_fields
    by (first [exact Hfr | reflexivity | congruence]).
  cbv zeta. unfold payload_fields, amount_fields. rewrite Hpos. reflexivity.
Qed.

(** C10 (as the code has it). For every key without a surrogate code
    point, every merchant name, city, description and transaction id, and
    every amount that is not a NaN and is below [10 ^ 96] (the digits of its
    coefficient and its exponent add up to 96 at most), the encoder returns
    a payload; a negative amount gives the payload of no amount; and a value
    of 100 to 999 characters, which does not stop the encoder, is written
    after the three digits of its length. *)
Theorem encoding_total (key name city : pystr) (amount : option Decimal)
  (description transaction_id pix_key_arg : pystr) :
  amount <> Some NaN ->
  (forall a, amount = Some a -> amount_magnitude a <= 96) ->
  forallb is_scalar (str_or pix_key_arg key) = true ->
  (exists s,
     generate_pix_code (PixService_init key name city) amount description
       transaction_id pix_key_arg = Ok s)
  /\ (forall a, amount = Some a -> is_negative a = true ->
        generate_pix_code (PixService_init key name city) amount description
          transaction_id pix_key_arg
        = generate_pix_code (PixService_init key name city) None description
            transaction_id pix_key_arg)
  /\ (forall tag value, (100 <= length value <= 999)%nat ->
        _format_emv_field tag value
        = tag ++ [48 + Z.of_nat (length value) / 100;
                  48 + Z.of_nat (length value) / 10 mod 10;
                  48 + Z.of_nat (length value) mod 10] ++ value).
Proof.
  intros Hnan Hsmall Hkey. split; [|split].
  - apply generate_pix_code_returns;
      [exact Hnan|apply small_amount_formats; exact Hsmall|exact Hkey].
  - intros a -> Hneg. apply generate_pix_code_negative. exact Hneg.
  - intros tag value. apply format_emv_field_three_digits.
Qed.
End Scalar.

Lemma encoding_total_witness :
  exists s,
    @generate_pix_code ascii_db
      (@PixService_init ascii_db (repeat 107 120) (str "Loja Teste")
         (str "Sao Paulo"))
      (Some (Finite true 100 (-2))) (str "Mensalidade") (str "ABC123") []
    = Ok s.
Proof.
  destruct (@encoding_total ascii_db ascii_db_spec (repeat 107 120)
              (str "Loja Teste") (str "Sao Paulo")
              (Some (Finite true 100 (-2))) (str "Mensalidade")
              (str "ABC123") []
              ltac:(discriminate)
              ltac:(intros a [= <-]; vm_compute; discriminate)
              ltac:(vm_compute; reflexivity))
    as [H _].
  exact H.
Defined.

(** C10 fails as stated: a NaN amount, an amount whose text is refused
    ([Decimal("1E+999999999999999999")]) and a key with a surrogate code
    point make the encoder raise, and a value of 1000 characters is written
    after four digits. *)
Lemma encoding_raises :
  @generate_pix_code ascii_db sample_service (Some NaN) (str "Mensalidade")
    (str "ABC123") [] = Raise InvalidOperation
  /\ @generate_pix_code ascii_db sample_service
       (Some (Finite false 1 999999999999999999)) (str "Mensalidade")
       (str "ABC123") [] = Raise ValueError
  /\ @generate_pix_code ascii_db sample_service None (str "Mensalidade")
       (str "ABC123") [0xD800] = Raise UnicodeEncodeError
  /\ @_format_emv_field (str "01") (repeat 107 1000)
     = str "01" ++ str "1000" ++ repeat 107 1000.
Proof. vm_compute. repeat split. Qed.

(** * Further properties of the encoder *)

(** ** The checksum and the field builder *)

(** The UTF-8 bytes of a string that has no surrogate code point. *)
Definition utf8_bytes (s : pystr) : list Z :=
  match encode_utf8 s with
  | Ok b => b
  | Raise _ => []
  end.

(** X1. [_calculate_crc16] raises [UnicodeEncodeError] exactly when the
    payload holds a surrogate code point; otherwise it returns the four
    upper-case hexadecimal digits of the CRC16-CCITT-FALSE of the UTF-8
    bytes of the payload followed by ["6304"]. *)
Theorem calculate_crc16_outcome (payload : pystr) :
  _calculate_crc16 payload
  = if forallb is_scalar payload
    then Ok (hex4 (crc16_ccitt_false (utf8_bytes (payload ++ str "6304"))))
    else Raise UnicodeEncodeError.
Proof.
  unfold _calculate_crc16, utf8_bytes.
  change (CRC16 ++ str "04") with (str "6304").
  destruct (forallb is_scalar payload) eqn:H.
  - destruct (encode_utf8_scalar (payload ++ str "6304")) as [data Hd].
    { rewrite forallb_app, H. reflexivity. }
    rewrite Hd. cbn [bind].
    rewrite format_04X_hex4 by apply crc16_loop_range.
    rewrite crc16_loop_spec. reflexivity.
  - rewrite encode_utf8_raise; [reflexivity|].
    rewrite forallb_app, H. reflexivity.
Qed.

(** X2. Two lists of fields that fit the two-digit length prefix and
    serialize to the same string are the same list: a payload determines its
    fields. *)
Theorem serialize_injective (fs gs : list field) :
  forallb well_formed fs = true -> forallb well_formed gs = true ->
  serialize fs = serialize gs -> fs = gs.
Proof.
  intros Hf Hg E.
  pose proof (parse_tlv_serialize fs Hf) as Pf.
  rewrite E, (parse_tlv_serialize gs Hg) in Pf. congruence.
Qed.

Lemma serialize_injective_witness :
  [(str "59", str "LOJA TESTE"); (str "60", str "SAO PAULO")]
  = [(str "59", str "LOJA" ++ str " TESTE")] ++ [(str "60", str "SAO PAULO")].
Proof.
  apply serialize_injective; reflexivity.
Defined.

Lemma value_of_short (p : pystr) :
  forallb is_ascii_digit p = true -> (length p <= 2)%nat -> value_of p <= 99.
Proof.
  intros Hd Hl. destruct p as [|a [|b [|c p]]]; cbn [length] in Hl; try lia;
    unfold value_of; cbn [fold_left forallb] in *; unfold is_ascii_digit in Hd;
    lia.
Qed.

Lemma zfill_long (s : pystr) :
  forallb is_ascii_digit s = true -> (2 <= length s)%nat -> zfill 2 s = s.
Proof.
  intros Hd Hl. unfold zfill.
  replace (2 - length s)%nat with 0%nat by lia.
  destruct s as [|c s]; [reflexivity|].
  cbn [forallb] in Hd. apply andb_true_iff in Hd as [Hc _].
  unfold is_ascii_digit in Hc.
  replace ((c =? 43) || (c =? 45)) with false by lia. reflexivity.
Qed.

(** X3. The length prefix that [_format_emv_field] writes is a string of
    decimal digits whose value is the number of characters of the value; it
    has the two digits of the field format exactly when the value has at
    most 99 characters. *)
Theorem length_prefix_exact (tag value : pystr) :
  exists prefix,
    _format_emv_field tag value = tag ++ prefix ++ value
    /\ forallb is_ascii_digit prefix = true
    /\ value_of prefix = Z.of_nat (length value)
    /\ (length prefix = 2%nat <-> (length value <= 99)%nat).
Proof.
  destruct (Nat.le_gt_cases (length value) 99) as [Hs|Hl].
  - exists (two_digits (Z.of_nat (length value))).
    destruct (two_digits_value (Z.of_nat (length value)) ltac:(lia))
      as [Hd Hv].
    split; [apply format_emv_field_short; exact Hs|].
    split; [exact Hd|]. split; [exact Hv|]. split; [intros _; exact Hs|].
    reflexivity.
  - set (n := Z.of_nat (length value)).
    assert (Hn : 0 <= n) by (unfold n; lia).
    assert (Hd : forallb is_ascii_digit (str_of_int n) = true).
    { apply forallb_forall. apply Forall_forall.
      apply str_of_int_digits. exact Hn. }
    pose proof (str_of_int_value n Hn) as Hv.
    assert (Hlen : (3 <= length (str_of_int n))%nat).
    { destruct (Nat.le_gt_cases (length (str_of_int n)) 2) as [Hle|Hgt];
        [|lia].
      pose proof (value_of_short _ Hd Hle). unfold n in *. lia. }
    exists (str_of_int n).
    split; [unfold _format_emv_field; fold n; rewrite zfill_long by
              (first [exact Hd | lia]); reflexivity|].
    split; [exact Hd|]. split; [exact Hv|]. split; lia.
Qed.

(** ** The shapes of a key *)

Lemma existsb_rev (P : Z -> bool) (s : pystr) :
  existsb P (rev s) = existsb P s.
Proof.
  induction s as [|c s IH]; [reflexivity|].
  cbn [rev existsb]. rewrite existsb_app, IH. cbn [existsb].
  rewrite orb_false_r. apply orb_comm.
Qed.

Lemma existsb_spaces {U : Unicode} (P : Z -> bool) (p : pystr) :
  (forall c, P c = true -> isspace c = false) ->
  forallb isspace p = true -> existsb P p = false.
Proof.
  intros HP. induction p as [|c p IH]; [reflexivity|].
  cbn [forallb existsb]. intros H. apply andb_true_iff in H as [Hc Hp].
  rewrite (IH Hp), orb_false_r.
  destruct (P c) eqn:E; [|reflexivity].
  rewrite (HP c E) in Hc. discriminate.
Qed.

Lemma existsb_lstrip {U : Unicode} (P : Z -> bool) (s : pystr) :
  (forall c, P c = true -> isspace c = false) ->
  existsb P (lstrip s) = existsb P s.
Proof.
  intros HP. destruct (lstrip_suffix s) as [p [Hs Hp]].
  rewrite Hs at 2. rewrite existsb_app, (existsb_spaces P p HP Hp).
  reflexivity.
Qed.

(** [strip] keeps every character that is not whitespace. *)
Lemma existsb_strip {U : Unicode} (P : Z -> bool) (s : pystr) :
  (forall c, P c = true -> isspace c = false) ->
  existsb P (strip s) = existsb P s.
Proof.
  intros HP. unfold strip, rstrip.
  rewrite existsb_rev, existsb_lstrip, existsb_rev, existsb_lstrip
    by exact HP.
  reflexivity.
Qed.

Lemma lstrip_spaces {U : Unicode} (s : pystr) :
  forallb isspace s = true -> lstrip s = [].
Proof.
  induction s as [|c s IH]; [reflexivity|].
  cbn [forallb lstrip]. intros H. apply andb_true_iff in H as [Hc Hs].
  rewrite Hc. apply IH. exact Hs.
Qed.

Lemma re_match_opt_app (b : bool) (c : Z) (r : list re_item) (s : pystr) :
  re_match r s = true ->
  re_match (Opt c :: r) ((if b then [c] else []) ++ s) = true.
Proof.
  intros H. destruct b; [|apply re_match_opt_skip; exact H].
  cbn [app re_match]. rewrite Z.eqb_refl, H. reflexivity.
Qed.

Section KeyShapes.
Context {U : Unicode}.

Lemma normalize_pix_key_stripped (key : pystr) :
  _normalize_pix_key (strip key) = _normalize_pix_key key.
Proof.
  destruct key as [|c0 k0]; [reflexivity|].
  destruct (strip (c0 :: k0)) as [|c k] eqn:Hs.
  - unfold _normalize_pix_key. rewrite Hs. reflexivity.
  - rewrite <- Hs. symmetry. apply normalize_pix_key_strip; [discriminate|].
    rewrite Hs. discriminate.
Qed.

(** X4. Whitespace around a key does not change the normalized key: the
    normalizer gives a key and the key stripped the same result. *)
Theorem normalize_pix_key_strips (key : pystr) :
  _normalize_pix_key (strip key) = _normalize_pix_key key.
Proof. apply normalize_pix_key_stripped. Qed.

(** X5. A key of whitespace only is normalized to the empty key. *)
Theorem whitespace_key_empty (key : pystr) :
  forallb isspace key = true -> _normalize_pix_key key = [].
Proof.
  intros H. destruct key as [|c0 k0]; [reflexivity|].
  assert (Hs : strip (c0 :: k0) = []).
  { unfold strip, rstrip. rewrite (lstrip_spaces _ H). reflexivity. }
  unfold _normalize_pix_key. rewrite Hs. reflexivity.
Qed.
End KeyShapes.

Lemma whitespace_key_empty_witness :
  @_normalize_pix_key ascii_db [32; 9; 32] = [].
Proof. apply whitespace_key_empty. reflexivity. Defined.

Section KeyShapesSpec.
Context {U : Unicode} {US : UnicodeSpec U}.

(** X6. A key that holds an ["@"] is an e-mail address whatever else it
    holds: the result is the stripped key in lower case. *)
Theorem email_key_lowercased (key : pystr) :
  contains 64 key = true -> _normalize_pix_key key = lower (strip key).
Proof.
  intros Hat.
  rewrite <- normalize_pix_key_stripped.
  apply normalize_pix_key_at; [apply trimmed_strip|].
  unfold contains. rewrite existsb_strip; [exact Hat|].
  intros c Hc. apply Z.eqb_eq in Hc. subst c.
  rewrite isspace_ascii by reflexivity. reflexivity.
Qed.

(** X7. A key that, stripped, is a UUID with its hyphens is kept, in lower
    case. *)
Theorem uuid_key_lowercased (key : pystr) :
  re_match uuid_pattern (strip key) = true ->
  _normalize_pix_key key = map ascii_lower (strip key).
Proof.
  intros Hu. rewrite <- normalize_pix_key_stripped.
  rewrite normalize_pix_key_uuid; [|apply trimmed_strip|exact Hu].
  apply lower_ascii. apply uuid_pattern_ascii. exact Hu.
Qed.

Lemma digits_ascii_dot (x : Z) (s : pystr) :
  is_ascii x = true -> is_ascii_digit x = false ->
  filter is_digit (x :: s) = filter is_digit s.
Proof.
  intros Ha Hx. cbn [filter]. rewrite is_digit_ascii, Hx by exact Ha.
  reflexivity.
Qed.

Lemma no_space_digits (s : pystr) :
  forallb is_digit s = true -> forallb (fun c => negb (isspace c)) s = true.
Proof.
  apply forallb_impl. intros c Hc. rewrite decimal_not_space by exact Hc.
  reflexivity.
Qed.

Lemma no_space_ascii (x : Z) :
  is_ascii x = true -> ascii_isspace x = false -> negb (isspace x) = true.
Proof. intros Ha Hx. rewrite isspace_ascii, Hx by exact Ha. reflexivity. Qed.

Lemma not_at_digits (s : pystr) :
  forallb is_digit s = true -> existsb (Z.eqb 64) s = false.
Proof. apply digits_no_at. Qed.

(** X8. A CPF written [XXX.XXX.XXX-XX] is normalized to its eleven digits,
    also when they have the shape of a mobile phone number. *)
Theorem formatted_cpf_digits (a b c d : pystr) :
  forallb is_digit a = true -> forallb is_digit b = true ->
  forallb is_digit c = true -> forallb is_digit d = true ->
  length a = 3%nat -> length b = 3%nat -> length c = 3%nat ->
  length d = 2%nat ->
  _normalize_pix_key (a ++ str "." ++ b ++ str "." ++ c ++ str "-" ++ d)
  = a ++ b ++ c ++ d.
Proof.
  intros Ha Hb Hc Hd La Lb Lc Ld.
  change (str ".") with [46]. change (str "-") with [45].
  set (key := a ++ [46] ++ b ++ [46] ++ c ++ [45] ++ d).
  assert (Hlen : length key = 14%nat).
  { unfold key. rewrite !length_app. cbn [length]. lia. }
  assert (Hdig : filter is_digit key = a ++ b ++ c ++ d).
  { unfold key. rewrite !filter_app. cbn [app].
    rewrite !(digits_ascii_dot _ []) by reflexivity. cbn [filter].
    rewrite !filter_forallb by assumption. reflexivity. }
  assert (Htr : trimmed key = true).
  { apply trimmed_no_space. unfold key. rewrite !forallb_app.
    cbn [forallb]. rewrite !no_space_digits by assumption.
    rewrite !no_space_ascii by reflexivity. reflexivity. }
  assert (Hat : contains 64 key = false).
  { unfold contains, key. rewrite !existsb_app. cbn [existsb].
    rewrite !not_at_digits by assumption. reflexivity. }
  assert (Hcpf : re_match cpf_formatted_pattern key = true).
  { unfold cpf_formatted_pattern, key.
    rewrite re_match_rep_app by assumption. cbn [app]. rewrite re_match_lit.
    rewrite re_match_rep_app by assumption. cbn [app]. rewrite re_match_lit.
    rewrite re_match_rep_app by assumption. cbn [app]. rewrite re_match_lit.
    rewrite <- (app_nil_r d), re_match_rep_app by assumption.
    reflexivity. }
  destruct key as [|c0 k0] eqn:Hkey; [discriminate|]. rewrite <- Hkey in *.
  assert (Hunf : _normalize_pix_key key = _normalize_pix_key (c0 :: k0))
    by (rewrite Hkey; reflexivity).
  rewrite Hunf. unfold _normalize_pix_key. rewrite <- Hkey.
  rewrite (strip_trimmed key Htr), Hat.
  rewrite (re_match_short uuid_pattern key)
    by (rewrite Hlen; change (min_length uuid_pattern) with 36%nat; lia).
  rewrite digits_few_hex by lia.
  rewrite Hcpf, Hdig, !length_app, La, Lb, Lc, Ld. reflexivity.
Qed.

(** A separator that may be absent. *)
Definition optional (present : bool) (c : Z) : pystr :=
  if present then [c] else [].

(** X9. A CNPJ of fourteen digits, with or without each of its separators
    [XX.XXX.XXX/XXXX-XX], is normalized to its fourteen digits, also when
    they start with the country code 55. *)
Theorem cnpj_digits (a b c d e : pystr) (o1 o2 o3 o4 : bool) :
  forallb is_digit a = true -> forallb is_digit b = true ->
  forallb is_digit c = true -> forallb is_digit d = true ->
  forallb is_digit e = true ->
  length a = 2%nat -> length b = 3%nat -> length c = 3%nat ->
  length d = 4%nat -> length e = 2%nat ->
  _normalize_pix_key
    (a ++ optional o1 46 ++ b ++ optional o2 46 ++ c ++ optional o3 47
       ++ d ++ optional o4 45 ++ e)
  = a ++ b ++ c ++ d ++ e.
Proof.
  intros Ha Hb Hc Hd He La Lb Lc Ld Le.
  set (key := a ++ optional o1 46 ++ b ++ optional o2 46 ++ c
                ++ optional o3 47 ++ d ++ optional o4 45 ++ e).
  assert (Hopt : forall o x, (length (optional o x) <= 1)%nat)
    by (intros [|] x; cbn; lia).
  assert (Hlen : (14 <= length key <= 18)%nat).
  { unfold key. rewrite !length_app.
    pose proof (Hopt o1 46). pose proof (Hopt o2 46).
    pose proof (Hopt o3 47). pose proof (Hopt o4 45). lia. }
  assert (Hfo : forall o x, is_ascii x = true -> is_ascii_digit x = false ->
                            filter is_digit (optional o x) = []).
  { intros [|] x Hx1 Hx2; [|reflexivity]. unfold optional.
    apply digits_ascii_dot; assumption. }
  assert (Hdig : filter is_digit key = a ++ b ++ c ++ d ++ e).
  { unfold key. rewrite !filter_app, !Hfo by reflexivity. cbn [app].
    rewrite (filter_forallb _ a Ha), (filter_forallb _ b Hb),
      (filter_forallb _ c Hc), (filter_forallb _ d Hd),
      (filter_forallb _ e He). reflexivity. }
  assert (Hso : forall o x, is_ascii x = true -> ascii_isspace x = false ->
                  forallb (fun c => negb (isspace c)) (optional o x) = true).
  { intros [|] x Hx1 Hx2; [|reflexivity]. unfold optional. cbn [forallb].
    rewrite no_space_ascii by assumption. reflexivity. }
  assert (Htr : trimmed key = true).
  { apply trimmed_no_space. unfold key. rewrite !forallb_app.
    rewrite (no_space_digits a Ha), (no_space_digits b Hb),
      (no_space_digits c Hc), (no_space_digits d Hd), (no_space_digits e He).
    rewrite !Hso by reflexivity. reflexivity. }
  assert (Hao : forall o x, (64 =? x) = false ->
                            existsb (Z.eqb 64) (optional o x) = false).
  { intros [|] x Hx; [|reflexivity]. unfold optional. cbn [existsb].
    rewrite Hx. reflexivity. }
  assert (Hat : contains 64 key = false).
  { unfold contains, key. rewrite !existsb_app.
    rewrite (not_at_digits a Ha), (not_at_digits b Hb), (not_at_digits c Hc),
      (not_at_digits d Hd), (not_at_digits e He).
    rewrite !Hao by reflexivity. reflexivity. }
  assert (Hcnpj : re_match cnpj_pattern key = true).
  { unfold cnpj_pattern, key.
    rewrite re_match_rep_app by assumption. apply re_match_opt_app.
    rewrite re_match_rep_app by assumption. apply re_match_opt_app.
    rewrite re_match_rep_app by assumption. apply re_match_opt_app.
    rewrite re_match_rep_app by assumption. apply re_match_opt_app.
    rewrite <- (app_nil_r e), re_match_rep_app by assumption.
    reflexivity. }
  destruct key as [|c0 k0] eqn:Hkey; [cbn [length] in Hlen; lia|].
  rewrite <- Hkey in *.
  assert (Hunf : _normalize_pix_key key = _normalize_pix_key (c0 :: k0))
    by (rewrite Hkey; reflexivity).
  rewrite Hunf. unfold _normalize_pix_key. rewrite <- Hkey.
  rewrite (strip_trimmed key Htr), Hat.
  rewrite (re_match_short uuid_pattern key)
    by (change (min_length uuid_pattern) with 36%nat; lia).
  rewrite digits_few_hex by lia.
  rewrite Hcnpj, Hdig, !length_app, La, Lb, Lc, Ld, Le.
  cbn [Nat.add Nat.eqb andb]. rewrite andb_false_r. reflexivity.
Qed.

(** X10. A key that, stripped, starts with ["+"], holds no ["@"] and has a
    digit is a phone number with its country code: the result is ["+"] and
    the digits of the key. *)
Theorem plus_key_e164 (key : pystr) :
  startswith (str "+") (strip key) = true ->
  contains 64 (strip key) = false ->
  filter is_digit (strip key) <> [] ->
  _normalize_pix_key key = str "+" ++ filter is_digit (strip key).
Proof.
  intros Hplus Hat Hdig. rewrite <- normalize_pix_key_stripped.
  pose proof (strip_idempotent key) as Hi.
  destruct (strip key) as [|c k] eqn:Hs; [discriminate|].
  assert (Hc : c = 43).
  { unfold startswith in Hplus. change (str "+") with [43] in Hplus.
    cbn [length firstn] in Hplus.
    destruct (list_eq_dec Z.eq_dec [c] [43]) as [E|]; [|discriminate].
    congruence. }
  subst c.
  assert (H43 : is_digit 43 = false) by (rewrite is_digit_ascii; reflexivity).
  unfold _normalize_pix_key. rewrite Hi, Hat, Hplus.
  assert (Huuid : re_match uuid_pattern (43 :: k) = false)
    by (unfold uuid_pattern; rewrite re_match_rep_cons; reflexivity).
  assert (Hhex : re_match hex_pattern (43 :: k) = false)
    by (unfold hex_pattern; rewrite re_match_plus_cons; reflexivity).
  assert (Hcpf : re_match cpf_formatted_pattern (43 :: k) = false)
    by (unfold cpf_formatted_pattern; rewrite re_match_rep_cons, H43;
        reflexivity).
  assert (Hcnpj : re_match cnpj_pattern (43 :: k) = false)
    by (unfold cnpj_pattern; rewrite re_match_rep_cons, H43; reflexivity).
  rewrite Huuid, Hhex, Hcpf, Hcnpj, andb_false_r. cbn [andb orb].
  destruct (filter is_digit (43 :: k)); [contradiction|reflexivity].
Qed.

(** X11. Ten bare digits are a landline number when the first two are an
    area code from 11 to 99, and get the country code; otherwise they are
    left as they are. *)
Theorem bare_ten_digits (r : pystr) :
  forallb is_digit r = true -> length r = 10%nat ->
  _normalize_pix_key r
  = if (11 <=? int_of_digits (firstn 2 r))
       && (int_of_digits (firstn 2 r) <=? 99)
    then str "+55" ++ r else r.
Proof.
  intros Hd Hlen. destruct r as [|c0 r0] eqn:Hr; [discriminate|].
  rewrite <- Hr in *.
  assert (Hunf : _normalize_pix_key r = _normalize_pix_key (c0 :: r0))
    by (rewrite Hr; reflexivity).
  rewrite Hunf. unfold _normalize_pix_key. rewrite <- Hr.
  rewrite (strip_trimmed r (digits_trimmed r Hd)), (digits_no_at r Hd).
  rewrite (re_match_short uuid_pattern r)
    by (rewrite Hlen; change (min_length uuid_pattern) with 36%nat; lia).
  rewrite digits_few_hex by lia.
  rewrite (re_match_short cpf_formatted_pattern r)
    by (rewrite Hlen; change (min_length cpf_formatted_pattern) with 14%nat;
        lia).
  rewrite (re_match_short cnpj_pattern r)
    by (rewrite Hlen; change (min_length cnpj_pattern) with 14%nat; lia).
  rewrite (filter_forallb is_digit r Hd), (digits_no_plus r Hd).
  fold (has_parentheses r). rewrite (digits_no_parentheses r Hd).
  unfold looks_like_br_phone. rewrite Hlen. cbn [Nat.eqb Nat.leb andb orb].
  rewrite andb_false_r. cbn [orb]. rewrite andb_true_r.
  destruct ((11 <=? int_of_digits (firstn 2 r))
            && (int_of_digits (firstn 2 r) <=? 99)); reflexivity.
Qed.

(** X12. The normalized key has no whitespace at either end. *)
Theorem normalize_pix_key_trimmed (key : pystr) :
  trimmed (_normalize_pix_key key) = true.
Proof.
  destruct key as [|c0 k0]; [reflexivity|].
  unfold _normalize_pix_key.
  pose proof (trimmed_strip (c0 :: k0)) as Hk.
  set (k := strip (c0 :: k0)) in *.
  assert (Hd : trimmed (filter is_digit k) = true)
    by (apply digits_trimmed, forallb_filter).
  assert (H43 : negb (isspace 43) = true)
    by (apply no_space_ascii; reflexivity).
  assert (H53 : negb (isspace 53) = true)
    by (apply no_space_ascii; reflexivity).
  assert (Hns : forallb (fun c => negb (isspace c)) (filter is_digit k)
                = true) by (apply no_space_digits, forallb_filter).
  assert (Hplus : trimmed (str "+" ++ filter is_digit k) = true).
  { apply trimmed_no_space. change (str "+") with [43]. cbn [app forallb].
    rewrite H43, Hns. reflexivity. }
  assert (Hplus55 : trimmed (str "+55" ++ filter is_digit k) = true).
  { apply trimmed_no_space. change (str "+55") with [43; 53; 53].
    cbn [app forallb]. rewrite H43, H53, Hns. reflexivity. }
  assert (Hhyp : trimmed (lower (hyphenated (filter is_hex k))) = true).
  { apply lower_trimmed, hyphenated_trimmed, forallb_filter. }
  unfold hyphenated in Hhyp.
  repeat match goal with
         | |- context [if ?b then _ else _] => destruct b
         end;
    first [assumption | apply lower_trimmed; assumption].
Qed.

(** X13. A second pass of the key normalizer: it adds the country code to
    a result of eleven digits of the mobile shape, and leaves every other
    result as it is. *)
Theorem second_pass_exact (key : pystr) :
  _normalize_pix_key (_normalize_pix_key key)
  = if cpf_ambiguous (_normalize_pix_key key)
    then str "+55" ++ _normalize_pix_key key
    else _normalize_pix_key key.
Proof.
  destruct (cpf_ambiguous (_normalize_pix_key key)) eqn:Hamb.
  - unfold cpf_ambiguous in Hamb.
    apply andb_true_iff in Hamb as [Hamb Hm].
    apply andb_true_iff in Hamb as [Hd Hl]. apply Nat.eqb_eq in Hl.
    rewrite (bare_eleven_digits _ Hd Hl), Hm. reflexivity.
  - apply normalize_pix_key_fixed. exact Hamb.
Qed.
End KeyShapesSpec.

Lemma email_key_lowercased_witness :
  @_normalize_pix_key ascii_db (str " Tesouraria@Escola.COM.BR ")
  = str "tesouraria@escola.com.br".
Proof.
  exact (@email_key_lowercased ascii_db ascii_db_spec
           (str " Tesouraria@Escola.COM.BR ") eq_refl).
Defined.

Lemma uuid_key_lowercased_witness :
  @_normalize_pix_key ascii_db (str "A1B2C3D4-E5F6-7890-ABCD-EF1234567890")
  = str "a1b2c3d4-e5f6-7890-abcd-ef1234567890".
Proof.
  exact (@uuid_key_lowercased ascii_db ascii_db_spec
           (str "A1B2C3D4-E5F6-7890-ABCD-EF1234567890") eq_refl).
Defined.

Lemma formatted_cpf_digits_witness :
  @_normalize_pix_key ascii_db (str "119.876.543-21") = str "11987654321".
Proof.
  exact (@formatted_cpf_digits ascii_db ascii_db_spec (str "119") (str "876")
           (str "543") (str "21") eq_refl eq_refl eq_refl eq_refl eq_refl
           eq_refl eq_refl eq_refl).
Defined.

Lemma cnpj_digits_witness :
  @_normalize_pix_key ascii_db (str "55.345.678/0001-95")
  = str "55345678000195".
Proof.
  exact (@cnpj_digits ascii_db ascii_db_spec (str "55") (str "345")
           (str "678") (str "0001") (str "95") true true true true
           eq_refl eq_refl eq_refl eq_refl eq_refl eq_refl eq_refl eq_refl
           eq_refl eq_refl).
Defined.

Lemma plus_key_e164_witness :
  @_normalize_pix_key ascii_db (str " +55 (11) 98765-4321")
  = str "+5511987654321".
Proof.
  exact (@plus_key_e164 ascii_db ascii_db_spec (str " +55 (11) 98765-4321")
           eq_refl eq_refl ltac:(discriminate)).
Defined.

Lemma bare_ten_digits_witness :
  @_normalize_pix_key ascii_db (str "1132654321") = str "+551132654321".
Proof.
  exact (@bare_ten_digits ascii_db ascii_db_spec (str "1132654321")
           eq_refl eq_refl).
Defined.

Lemma normalize_pix_key_trimmed_witness :
  @trimmed ascii_db (@_normalize_pix_key ascii_db (str "  chave qualquer  "))
  = true.
Proof.
  exact (@normalize_pix_key_trimmed ascii_db ascii_db_spec
           (str "  chave qualquer  ")).
Defined.

Lemma second_pass_exact_witness :
  @_normalize_pix_key ascii_db
    (@_normalize_pix_key ascii_db (str "119.876.543-21"))
  = str "+5511987654321".
Proof.
  exact (@second_pass_exact ascii_db ascii_db_spec (str "119.876.543-21")).
Defined.

(** ** The shape of a normalized text and of a transaction id *)

(** Upper-case letters, digits and the space: the characters of a
    normalized text. *)
Definition is_upper_digit (c : Z) : bool := is_ascii_upper c || is_ascii_digit c.
Definition is_upper_digit_space (c : Z) : bool :=
  is_upper_digit c || (c =? 32).

(** No two spaces in a row. *)
Fixpoint no_double_space (s : pystr) : bool :=
  match s with
  | c :: s' =>
      match s' with
      | c' :: _ => negb ((c =? 32) && (c' =? 32)) && no_double_space s'
      | [] => true
      end
  | [] => true
  end.

Lemma ascii_upper_upper_digit_space (c : Z) :
  is_alnum_space c = true -> is_upper_digit_space (ascii_upper c) = true.
Proof.
  unfold ascii_upper, is_upper_digit_space, is_upper_digit, is_alnum_space,
    is_alnum, is_ascii_lower, is_ascii_upper, is_ascii_digit.
  destruct ((97 <=? c) && (c <=? 122)) eqn:H; lia.
Qed.

Lemma ascii_upper_upper_digit (c : Z) :
  is_alnum c = true -> is_upper_digit (ascii_upper c) = true.
Proof.
  unfold ascii_upper, is_upper_digit, is_alnum, is_ascii_lower,
    is_ascii_upper, is_ascii_digit.
  destruct ((97 <=? c) && (c <=? 122)) eqn:H; lia.
Qed.

Lemma upper_digit_space_alnum_space (c : Z) :
  is_upper_digit_space c = true -> is_alnum_space c = true.
Proof.
  unfold is_upper_digit_space, is_upper_digit, is_alnum_space, is_alnum,
    is_ascii_lower, is_ascii_upper, is_ascii_digit. lia.
Qed.

Lemma upper_digit_alnum (c : Z) : is_upper_digit c = true -> is_alnum c = true.
Proof.
  unfold is_upper_digit, is_alnum, is_ascii_lower, is_ascii_upper,
    is_ascii_digit. lia.
Qed.

Lemma ascii_upper_fixed (c : Z) :
  is_upper_digit_space c = true -> ascii_upper c = c.
Proof.
  unfold ascii_upper, is_upper_digit_space, is_upper_digit, is_ascii_lower,
    is_ascii_upper, is_ascii_digit.
  destruct ((97 <=? c) && (c <=? 122)) eqn:H; lia.
Qed.

Lemma map_fixed (f : Z -> Z) (P : Z -> bool) (s : pystr) :
  (forall c, P c = true -> f c = c) -> forallb P s = true -> map f s = s.
Proof.
  intros Hf. induction s as [|c s IH]; [reflexivity|].
  cbn [forallb map]. intros H. apply andb_true_iff in H as [Hc Hs].
  rewrite (Hf c Hc), (IH Hs). reflexivity.
Qed.

Section Shapes.
Context {U : Unicode} {US : UnicodeSpec U}.

Lemma spaced_prefix (s : pystr) :
  forall b n, spaced b s = true ->
    no_double_space (firstn n s) = true
    /\ (b = true -> hd 0 (firstn n s) <> 32).
Proof.
  assert (H32 : isspace 32 = true)
    by (rewrite isspace_ascii by reflexivity; reflexivity).
  induction s as [|c s IH]; intros b n H.
  - rewrite firstn_nil. split; [reflexivity|]. intros _. cbn. lia.
  - destruct n as [|n]; [split; [reflexivity|intros _; cbn; lia]|].
    cbn [firstn]. cbn [spaced] in H. destruct (isspace c) eqn:Hc.
    + apply andb_true_iff in H as [H1 H2].
      apply andb_true_iff in H1 as [H1 Hb]. apply Z.eqb_eq in H1. subst c.
      apply negb_true_iff in Hb. subst b.
      destruct (IH true n H2) as [Hnd Hhd]. split; [|discriminate].
      cbn [no_double_space]. destruct (firstn n s) as [|c' t]; [reflexivity|].
      rewrite Hnd, andb_true_r. cbn [hd] in Hhd.
      specialize (Hhd eq_refl). apply Z.eqb_neq in Hhd. rewrite Hhd.
      reflexivity.
    + assert (Hne : c <> 32) by (intros ->; congruence).
      destruct (IH false n H) as [Hnd _]. split; [|intros _; exact Hne].
      cbn [no_double_space]. destruct (firstn n s) as [|c' t]; [reflexivity|].
      rewrite Hnd, andb_true_r. apply Z.eqb_neq in Hne. rewrite Hne.
      reflexivity.
Qed.

(** X14. The shape of a normalized text, for a bound that is not negative:
    at most that many characters, all of them upper-case letters, digits or
    spaces, no space at the start and no two spaces in a row. *)
Theorem normalize_text_shape (value : pystr) (n : Z) :
  0 <= n ->
  (length (_normalize_text value n) <= Z.to_nat n)%nat
  /\ forallb is_upper_digit_space (_normalize_text value n) = true
  /\ hd 0 (_normalize_text value n) <> 32
  /\ no_double_space (_normalize_text value n) = true.
Proof.
  intros Hn. split; [apply normalize_text_length; exact Hn|].
  destruct value as [|c0 v0];
    [split; [reflexivity|split; [cbn; lia|reflexivity]]|].
  rewrite normalize_text_words by discriminate.
  assert (Hcut : slice_to (text_words (c0 :: v0)) n
                 = firstn (Z.to_nat n) (text_words (c0 :: v0))).
  { unfold slice_to. destruct (Z.leb_spec 0 n); [reflexivity|lia]. }
  rewrite Hcut. split.
  - apply forallb_firstn_skipn. rewrite text_words_upper.
    apply (forallb_map_impl is_alnum_space);
      [exact ascii_upper_upper_digit_space|apply joined_alnum_space].
  - destruct (text_words_spaced (c0 :: v0)) as [E|H].
    + rewrite E, firstn_nil. split; [cbn; lia|reflexivity].
    + destruct (spaced_prefix _ true (Z.to_nat n) H) as [Hnd Hhd].
      split; [apply Hhd; reflexivity|exact Hnd].
Qed.

Lemma spaced_of_shape (s : pystr) :
  forall b, forallb is_upper_digit_space s = true ->
    no_double_space s = true -> s <> [] -> last s 0 <> 32 ->
    (b = true -> hd 0 s <> 32) -> spaced b s = true.
Proof.
  induction s as [|c s IH]; intros b Hch Hnd Hne Hlast Hhd; [contradiction|].
  cbn [forallb] in Hch. apply andb_true_iff in Hch as [Hc Hch].
  assert (Hsp : isspace c = (c =? 32)).
  { rewrite isspace_ascii
      by (apply alnum_space_ascii, upper_digit_space_alnum_space; exact Hc).
    revert Hc. unfold is_upper_digit_space, is_upper_digit, is_ascii_upper,
      is_ascii_digit, ascii_isspace. lia. }
  cbn [spaced]. rewrite Hsp.
  destruct s as [|c' s'].
  - cbn [last] in Hlast. apply Z.eqb_neq in Hlast. rewrite Hlast.
    reflexivity.
  - cbn [no_double_space] in Hnd. apply andb_true_iff in Hnd as [Hcc Hnd].
    rewrite last_cons in Hlast by discriminate.
    destruct (c =? 32) eqn:E.
    + apply Z.eqb_eq in E. subst c.
      assert (Hb : b = false).
      { destruct b; [|reflexivity]. exfalso. apply Hhd; reflexivity. }
      subst b. cbn [negb andb].
      apply IH; try assumption; [discriminate|].
      intros _. cbn [hd]. cbn [andb] in Hcc.
      apply negb_true_iff, Z.eqb_neq in Hcc. exact Hcc.
    + apply IH; try assumption; [discriminate..].
Qed.

Lemma normalize_text_of_shape (s : pystr) (n : Z) :
  forallb is_upper_digit_space s = true -> no_double_space s = true ->
  hd 0 s <> 32 -> last s 0 <> 32 -> (length s <= Z.to_nat n)%nat ->
  _normalize_text s n = s.
Proof.
  intros Hch Hnd Hhd Hlast Hlen. destruct s as [|c0 s0] eqn:Hs; [reflexivity|].
  rewrite <- Hs in *.
  assert (Hne : s <> []) by (rewrite Hs; discriminate).
  assert (Hn : 0 <= n) by (destruct s; [contradiction|cbn [length] in Hlen; lia]).
  assert (Hspaced : spaced true s = true)
    by (apply spaced_of_shape; try assumption; intros _; exact Hhd).
  assert (Has : forallb is_alnum_space s = true).
  { revert Hch. apply forallb_impl. exact upper_digit_space_alnum_space. }
  assert (Hascii : forallb is_ascii s = true).
  { revert Has. apply forallb_impl. exact alnum_space_ascii. }
  rewrite normalize_text_words by exact Hne. unfold text_words.
  rewrite (remove_accents_ascii s Hascii), (filter_forallb _ s Has).
  rewrite (join_split_spaced s Hspaced), (upper_ascii s Hascii).
  rewrite (map_fixed ascii_upper is_upper_digit_space s ascii_upper_fixed Hch).
  unfold slice_to. destruct (Z.leb_spec 0 n); [|lia].
  apply firstn_all2. exact Hlen.
Qed.

(** X15. A text that already has the normalized shape (upper-case letters,
    digits and single spaces between words, no space at either end) and fits
    the bound is returned as it is. *)
Theorem normalized_text_kept (s : pystr) (n : Z) :
  forallb is_upper_digit_space s = true -> no_double_space s = true ->
  hd 0 s <> 32 -> last s 0 <> 32 -> (length s <= Z.to_nat n)%nat ->
  _normalize_text s n = s.
Proof. apply normalize_text_of_shape. Qed.

Lemma txid_upper (value : pystr) :
  upper (filter is_alnum (_remove_accents value))
  = map ascii_upper (filter is_alnum (_remove_accents value)).
Proof.
  apply upper_ascii.
  generalize (forallb_filter is_alnum (_remove_accents value)).
  apply forallb_impl. intros x Hx.
  apply alnum_space_ascii, alnum_alnum_space. exact Hx.
Qed.

Lemma txid_cut_upper_digit (value : pystr) (n : Z) :
  forallb is_upper_digit
    (slice_to (upper (filter is_alnum (_remove_accents value))) n) = true.
Proof.
  rewrite txid_upper. unfold slice_to.
  destruct (0 <=? n); apply forallb_firstn_skipn;
    apply (forallb_map_impl is_alnum); try exact ascii_upper_upper_digit;
    apply forallb_filter.
Qed.

(** X16. The transaction id of a payload is never empty and has at most 25
    characters: it is the three asterisks, or it is made of upper-case
    letters and digits. *)
Theorem normalize_txid_shape (value : pystr) :
  _normalize_txid value 25 <> []
  /\ (length (_normalize_txid value 25) <= 25)%nat
  /\ (_normalize_txid value 25 = str "***"
      \/ forallb is_upper_digit (_normalize_txid value 25) = true).
Proof.
  split; [|split; [apply normalize_txid_length|]].
  - unfold _normalize_txid. destruct value; [discriminate|].
    destruct (slice_to _ 25); discriminate.
  - unfold _normalize_txid. destruct value as [|c v]; [left; reflexivity|].
    pose proof (txid_cut_upper_digit (c :: v) 25) as H.
    destruct (slice_to _ 25); [left; reflexivity|right; exact H].
Qed.

Lemma normalize_txid_stars (n : Z) : _normalize_txid (str "***") n = str "***".
Proof.
  unfold _normalize_txid. change (str "***") with [42; 42; 42].
  rewrite remove_accents_ascii by reflexivity.
  change (filter is_alnum [42; 42; 42]) with (@nil Z).
  rewrite upper_ascii by reflexivity. cbn [map]. unfold slice_to.
  destruct (0 <=? n); rewrite firstn_nil; reflexivity.
Qed.

(** X17. The transaction id normalizer is idempotent for a bound that is
    not negative. *)
Theorem normalize_txid_idempotent (value : pystr) (n : Z) :
  0 <= n ->
  _normalize_txid (_normalize_txid value n) n = _normalize_txid value n.
Proof.
  intros Hn. destruct value as [|c0 v0]; [apply normalize_txid_stars|].
  pose proof (txid_cut_upper_digit (c0 :: v0) n) as Hch.
  pose proof (txid_upper (c0 :: v0)) as Hup.
  assert (Hunf : _normalize_txid (c0 :: v0) n
                 = match slice_to (upper (filter is_alnum
                                            (_remove_accents (c0 :: v0)))) n
                   with
                   | [] => str "***"
                   | _ :: _ =>
                       slice_to (upper (filter is_alnum
                                          (_remove_accents (c0 :: v0)))) n
                   end) by reflexivity.
  rewrite Hunf.
  set (w := upper (filter is_alnum (_remove_accents (c0 :: v0)))) in *.
  assert (Hcut : slice_to w n = firstn (Z.to_nat n) w).
  { unfold slice_to. destruct (Z.leb_spec 0 n); [reflexivity|lia]. }
  rewrite Hcut in *.
  destruct (firstn (Z.to_nat n) w) as [|c r] eqn:Er;
    [apply normalize_txid_stars|].
  rewrite <- Er in *.
  assert (Hal : forallb is_alnum (firstn (Z.to_nat n) w) = true).
  { revert Hch. apply forallb_impl. exact upper_digit_alnum. }
  assert (Hascii : forallb is_ascii (firstn (Z.to_nat n) w) = true).
  { revert Hal. apply forallb_impl. intros x Hx.
    apply alnum_space_ascii, alnum_alnum_space. exact Hx. }
  assert (Hfix : map ascii_upper (firstn (Z.to_nat n) w)
                 = firstn (Z.to_nat n) w).
  { apply (map_fixed ascii_upper is_upper_digit_space);
      [exact ascii_upper_fixed|].
    revert Hch. apply forallb_impl. intros x Hx.
    unfold is_upper_digit_space. rewrite Hx. reflexivity. }
  assert (Hsecond : _normalize_txid (firstn (Z.to_nat n) w) n
                    = firstn (Z.to_nat n) w).
  { rewrite Er at 1. unfold _normalize_txid. rewrite <- Er.
    rewrite (remove_accents_ascii _ Hascii), (filter_forallb _ _ Hal).
    rewrite (upper_ascii _ Hascii), Hfix. unfold slice_to.
    destruct (Z.leb_spec 0 n); [|lia].
    rewrite firstn_firstn, Nat.min_id, Er. reflexivity. }
  rewrite Hsecond, Er. reflexivity.
Qed.
End Shapes.

Lemma normalize_text_shape_witness :
  (length (@_normalize_text ascii_db (str "  Festa   junina: 2025!  ") 15)
   <= Z.to_nat 15)%nat
  /\ forallb is_upper_digit_space
       (@_normalize_text ascii_db (str "  Festa   junina: 2025!  ") 15) = true
  /\ hd 0 (@_normalize_text ascii_db (str "  Festa   junina: 2025!  ") 15)
     <> 32
  /\ no_double_space
       (@_normalize_text ascii_db (str "  Festa   junina: 2025!  ") 15) = true.
Proof.
  apply (@normalize_text_shape ascii_db ascii_db_spec). lia.
Defined.

Lemma normalized_text_kept_witness :
  @_normalize_text ascii_db (str "SAO PAULO") 15 = str "SAO PAULO".
Proof.
  apply (@normalized_text_kept ascii_db ascii_db_spec);
    [reflexivity|reflexivity|discriminate|discriminate|vm_compute; lia].
Defined.

Lemma normalize_txid_shape_witness :
  @_normalize_txid ascii_db (str "pedido-2025/001") 25 = str "PEDIDO2025001"
  /\ (length (@_normalize_txid ascii_db (str "pedido-2025/001") 25) <= 25)%nat.
Proof.
  destruct (@normalize_txid_shape ascii_db ascii_db_spec
              (str "pedido-2025/001")) as [_ [Hlen _]].
  split; [reflexivity|exact Hlen].
Defined.

Lemma normalize_txid_idempotent_witness :
  @_normalize_txid ascii_db (@_normalize_txid ascii_db (str "a1-b2") 25) 25
  = @_normalize_txid ascii_db (str "a1-b2") 25.
Proof.
  apply (@normalize_txid_idempotent ascii_db ascii_db_spec). lia.
Defined.

(** ** The payload: errors, amount, merchant, key and description *)

Lemma format_emv_field_scalar_eq (tag value : pystr) :
  forallb is_scalar (_format_emv_field tag value)
  = forallb is_scalar tag && forallb is_scalar value.
Proof.
  unfold _format_emv_field. rewrite !forallb_app.
  rewrite zfill_scalar by (apply str_of_int_scalar; lia). reflexivity.
Qed.

Lemma serialize_scalar_eq (fields : list field) :
  forallb is_scalar (serialize fields) = forallb field_scalar fields.
Proof.
  induction fields as [|f fs IH]; [reflexivity|].
  rewrite serialize_cons, forallb_app, format_emv_field_scalar_eq, IH.
  reflexivity.
Qed.

Lemma field_scalar_tag (tag value : pystr) :
  forallb is_scalar tag = true ->
  field_scalar (tag, value) = forallb is_scalar value.
Proof. intros H. unfold field_scalar. cbn [fst snd]. rewrite H. reflexivity. Qed.

Lemma calculate_crc16_raise (payload : pystr) :
  forallb is_scalar payload = false ->
  _calculate_crc16 payload = Raise UnicodeEncodeError.
Proof.
  intros H. unfold _calculate_crc16. rewrite encode_utf8_raise; [reflexivity|].
  rewrite forallb_app, H. reflexivity.
Qed.

Section Payload.
Context {U : Unicode}.


(** X19. An amount that is not greater than zero and not a NaN (zero of
    either sign, as the event view passes when no amount is set, a negative
    amount, minus infinity) gives the payload of no amount. *)
Theorem nonpositive_amount_omitted (self : PixService) (a : Decimal)
  (description transaction_id pix_key_arg : pystr) :
  decimal_gt_zero a = Ok false ->
  generate_pix_code self (Some a) description transaction_id pix_key_arg
  = generate_pix_code self None description transaction_id pix_key_arg.
Proof.
  intros Hpos.
  assert (Hnan : Some a <> Some NaN)
    by (intros [= ->]; discriminate).
  assert (Hfr : format_raises (Some a) = false)
    by (unfold format_raises, is_positive; rewrite Hpos; reflexivity).
  rewrite !generate_pix_code_fields
    by (first [exact Hnan | exact Hfr | reflexivity | discriminate]).
  cbv zeta. unfold payload_fields, amount_fields, is_positive.
  rewrite Hpos. reflexivity.
Qed.

(** X20. The key given to [generate_pix_code] replaces the key of the
    service, and an empty one stands for it. *)
Theorem pix_key_argument_overrides (self : PixService) (other_key : pystr)
  (amount : option Decimal) (description transaction_id pix_key_arg : pystr) :
  (pix_key_arg <> [] ->
   generate_pix_code self amount description transaction_id pix_key_arg
   = generate_pix_code
       {| pix_key := other_key; merchant_name := merchant_name self;
          merchant_city := merchant_city self |}
       amount description transaction_id pix_key_arg)
  /\ generate_pix_code self amount description transaction_id []
     = generate_pix_code self amount description transaction_id
         (pix_key self).
Proof.
  split.
  - intros Hne. destruct pix_key_arg as [|c k]; [contradiction|].
    destruct (amount_nan_dec amount) as [->|Hnan];
      [rewrite !generate_pix_code_nan; reflexivity|].
    destruct (format_raises amount) eqn:Hfr;
      [rewrite !generate_pix_code_overflow by exact Hfr; reflexivity|].
    rewrite !generate_pix_code_fields by assumption. cbv zeta.
    unfold payload_fields, merchant_account_fields.
    cbn [str_or pix_key merchant_name merchant_city]. reflexivity.
  - destruct (amount_nan_dec amount) as [->|Hnan];
      [rewrite !generate_pix_code_nan; reflexivity|].
    destruct (format_raises amount) eqn:Hfr;
      [rewrite !generate_pix_code_overflow by exact Hfr; reflexivity|].
    rewrite !generate_pix_code_fields by assumption. cbv zeta.
    unfold payload_fields, merchant_account_fields.
    cbn [str_or]. destruct (pix_key self); reflexivity.
Qed.

(** X21. A description that is normalized to the empty text (an empty one,
    or one of punctuation only) is left out: the payload is the one of no
    description. *)
Theorem empty_description_omitted (self : PixService)
  (amount : option Decimal) (description transaction_id pix_key_arg : pystr) :
  _normalize_text description 25 = [] ->
  generate_pix_code self amount description transaction_id pix_key_arg
  = generate_pix_code self amount [] transaction_id pix_key_arg.
Proof.
  intros Hd.
  destruct (amount_nan_dec amount) as [->|Hnan];
    [rewrite !generate_pix_code_nan; reflexivity|].
  destruct (format_raises amount) eqn:Hfr;
    [rewrite !generate_pix_code_overflow by exact Hfr; reflexivity|].
  rewrite !generate_pix_code_fields by assumption. cbv zeta.
  unfold payload_fields, merchant_account_fields.
  rewrite Hd, normalize_text_nil. reflexivity.
Qed.

Lemma merchant_account_length (self : PixService)
  (description pix_key_arg : pystr) :
  (length (_normalize_pix_key (str_or pix_key_arg (pix_key self))) <= 48)%nat ->
  (length (serialize (merchant_account_fields self description pix_key_arg))
   <= 99)%nat.
Proof.
  intros Hk. unfold merchant_account_fields.
  pose proof (normalize_text_length description 25 ltac:(lia)) as Hd.
  change (Z.to_nat 25) with 25%nat in Hd.
  generalize dependent (_normalize_pix_key (str_or pix_key_arg (pix_key self))).
  intros k Hk.
  assert (Hk99 : (length k <= 99)%nat) by lia.
  assert (Hgui : (length PIX_GUI <= 99)%nat) by (cbn; lia).
  destruct (_normalize_text description 25) as [|c d] eqn:E.
  - cbn [app]. rewrite !serialize_cons. cbn [fst snd].
    rewrite !format_emv_field_short by (first [exact Hk99 | exact Hgui]).
    rewrite !length_app. unfold two_digits. cbn [length serialize flat_map].
    change (length (str "00")) with 2%nat.
    change (length (str "01")) with 2%nat.
    change (length PIX_GUI) with 14%nat. lia.
  - assert (Hd99 : (length (c :: d) <= 99)%nat) by lia.
    cbn [app]. rewrite !serialize_cons. cbn [fst snd].
    rewrite !format_emv_field_short
      by (first [exact Hk99 | exact Hgui | exact Hd99]).
    rewrite !length_app. unfold two_digits. cbn [serialize flat_map].
    change (length (str "00")) with 2%nat.
    change (length (str "01")) with 2%nat.
    change (length (str "02")) with 2%nat.
    change (length PIX_GUI) with 14%nat. cbn [length] in *. lia.
Qed.

(** X22. When the normalized key has at most 48 characters, as every CPF,
    CNPJ, phone number and random key has, and the text of the amount at
    most 99, every field fits its two-digit length prefix: the payload reads
    back as its fields, and its length is the sum of 4 and the length of the
    value over the fields. *)
Theorem payload_reads_back (key name city : pystr) (amount : option Decimal)
  (description transaction_id pix_key_arg s : pystr) :
  (length (_normalize_pix_key (str_or pix_key_arg key)) <= 48)%nat ->
  (forall a, amount = Some a -> (length (format_2f a) <= 99)%nat) ->
  generate_pix_code (PixService_init key name city) amount description
    transaction_id pix_key_arg = Ok s ->
  exists crc,
    let fields :=
      payload_fields (PixService_init key name city) amount description
        transaction_id pix_key_arg ++ [(CRC16, crc)] in
    parse_tlv s = Some fields /\ length s = tlv_length fields.
Proof.
  intros Hk Ha Hgen.
  destruct (generate_pix_code_ok _ _ _ _ _ _ Hgen) as [data [_ [_ [_ Hs]]]].
  exists (hex4 (crc16_ccitt_false data)). cbv zeta.
  assert (Hwf : forallb well_formed
                  (payload_fields (PixService_init key name city) amount
                     description transaction_id pix_key_arg
                     ++ [(CRC16, hex4 (crc16_ccitt_false data))]) = true).
  { apply payload_fields_well_formed; [|exact Ha].
    apply merchant_account_length. exact Hk. }
  rewrite Hs. split; [apply parse_tlv_serialize|apply serialize_length];
    exact Hwf.
Qed.
End Payload.

Lemma nonpositive_amount_omitted_witness :
  @generate_pix_code ascii_db sample_service (Some (Finite false 0 (-2)))
    (str "Mensalidade") (str "ABC123") []
  = @generate_pix_code ascii_db sample_service None (str "Mensalidade")
      (str "ABC123") [].
Proof. apply nonpositive_amount_omitted. reflexivity. Defined.

Lemma empty_description_omitted_witness :
  @generate_pix_code ascii_db sample_service None (str "?!...") (str "ABC123")
    []
  = @generate_pix_code ascii_db sample_service None [] (str "ABC123") [].
Proof. apply empty_description_omitted. reflexivity. Defined.

Lemma payload_reads_back_witness :
  exists crc,
    parse_tlv sample_payload
    = Some (@payload_fields ascii_db sample_service
              (Some (Finite false 2500 (-2))) (str "Mensalidade")
              (str "ABC123") [] ++ [(CRC16, crc)])
    /\ length sample_payload
       = tlv_length
           (@payload_fields ascii_db sample_service
              (Some (Finite false 2500 (-2))) (str "Mensalidade")
              (str "ABC123") [] ++ [(CRC16, crc)]).
Proof.
  apply (@payload_reads_back ascii_db (str "test@example.com")
           (str "LOJA TESTE") (str "SAO PAULO")).
  - vm_compute. lia.
  - intros a [= <-]. vm_compute. lia.
  - exact sample_generate.
Defined.

Section Outcome.
Context {U : Unicode} {US : UnicodeSpec U}.

Lemma payload_scalar_key (key name city : pystr) (amount : option Decimal)
  (description transaction_id pix_key_arg : pystr) :
  forallb is_scalar
    (serialize
       (payload_fields (PixService_init key name city) amount description
          transaction_id pix_key_arg))
  = forallb is_scalar (_normalize_pix_key (str_or pix_key_arg key)).
Proof.
  rewrite serialize_scalar_eq. unfold payload_fields.
  assert (Hamt : forallb field_scalar (amount_fields amount) = true).
  { destruct (amount_fields_cases amount) as [[_ ->]|[a [-> [Hp ->]]]];
      [reflexivity|].
    cbn [forallb]. rewrite field_scalar_tag by reflexivity.
    rewrite (format_2f_scalar a Hp). reflexivity. }
  assert (Hname : forallb is_scalar
                    (str_or (merchant_name (PixService_init key name city))
                       (str "PAGAMENTO")) = true).
  { apply str_or_scalar; [apply normalize_text_scalar|reflexivity]. }
  assert (Hcity : forallb is_scalar
                    (str_or (merchant_city (PixService_init key name city))
                       (str "BRASIL")) = true).
  { apply str_or_scalar; [apply normalize_text_scalar|reflexivity]. }
  assert (Hadf : forallb is_scalar
                   (serialize (additional_data_fields transaction_id))
                 = true).
  { rewrite serialize_scalar_eq. unfold additional_data_fields.
    cbn [forallb]. rewrite field_scalar_tag by reflexivity.
    rewrite normalize_txid_scalar. reflexivity. }
  assert (Hmai : forallb is_scalar
                   (serialize
                      (merchant_account_fields
                         (PixService_init key name city) description
                         pix_key_arg))
                 = forallb is_scalar
                     (_normalize_pix_key (str_or pix_key_arg key))).
  { rewrite serialize_scalar_eq. unfold merchant_account_fields.
    cbn [pix_key PixService_init].
    pose proof (normalize_text_scalar description 25) as Hd.
    destruct (_normalize_text description 25) as [|c d];
      cbn [app forallb]; rewrite !field_scalar_tag by reflexivity;
      rewrite ?Hd, ?andb_true_r; reflexivity. }
  rewrite !forallb_app, Hamt. cbn [forallb].
  rewrite !field_scalar_tag by reflexivity.
  rewrite Hmai, Hadf, Hname, Hcity. cbn [forallb andb].
  rewrite !andb_true_r. reflexivity.
Qed.

(** X23. What [generate_pix_code] does for a service made by [PixService]
    and an amount below [10 ^ 96] (the digits of its coefficient and its
    exponent add up to 96 at most): it raises [InvalidOperation] exactly
    when the amount is a NaN, it raises [UnicodeEncodeError] exactly when the
    amount is not a NaN and the normalized key holds a surrogate code point,
    and it returns a payload in every other case. *)
Theorem generate_pix_code_outcome (key name city : pystr)
  (amount : option Decimal) (description transaction_id pix_key_arg : pystr) :
  (forall a, amount = Some a -> amount_magnitude a <= 96) ->
  let result :=
    generate_pix_code (PixService_init key name city) amount description
      transaction_id pix_key_arg in
  let normalized := _normalize_pix_key (str_or pix_key_arg key) in
  (result = Raise InvalidOperation <-> amount = Some NaN)
  /\ (result = Raise UnicodeEncodeError
      <-> amount <> Some NaN /\ forallb is_scalar normalized = false)
  /\ ((exists s, result = Ok s)
      <-> amount <> Some NaN /\ forallb is_scalar normalized = true).
Proof.
  intros Hsmall. cbv zeta.
  pose proof (small_amount_formats amount Hsmall) as Hfr.
  destruct (amount_nan_dec amount) as [->|Hnan].
  - rewrite generate_pix_code_nan.
    split; [split; reflexivity|]. split; split.
    + discriminate.
    + intros [H _]. exfalso. apply H. reflexivity.
    + intros [s H]. discriminate.
    + intros [H _]. exfalso. apply H. reflexivity.
  - rewrite generate_pix_code_fields by assumption. cbv zeta.
    pose proof (payload_scalar_key key name city amount description
                  transaction_id pix_key_arg) as Hkey.
    destruct (forallb is_scalar
                (_normalize_pix_key (str_or pix_key_arg key))) eqn:Hk.
    + destruct (calculate_crc16_scalar _ Hkey) as [crc ->]. cbn [bind].
      split; [split; [discriminate|contradiction]|].
      split; split.
      * discriminate.
      * intros [_ H]. discriminate.
      * intros _. split; [exact Hnan|reflexivity].
      * intros _. eexists. reflexivity.
    + rewrite (calculate_crc16_raise _ Hkey). cbn [bind].
      split; [split; [discriminate|contradiction]|].
      split; split.
      * intros _. split; [exact Hnan|reflexivity].
      * reflexivity.
      * intros [s H]. discriminate.
      * intros [_ H]. discriminate.
Qed.

End Outcome.

Lemma generate_pix_code_outcome_witness :
  exists s,
    @generate_pix_code ascii_db
      (@PixService_init ascii_db (str "+55 11 98765-4321" ++ [0xD800])
         (str "Loja Teste") (str "Sao Paulo"))
      None (str "Mensalidade") (str "ABC123") [] = Ok s.
Proof.
  destruct (@generate_pix_code_outcome ascii_db ascii_db_spec
              (str "+55 11 98765-4321" ++ [0xD800]) (str "Loja Teste")
              (str "Sao Paulo") None (str "Mensalidade") (str "ABC123") []
              ltac:(discriminate))
    as [_ [_ H]].
  apply H. split; [discriminate|reflexivity].
Defined.

(** ** The event view

    [EventPixView.get_context_data] and [EventQRCodeView.get] of
    [apps/events/views.py] build the service and the arguments of
    [generate_pix_code] from an event. *)

(** The attributes of an [Event] that the view reads; [event_id_hex] is
    [event.id.hex]. *)
Record Event : Type := {
  event_id_hex : pystr;
  event_title : pystr;
  event_individual_amount : option Decimal;
  event_pix_key : pystr;
  event_pix_holder_name : pystr
}.

(** [bool(d)] for a [Decimal]: false for a zero only. *)
Definition decimal_bool (d : Decimal) : bool :=
  match d with
  | Finite _ c _ => negb (c =? 0)
  | Infinity _ => true
  | NaN => true
  end.

(** [a or b] for an optional [Decimal] [a]. *)
Definition decimal_or (a : option Decimal) (b : Decimal) : Decimal :=
  match a with
  | Some d => if decimal_bool d then d else b
  | None => b
  end.

Section EventView.
Context {U : Unicode}.

Definition event_service (event : Event) : PixService :=
  PixService_init (event_pix_key event)
    (str_or (event_pix_holder_name event) (str "SCHOOL HUB"))
    (str "SAO PAULO").

Definition event_amount (event : Event) : Decimal :=
  decimal_or (event_individual_amount event) (Finite false 0 (-2)).

Definition event_txid (event : Event) : pystr :=
  slice_to (event_id_hex event) 25.

(** The value of [context["pix_code"]], when the view sets it. *)
Definition event_pix_code (event : Event) : option (result pystr) :=
  match event_pix_key event with
  | [] => None
  | _ :: _ =>
      let pix_service := event_service event in
      let amount := event_amount event in
      let txid := event_txid event in
      Some (generate_pix_code pix_service (Some amount)
              (slice_to (event_title event) 25) txid [])
  end.

(** The fields of that code, before the checksum. *)
Definition event_fields (event : Event) : list field :=
  payload_fields (event_service event) (Some (event_amount event))
    (slice_to (event_title event) 25) (event_txid event) [].
End EventView.

Lemma hex_alnum (c : Z) : is_hex c = true -> is_alnum c = true.
Proof.
  unfold is_hex, is_alnum, is_ascii_lower, is_ascii_upper, is_ascii_digit.
  lia.
Qed.

Section EventViewSpec.
Context {U : Unicode} {US : UnicodeSpec U}.

Lemma txid_of_hex (h : pystr) :
  length h = 32%nat -> forallb is_hex h = true ->
  _normalize_txid (slice_to h 25) 25 = map ascii_upper (firstn 25 h).
Proof.
  intros Hlen Hh. unfold slice_to. change (0 <=? 25) with true. cbv iota.
  change (Z.to_nat 25) with 25%nat.
  assert (Hl : length (firstn 25 h) = 25%nat)
    by (rewrite length_firstn, Hlen; reflexivity).
  assert (Hal : forallb is_alnum (firstn 25 h) = true).
  { apply forallb_firstn_skipn. revert Hh. apply forallb_impl.
    exact hex_alnum. }
  assert (Hascii : forallb is_ascii (firstn 25 h) = true).
  { revert Hal. apply forallb_impl. intros x Hx.
    apply alnum_space_ascii, alnum_alnum_space. exact Hx. }
  destruct (firstn 25 h) as [|c t] eqn:E; [discriminate|]. rewrite <- E in *.
  assert (Hunf : _normalize_txid (firstn 25 h) 25
                 = _normalize_txid (c :: t) 25) by (rewrite E; reflexivity).
  rewrite Hunf. unfold _normalize_txid. rewrite <- E.
  rewrite (remove_accents_ascii _ Hascii), (filter_forallb _ _ Hal).
  rewrite (upper_ascii _ Hascii).
  unfold slice_to. change (0 <=? 25) with true. cbv iota.
  change (Z.to_nat 25) with 25%nat.
  rewrite firstn_all2 by (rewrite length_map, Hl; lia).
  rewrite E. reflexivity.
Qed.

Lemma event_amount_not_nan (event : Event) :
  event_individual_amount event <> Some NaN ->
  Some (event_amount event) <> Some NaN.
Proof.
  intros H. unfold event_amount, decimal_or.
  destruct (event_individual_amount event) as [d|]; [|discriminate].
  destruct (decimal_bool d); [|discriminate].
  intros E. apply H. exact E.
Qed.

Lemma event_amount_small (event : Event) :
  (forall a, event_individual_amount event = Some a ->
             amount_magnitude a <= 96) ->
  forall a, Some (event_amount event) = Some a -> amount_magnitude a <= 96.
Proof.
  intros H a [= <-]. unfold event_amount, decimal_or.
  destruct (event_individual_amount event) as [d|];
    [|vm_compute; discriminate].
  destruct (decimal_bool d); [apply H; reflexivity|vm_compute; discriminate].
Qed.

(** X25. The code that the event view shows, for an event with a key that
    has no surrogate code point, an amount that is not a NaN and is below
    [10 ^ 96] (as every value of the model field, of ten digits at most,
    is) and the 32 hexadecimal digits of its id: the view gets a payload;
    its city is
    "SAO PAULO"; its transaction id is the first 25 digits of the id in
    upper case; its name is "SCHOOL HUB" when the event has no holder name;
    and it has no amount field when the event has no amount or a zero
    one. *)
Theorem event_pix_code_payload (event : Event) :
  event_pix_key event <> [] ->
  forallb is_scalar (event_pix_key event) = true ->
  event_individual_amount event <> Some NaN ->
  (forall a, event_individual_amount event = Some a ->
             amount_magnitude a <= 96) ->
  length (event_id_hex event) = 32%nat ->
  forallb is_hex (event_id_hex event) = true ->
  exists s crc,
    event_pix_code event = Some (Ok s)
    /\ s = serialize (event_fields event ++ [(CRC16, crc)])
    /\ value_at (str "60") (event_fields event) = Some (str "SAO PAULO")
    /\ value_at (str "62") (event_fields event)
       = Some (str "0525" ++ map ascii_upper (firstn 25 (event_id_hex event)))
    /\ (event_pix_holder_name event = [] ->
        value_at (str "59") (event_fields event) = Some (str "SCHOOL HUB"))
    /\ ((event_individual_amount event = None
         \/ exists sign e,
              event_individual_amount event = Some (Finite sign 0 e)) ->
        value_at (str "54") (event_fields event) = None).
Proof.
  intros Hkey Hscalar Hnan Hsmall Hlen Hhex.
  assert (Hcity : _normalize_text (str "SAO PAULO") 15 = str "SAO PAULO").
  { apply normalize_text_of_shape;
      [reflexivity|reflexivity|discriminate|discriminate|vm_compute; lia]. }
  assert (Hname : _normalize_text (str "SCHOOL HUB") 25 = str "SCHOOL HUB").
  { apply normalize_text_of_shape;
      [reflexivity|reflexivity|discriminate|discriminate|vm_compute; lia]. }
  destruct (generate_pix_code_returns (event_pix_key event)
              (str_or (event_pix_holder_name event) (str "SCHOOL HUB"))
              (str "SAO PAULO") (Some (event_amount event))
              (slice_to (event_title event) 25) (event_txid event) []
              (event_amount_not_nan event Hnan)
              (small_amount_formats _ (event_amount_small event Hsmall))
              Hscalar) as [s Hs].
  destruct (generate_pix_code_ok _ _ _ _ _ _ Hs) as [data [_ [_ [_ Hser]]]].
  exists s, (hex4 (crc16_ccitt_false data)).
  split.
  { unfold event_pix_code, event_service. cbv zeta. rewrite Hs.
    destruct (event_pix_key event); [contradiction|reflexivity]. }
  split; [exact Hser|].
  assert (Hadf : serialize (additional_data_fields (event_txid event))
                 = str "0525"
                     ++ map ascii_upper (firstn 25 (event_id_hex event))).
  { unfold additional_data_fields, event_txid.
    rewrite (txid_of_hex _ Hlen Hhex).
    rewrite serialize_cons. cbn [fst snd serialize flat_map].
    rewrite app_nil_r.
    assert (Hl : length (map ascii_upper (firstn 25 (event_id_hex event)))
                 = 25%nat)
      by (rewrite length_map, length_firstn, Hlen; reflexivity).
    rewrite format_emv_field_short by (rewrite Hl; lia).
    rewrite Hl. reflexivity. }
  unfold event_fields, payload_fields. rewrite Hadf.
  unfold event_service. cbn [merchant_name merchant_city PixService_init].
  rewrite Hcity. cbn [str_or].
  generalize (serialize
                (merchant_account_fields
                   (PixService_init (event_pix_key event)
                      (str_or (event_pix_holder_name event)
                         (str "SCHOOL HUB")) (str "SAO PAULO"))
                   (slice_to (event_title event) 25) [])).
  intros mai.
  generalize (str "0525"
                ++ map ascii_upper (firstn 25 (event_id_hex event))).
  intros adf.
  split; [|split; [|split]].
  - generalize (str_or
                  (_normalize_text
                     (str_or (event_pix_holder_name event) (str "SCHOOL HUB"))
                     25) (str "PAGAMENTO")).
    intros v59.
    destruct (amount_fields_cases (Some (event_amount event)))
      as [[_ ->]|[a [_ [_ ->]]]]; [reflexivity|].
    generalize (format_2f a). intros v54. reflexivity.
  - generalize (str_or
                  (_normalize_text
                     (str_or (event_pix_holder_name event) (str "SCHOOL HUB"))
                     25) (str "PAGAMENTO")).
    intros v59.
    destruct (amount_fields_cases (Some (event_amount event)))
      as [[_ ->]|[a [_ [_ ->]]]]; [reflexivity|].
    generalize (format_2f a). intros v54. reflexivity.
  - intros Hholder. rewrite Hholder. cbn [str_or]. rewrite Hname.
    cbn [str_or].
    destruct (amount_fields_cases (Some (event_amount event)))
      as [[_ ->]|[a [_ [_ ->]]]]; [reflexivity|].
    generalize (format_2f a). intros v54. reflexivity.
  - intros Hnone.
    assert (Hzero : decimal_gt_zero (event_amount event) = Ok false).
    { unfold event_amount.
      destruct Hnone as [H|[sign [e H]]]; rewrite H; reflexivity. }
    unfold amount_fields, is_positive. rewrite Hzero.
    generalize (str_or
                  (_normalize_text
                     (str_or (event_pix_holder_name event) (str "SCHOOL HUB"))
                     25) (str "PAGAMENTO")).
    intros v59. reflexivity.
Qed.

End EventViewSpec.

Definition sample_event : Event :=
  {| event_id_hex := str "3f2b8c1e9a4d4e7fb6a5c0d1e2f3a4b5";
     event_title := str "Festa Junina 2025";
     event_individual_amount := None;
     event_pix_key := str "tesouraria@escola.com.br";
     event_pix_holder_name := [] |}.

Lemma event_pix_code_payload_witness :
  exists s crc,
    @event_pix_code ascii_db sample_event = Some (Ok s)
    /\ s = serialize (@event_fields ascii_db sample_event ++ [(CRC16, crc)])
    /\ value_at (str "60") (@event_fields ascii_db sample_event)
       = Some (str "SAO PAULO")
    /\ value_at (str "62") (@event_fields ascii_db sample_event)
       = Some (str "0525"
                 ++ map ascii_upper (firstn 25 (event_id_hex sample_event)))
    /\ (event_pix_holder_name sample_event = [] ->
        value_at (str "59") (@event_fields ascii_db sample_event)
        = Some (str "SCHOOL HUB"))
    /\ ((event_individual_amount sample_event = None
         \/ exists sign e,
              event_individual_amount sample_event = Some (Finite sign 0 e)) ->
        value_at (str "54") (@event_fields ascii_db sample_event) = None).
Proof.
  apply (@event_pix_code_payload ascii_db ascii_db_spec sample_event);
    first [discriminate | reflexivity].
Defined.

(** ** An ASCII key gives an ASCII payload *)

Lemma digit_ascii (c : Z) : is_ascii_digit c = true -> is_ascii c = true.
Proof. unfold is_ascii_digit, is_ascii. lia. Qed.

Lemma upper_hex_ascii (c : Z) : is_upper_hex c = true -> is_ascii c = true.
Proof. unfold is_upper_hex, is_ascii_digit, is_ascii. lia. Qed.

Lemma ascii_lower_ascii (c : Z) :
  is_ascii c = true -> is_ascii (ascii_lower c) = true.
Proof.
  unfold ascii_lower, is_ascii_upper, is_ascii.
  destruct ((65 <=? c) && (c <=? 90)) eqn:H; lia.
Qed.

Lemma str_of_int_ascii (n : Z) :
  0 <= n -> forallb is_ascii (str_of_int n) = true.
Proof.
  intros Hn. apply forallb_forall. intros c Hc. apply digit_ascii.
  revert c Hc. apply Forall_forall. apply str_of_int_digits. exact Hn.
Qed.

Lemma zfill_ascii (width : nat) (s : pystr) :
  forallb is_ascii s = true -> forallb is_ascii (zfill width s) = true.
Proof.
  intros Hs. unfold zfill.
  assert (Hz : forall n, forallb is_ascii (repeat 48 n) = true)
    by (intros n; apply forallb_repeat; reflexivity).
  destruct s as [|c s]; [apply Hz|].
  destruct ((c =? 43) || (c =? 45)).
  - cbn [forallb] in *. apply andb_true_iff in Hs as [Hc Hs].
    rewrite Hc, forallb_app, Hz, Hs. reflexivity.
  - rewrite forallb_app, Hz, Hs. reflexivity.
Qed.

Lemma format_emv_field_ascii (tag value : pystr) :
  forallb is_ascii tag = true -> forallb is_ascii value = true ->
  forallb is_ascii (_format_emv_field tag value) = true.
Proof.
  intros Ht Hv. unfold _format_emv_field. rewrite !forallb_app, Ht, Hv.
  rewrite zfill_ascii; [reflexivity|]. apply str_of_int_ascii. lia.
Qed.

Definition field_ascii (f : field) : bool :=
  forallb is_ascii (fst f) && forallb is_ascii (snd f).

Lemma serialize_ascii (fields : list field) :
  forallb field_ascii fields = true ->
  forallb is_ascii (serialize fields) = true.
Proof.
  induction fields as [|f fs IH]; [reflexivity|].
  cbn [forallb]. intros H. apply andb_true_iff in H as [Hf Hfs].
  apply andb_true_iff in Hf as [Ht Hv].
  rewrite serialize_cons, forallb_app, (IH Hfs), andb_true_r.
  apply format_emv_field_ascii; assumption.
Qed.

Lemma format_2f_ascii (a : Decimal) :
  is_positive (Some a) = true -> forallb is_ascii (format_2f a) = true.
Proof.
  destruct a as [sign c e|sign|]; cbn [is_positive decimal_gt_zero];
    [| |discriminate].
  - intros H. apply andb_true_iff in H as [Hs Hc].
    apply negb_true_iff in Hs. subst sign. apply Z.ltb_lt in Hc.
    unfold format_2f. cbv zeta. cbn [app].
    pose proof (rescale2_nonneg c e ltac:(lia)) as Hr.
    rewrite !forallb_app. cbn [forallb].
    rewrite str_of_int_ascii by (apply Z.div_pos; lia).
    rewrite zfill_ascii; [reflexivity|].
    apply str_of_int_ascii. apply Z.mod_pos_bound. lia.
  - intros H. apply negb_true_iff in H. subst sign. reflexivity.
Qed.

Lemma encode_utf8_ascii (s : pystr) :
  forallb is_ascii s = true -> encode_utf8 s = Ok s.
Proof.
  induction s as [|c s IH]; [reflexivity|].
  cbn [forallb encode_utf8]. intros H. apply andb_true_iff in H as [Hc Hs].
  rewrite (IH Hs). unfold encode_char. unfold is_ascii in Hc.
  change 0x80 with 128. rewrite Hc. reflexivity.
Qed.

Section AsciiPayload.
Context {U : Unicode} {US : UnicodeSpec U}.

Lemma lower_keeps_ascii (s : pystr) :
  forallb is_ascii s = true -> forallb is_ascii (lower s) = true.
Proof.
  intros H. rewrite lower_ascii by exact H.
  apply (forallb_map_impl is_ascii); [exact ascii_lower_ascii|exact H].
Qed.

Lemma normalize_pix_key_ascii (key : pystr) :
  forallb is_ascii key = true ->
  forallb is_ascii (_normalize_pix_key key) = true.
Proof.
  intros Hkey. destruct key as [|c0 k0]; [reflexivity|].
  unfold _normalize_pix_key.
  pose proof (strip_forallb is_ascii _ Hkey) as Hk.
  set (k := strip (c0 :: k0)) in *.
  assert (Hd : forallb is_ascii (filter is_digit k) = true)
    by (apply forallb_filter_keep; exact Hk).
  assert (Hh : forallb is_ascii (filter is_hex k) = true)
    by (apply forallb_filter_keep; exact Hk).
  assert (Hplus : forallb is_ascii (str "+" ++ filter is_digit k) = true)
    by (rewrite forallb_app, Hd; reflexivity).
  assert (Hplus55 : forallb is_ascii (str "+55" ++ filter is_digit k) = true)
    by (rewrite forallb_app, Hd; reflexivity).
  assert (Hhyp : forallb is_ascii
                   (lower (slice 0 8 (filter is_hex k) ++ [45]
                             ++ slice 8 12 (filter is_hex k) ++ [45]
                             ++ slice 12 16 (filter is_hex k) ++ [45]
                             ++ slice 16 20 (filter is_hex k) ++ [45]
                             ++ slice_from 20 (filter is_hex k))) = true).
  { apply lower_keeps_ascii. unfold slice_from. rewrite !forallb_app.
    cbn [forallb].
    rewrite !forallb_slice by exact Hh.
    rewrite (proj2 (forallb_firstn_skipn is_ascii 20 _ Hh)). reflexivity. }
  repeat match goal with
         | |- context [if ?b then _ else _] => destruct b
         end;
    first [assumption | apply lower_keeps_ascii; assumption].
Qed.

Lemma alnum_space_forallb_ascii (s : pystr) :
  forallb is_alnum_space s = true -> forallb is_ascii s = true.
Proof. apply forallb_impl. exact alnum_space_ascii. Qed.

Lemma normalize_txid_ascii (value : pystr) (n : Z) :
  forallb is_ascii (_normalize_txid value n) = true.
Proof.
  destruct (normalize_txid_alnum value n) as [->|[_ H]]; [reflexivity|].
  revert H. apply forallb_impl. intros c Hc.
  apply alnum_space_ascii, alnum_alnum_space. exact Hc.
Qed.

Lemma payload_fields_ascii (key name city : pystr)
  (amount : option Decimal) (description transaction_id pix_key_arg : pystr) :
  forallb is_ascii (str_or pix_key_arg key) = true ->
  forallb field_ascii
    (payload_fields (PixService_init key name city) amount description
       transaction_id pix_key_arg) = true.
Proof.
  intros Hkey. unfold payload_fields.
  assert (Htext : forall v n, forallb is_ascii (_normalize_text v n) = true)
    by (intros v n; apply alnum_space_forallb_ascii,
          normalize_text_alnum_space).
  assert (Hmai : forallb is_ascii
                   (serialize
                      (merchant_account_fields
                         (PixService_init key name city) description
                         pix_key_arg)) = true).
  { apply serialize_ascii. unfold merchant_account_fields.
    cbn [pix_key PixService_init].
    pose proof (Htext description 25) as Hd.
    pose proof (normalize_pix_key_ascii _ Hkey) as Hk.
    destruct (_normalize_text description 25) as [|c d];
      cbn [app forallb]; unfold field_ascii; cbn [fst snd];
      rewrite Hk, ?Hd; reflexivity. }
  assert (Hadf : forallb is_ascii
                   (serialize (additional_data_fields transaction_id))
                 = true).
  { apply serialize_ascii. unfold additional_data_fields.
    cbn [forallb]. unfold field_ascii. cbn [fst snd].
    rewrite normalize_txid_ascii. reflexivity. }
  assert (Hamt : forallb field_ascii (amount_fields amount) = true).
  { destruct (amount_fields_cases amount) as [[_ ->]|[a [-> [Hp ->]]]];
      [reflexivity|].
    cbn [forallb]. unfold field_ascii. cbn [fst snd].
    rewrite (format_2f_ascii a Hp). reflexivity. }
  assert (Hname : forallb is_ascii
                    (str_or (merchant_name (PixService_init key name city))
                       (str "PAGAMENTO")) = true).
  { cbn [merchant_name PixService_init].
    pose proof (Htext name 25) as H.
    destruct (_normalize_text name 25); [reflexivity|exact H]. }
  assert (Hcity : forallb is_ascii
                    (str_or (merchant_city (PixService_init key name city))
                       (str "BRASIL")) = true).
  { cbn [merchant_city PixService_init].
    pose proof (Htext city 15) as H.
    destruct (_normalize_text city 15); [reflexivity|exact H]. }
  rewrite !forallb_app, Hamt. cbn [forallb]. unfold field_ascii.
  cbn [fst snd]. rewrite Hmai, Hadf, Hname, Hcity. reflexivity.
Qed.

(** X26. When the key is made of ASCII characters, so is the payload,
    whatever the name, the city, the description and the transaction id: it
    is its own UTF-8 encoding, one byte for each character. *)
Theorem payload_ascii (key name city : pystr) (amount : option Decimal)
  (description transaction_id pix_key_arg s : pystr) :
  forallb is_ascii (str_or pix_key_arg key) = true ->
  generate_pix_code (PixService_init key name city) amount description
    transaction_id pix_key_arg = Ok s ->
  forallb is_ascii s = true /\ encode_utf8 s = Ok s.
Proof.
  intros Hkey Hgen.
  destruct (generate_pix_code_ok _ _ _ _ _ _ Hgen) as [data [_ [_ [_ Hs]]]].
  assert (Hascii : forallb is_ascii s = true).
  { rewrite Hs. apply serialize_ascii. rewrite forallb_app.
    rewrite payload_fields_ascii by exact Hkey. cbn [forallb].
    unfold field_ascii. cbn [fst snd].
    assert (Hcrc : forallb is_ascii (hex4 (crc16_ccitt_false data)) = true).
    { assert (Hrange : 0 <= crc16_ccitt_false data < 65536)
        by (rewrite <- crc16_loop_spec; apply crc16_loop_range).
      generalize (hex4_upper_hex _ Hrange). apply forallb_impl.
      exact upper_hex_ascii. }
    rewrite Hcrc. reflexivity. }
  split; [exact Hascii|apply encode_utf8_ascii; exact Hascii].
Qed.
End AsciiPayload.

Lemma payload_ascii_witness :
  forallb is_ascii sample_payload = true
  /\ encode_utf8 sample_payload = Ok sample_payload.
Proof.
  apply (@payload_ascii ascii_db ascii_db_spec (str "test@example.com")
           (str "LOJA TESTE") (str "SAO PAULO")
           (Some (Finite false 2500 (-2))) (str "Mensalidade") (str "ABC123")
           []); [reflexivity|exact sample_generate].
Defined.

(** ** The two composite fields *)

Section Composite.
Context {U : Unicode}.

(** The sub-field of the description, when the normalized description is
    not empty. *)
Definition description_field (description : pystr) : pystr :=
  match description with
  | [] => []
  | _ :: _ =>
      str "02" ++ two_digits (Z.of_nat (length description)) ++ description
  end.

(** X27. The merchant account information, for a normalized key of at most
    99 characters: its content is the GUI, the key after ["01"] and its
    two-digit length and, unless the normalized description is empty, the
    description after ["02"] and its length; the content has 22 characters
    more than the key and 4 more than the description. *)
Theorem merchant_account_info_content (self : PixService)
  (payload : PixPayload) :
  let key :=
    _normalize_pix_key (str_or (payload_pix_key payload) (pix_key self)) in
  let description := _normalize_text (payload_description payload) 25 in
  let content :=
    str "0014br.gov.bcb.pix" ++ str "01"
      ++ two_digits (Z.of_nat (length key)) ++ key
      ++ description_field description in
  (length key <= 99)%nat ->
  _build_merchant_account_info self payload
  = _format_emv_field (str "26") content
  /\ length content
     = (22 + length key
        + match description with
          | [] => 0
          | _ :: _ => 4 + length description
          end)%nat.
Proof.
  cbv zeta. intros Hk.
  pose proof (normalize_text_length (payload_description payload) 25
                ltac:(lia)) as Hd.
  change (Z.to_nat 25) with 25%nat in Hd.
  rewrite build_merchant_account_info_fields.
  unfold merchant_account_fields.
  generalize dependent (_normalize_pix_key
                          (str_or (payload_pix_key payload) (pix_key self))).
  intros key Hk.
  assert (Hgui : (length PIX_GUI <= 99)%nat) by (cbn; lia).
  destruct (_normalize_text (payload_description payload) 25) as [|c d].
  - cbn [app description_field]. rewrite !serialize_cons. cbn [fst snd].
    rewrite (format_emv_field_short (str "00") PIX_GUI Hgui),
      (format_emv_field_short (str "01") key Hk).
    cbn [serialize flat_map]. rewrite !app_nil_r. split.
    + f_equal; rewrite <- ?app_assoc; reflexivity.
    + rewrite !length_app. unfold two_digits. cbn [length].
      change (length (str "0014br.gov.bcb.pix")) with 18%nat.
      change (length (str "01")) with 2%nat. lia.
  - assert (Hd99 : (length (c :: d) <= 99)%nat) by lia.
    cbn [app description_field]. rewrite !serialize_cons. cbn [fst snd].
    rewrite (format_emv_field_short (str "00") PIX_GUI Hgui),
      (format_emv_field_short (str "01") key Hk),
      (format_emv_field_short (str "02") (c :: d) Hd99).
    cbn [serialize flat_map]. rewrite !app_nil_r. split.
    + f_equal; rewrite <- ?app_assoc; reflexivity.
    + rewrite !length_app. unfold two_digits.
      change (length (str "0014br.gov.bcb.pix")) with 18%nat.
      change (length (str "01")) with 2%nat.
      change (length (str "02")) with 2%nat.
      cbn [length]. lia.
Qed.

(** X28. The additional data field always fits its length prefixes: it is
    ["62"], the two digits of 4 more than the length of the transaction id,
    ["05"], the two digits of that length, and the normalized transaction
    id, of 1 to 25 characters. *)
Theorem additional_data_field_format (payload : PixPayload) :
  let txid := _normalize_txid (payload_transaction_id payload) 25 in
  _build_additional_data_field payload
  = str "62" ++ two_digits (4 + Z.of_nat (length txid)) ++ str "05"
      ++ two_digits (Z.of_nat (length txid)) ++ txid
  /\ (1 <= length txid <= 25)%nat.
Proof.
  cbv zeta. unfold _build_additional_data_field.
  pose proof (normalize_txid_length (payload_transaction_id payload)) as Hlen.
  assert (Hne : _normalize_txid (payload_transaction_id payload) 25 <> []).
  { unfold _normalize_txid.
    destruct (payload_transaction_id payload); [discriminate|].
    destruct (slice_to _ 25); discriminate. }
  generalize dependent (_normalize_txid (payload_transaction_id payload) 25).
  intros txid Hlen Hne. split.
  - rewrite (format_emv_field_short (str "05") txid) by lia.
    assert (Hl : length (str "05" ++ two_digits (Z.of_nat (length txid))
                           ++ txid)
                 = (4 + length txid)%nat).
    { rewrite !length_app. unfold two_digits. cbn [length].
      change (length (str "05")) with 2%nat. lia. }
    rewrite format_emv_field_short by (rewrite Hl; lia).
    rewrite Hl.
    replace (Z.of_nat (4 + length txid)) with (4 + Z.of_nat (length txid))
      by lia.
    reflexivity.
  - destruct txid; [contradiction|]. cbn [length] in *. lia.
Qed.
End Composite.

Lemma merchant_account_info_content_witness :
  @_build_merchant_account_info ascii_db sample_service
    {| payload_pix_key := []; payload_merchant_name := str "LOJA TESTE";
       payload_merchant_city := str "SAO PAULO"; payload_amount := None;
       payload_description := str "Mensalidade";
       payload_transaction_id := str "ABC123" |}
  = str "26530014br.gov.bcb.pix0116test@example.com0211MENSALIDADE".
Proof.
  destruct (@merchant_account_info_content ascii_db sample_service
              {| payload_pix_key := [];
                 payload_merchant_name := str "LOJA TESTE";
                 payload_merchant_city := str "SAO PAULO";
                 payload_amount := None;
                 payload_description := str "Mensalidade";
                 payload_transaction_id := str "ABC123" |}
              ltac:(vm_compute; lia)) as [H _].
  rewrite H. reflexivity.
Defined.
